(** * Age-verification GAP server: a Rocq model of simple-gap-server.js,
      src/gap-server.js and the AgeVerification circuit.

    The request handlers are embedded as functions threading an explicit
    [World]: the [proofCache] map, the number of clock reads made so far and
    the trace of the strings fed to the hash. A handler takes the parsed
    request body and returns the status and the body of its answer; logging
    is left out, and [async] functions are modelled by their results.

    Node's [crypto] SHA-256 is a parameter of the servers ([Section]
    variable [sha256_hex]), and so is the host clock. A byte-level SHA-256 is
    given first, so that the handlers can be run on concrete requests.

    The router of simple-gap-server.js ([Router]), the EntityProof circuit
    ([EntityCircuit]) and the class of src/compact-integration.js
    ([CompactAgeVerification]), whose runtime is a parameter, come after the
    servers.

    The bodies of the requests are typed as the interface of the servers
    documents them: the year, the month and the day of a birth date are
    integers, the secret, the commitment, the credential id and the
    jurisdiction code are strings, the amount is a number, and each may be
    absent. A field of another JSON type (a month given as the string "5", an
    amount given as "abc") is outside the model: JavaScript would convert it
    in comparisons and in template literals, and no statement below speaks
    of such a request. The integers stand for doubles: where it matters, a
    statement assumes them below 2^53 in magnitude ([safe_integer]), where a
    double holds them exactly and prints them as their decimal digits, and
    assumes dates within the range of [Date] ([holds_time]). *)

From Stdlib Require Import ZArith List Ascii String Floats.
From stdpp Require Import gmap strings pretty.
Import ListNotations.

Local Open Scope Z_scope.
Local Open Scope string_scope.

(** ** SHA-256 (FIPS 180-4) on byte strings, hexadecimal digest.

    This is what [createHash('sha256').update(s).digest('hex')] computes on
    the bytes of [s]. Words are 32-bit integers kept in [Z]. *)
Module SHA256.

Definition mask32 : Z := 0xFFFFFFFF.
Definition add32 (x y : Z) : Z := Z.land (x + y) mask32.
Definition rotr (n x : Z) : Z :=
  Z.lor (Z.shiftr x n) (Z.land (Z.shiftl x (32 - n)) mask32).
Definition not32 (x : Z) : Z := Z.lxor x mask32.

Definition Ch (x y z : Z) : Z := Z.lxor (Z.land x y) (Z.land (not32 x) z).
Definition Maj (x y z : Z) : Z :=
  Z.lxor (Z.lxor (Z.land x y) (Z.land x z)) (Z.land y z).
Definition Sigma0 (x : Z) : Z := Z.lxor (Z.lxor (rotr 2 x) (rotr 13 x)) (rotr 22 x).
Definition Sigma1 (x : Z) : Z := Z.lxor (Z.lxor (rotr 6 x) (rotr 11 x)) (rotr 25 x).
Definition sigma0 (x : Z) : Z := Z.lxor (Z.lxor (rotr 7 x) (rotr 18 x)) (Z.shiftr x 3).
Definition sigma1 (x : Z) : Z := Z.lxor (Z.lxor (rotr 17 x) (rotr 19 x)) (Z.shiftr x 10).

(** The round constants are the first 32 bits of the fractional parts of the
    cube roots of the first 64 primes, the initial hash value those of the
    square roots of the first 8. *)
Definition is_prime (n : Z) : bool :=
  (1 <? n)%Z && forallb (fun d => negb (n mod d =? 0)%Z) (map Z.of_nat (seq 2 (Z.to_nat n - 2))).

Definition primes64 : list Z := firstn 64 (filter is_prime (map Z.of_nat (seq 2 310))).

(** Integer cube root by bisection: [lo ^ 3 <= n < hi ^ 3] throughout. *)
Fixpoint icbrt_go (fuel : nat) (lo hi n : Z) : Z :=
  match fuel with
  | O => lo
  | S fuel' =>
      let mid := (lo + hi) / 2 in
      if (mid * mid * mid <=? n)%Z then icbrt_go fuel' mid hi n else icbrt_go fuel' lo mid n
  end.

Definition frac32_cbrt (p : Z) : Z := Z.land (icbrt_go 40 0 (2 ^ 36) (p * 2 ^ 96)) mask32.
Definition frac32_sqrt (p : Z) : Z := Z.land (Z.sqrt (p * 2 ^ 64)) mask32.

Definition K : list Z := Eval vm_compute in map frac32_cbrt primes64.
Definition H0 : list Z := Eval vm_compute in map frac32_sqrt (firstn 8 primes64).

Definition bytes_of_string (s : string) : list Z :=
  map (fun c => Z.of_N (Ascii.N_of_ascii c)) (String.list_ascii_of_string s).

(** Big-endian bytes of [x], [n] of them. *)
Fixpoint be_bytes (n : nat) (x : Z) : list Z :=
  match n with
  | O => []
  | S n' => Z.land (Z.shiftr x (8 * Z.of_nat n')) 0xFF :: be_bytes n' x
  end.

Definition pad (msg : list Z) : list Z :=
  let len := Z.of_nat (length msg) in
  let zeros := Z.to_nat ((55 - len) mod 64) in
  (msg ++ [0x80] ++ repeat 0 zeros ++ be_bytes 8 (8 * len))%list.

Fixpoint words_of_bytes (n : nat) (bs : list Z) : list Z :=
  match n, bs with
  | S n', b0 :: b1 :: b2 :: b3 :: rest =>
      (Z.shiftl b0 24 + Z.shiftl b1 16 + Z.shiftl b2 8 + b3) :: words_of_bytes n' rest
  | _, _ => []
  end.

Definition wd (ws : list Z) (i : nat) : Z := nth i ws 0.

(** The 64-entry message schedule of one block. *)
Definition schedule (block : list Z) : list Z :=
  fold_left
    (fun ws t =>
       (ws ++ [add32 (add32 (sigma1 (wd ws (t - 2))) (wd ws (t - 7)))
                     (add32 (sigma0 (wd ws (t - 15))) (wd ws (t - 16)))])%list)
    (seq 16 48) block.

Definition round (st : list Z) (kw : Z * Z) : list Z :=
  match st with
  | [a; b; c; d; e; f; g; h] =>
      let t1 := add32 (add32 (add32 h (Sigma1 e)) (add32 (Ch e f g) (fst kw))) (snd kw) in
      let t2 := add32 (Sigma0 a) (Maj a b c) in
      [add32 t1 t2; a; b; c; add32 d t1; e; f; g]
  | _ => st
  end.

Definition compress (h : list Z) (block : list Z) : list Z :=
  let st := fold_left round (combine K (schedule block)) h in
  map (fun p => add32 (fst p) (snd p)) (combine h st).

Fixpoint blocks (n : nat) (bs : list Z) (h : list Z) : list Z :=
  match n with
  | O => h
  | S n' => blocks n' (skipn 64 bs) (compress h (words_of_bytes 16 (firstn 64 bs)))
  end.

Definition hex_digit (d : Z) : string :=
  String.substring (Z.to_nat d) 1 "0123456789abcdef".

Fixpoint hex_word (n : nat) (x : Z) : string :=
  match n with
  | O => ""
  | S n' => hex_digit (Z.land (Z.shiftr x (4 * Z.of_nat n')) 0xF) +:+ hex_word n' x
  end.

Definition hex (s : string) : string :=
  let bs := pad (bytes_of_string s) in
  let h := blocks (length bs / 64)%nat bs H0 in
  fold_right (fun w acc => hex_word 8 w +:+ acc) "" h.

End SHA256.

(** ** JavaScript values as the handlers see them.

    A request field is present or absent after [JSON.parse] and destructuring
    ([None] is [undefined]).  Following the interface, date fields are JSON
    integers (kept in [Z]; exact for doubles below 2^53 and printed in decimal
    by a template literal), secrets, commitments and ids are strings, and the
    amount is any IEEE-754 double ([PrimFloat.float] is binary64, as a
    JavaScript number), which includes [NaN] and the infinities. *)

(** [!v] is [negb (truthy v)]. *)
Definition truthy_int (v : option Z) : bool :=
  match v with Some n => negb (n =? 0)%Z | None => false end.
Definition truthy_str (v : option string) : bool :=
  match v with Some s => negb (String.eqb s EmptyString) | None => false end.
Definition truthy_num (v : option float) : bool :=
  match v with Some x => negb (PrimFloat.is_zero x || PrimFloat.is_nan x) | None => false end.

(** Relational operators on numbers where an operand may be [undefined]:
    [ToNumber(undefined)] is [NaN], and every comparison with [NaN] is false. *)
Definition js_le (a b : option float) : bool :=
  match a, b with Some x, Some y => PrimFloat.leb x y | _, _ => false end.
Definition js_gt (a b : option float) : bool :=
  match a, b with Some x, Some y => PrimFloat.ltb y x | _, _ => false end.

(** [s.substring(0, 16)] *)
Definition substring16 (s : string) : string := String.substring 0 16 s.

(** *** [JSON.stringify] of the proof object. *)
Definition dquote : string := String "034"%char EmptyString.
Definition backslash : string := String "092"%char EmptyString.

(** QuoteJSONString: escapes for the quote, the backslash and the C0 controls. *)
Definition json_escape_char (c : ascii) : string :=
  let n := Ascii.N_of_ascii c in
  if (n =? 34)%N then backslash +:+ dquote
  else if (n =? 92)%N then backslash +:+ backslash
  else if (n =? 8)%N then backslash +:+ "b"
  else if (n =? 9)%N then backslash +:+ "t"
  else if (n =? 10)%N then backslash +:+ "n"
  else if (n =? 12)%N then backslash +:+ "f"
  else if (n =? 13)%N then backslash +:+ "r"
  else if (n <? 32)%N then
    backslash +:+ "u00" +:+ SHA256.hex_digit (Z.of_N (n / 16)) +:+ SHA256.hex_digit (Z.of_N (n mod 16))
  else String c EmptyString.

Fixpoint json_escape (s : string) : string :=
  match s with
  | EmptyString => EmptyString
  | String c s' => json_escape_char c +:+ json_escape s'
  end.

Definition json_string (s : string) : string := dquote +:+ json_escape s +:+ dquote.

Fixpoint json_join (items : list string) : string :=
  match items with
  | [] => EmptyString
  | [x] => x
  | x :: rest => x +:+ "," +:+ json_join rest
  end.

Definition json_array (items : list string) : string := "[" +:+ json_join items +:+ "]".
Definition json_member (key value : string) : string := json_string key +:+ ":" +:+ value.
Definition json_object (members : list string) : string := "{" +:+ json_join members +:+ "}".

(** The inner [proof] object literal of [generateZKProof]. *)
Record Groth16 := {
  pi_a : list string;
  pi_b : list (list string);
  pi_c : list string;
  protocol : string;
  curve : string
}.

(** The object returned by [generateZKProof]; [proofHash] is an own property
    only in simple-gap-server.js. *)
Record ZKProof := {
  proof : Groth16;
  publicSignals : list string;
  proofHash : option string
}.

Definition simulated_groth16 : Groth16 :=
  {| pi_a := ["0x1"; "0x2"; "0x1"];
     pi_b := [["0x1"; "0x2"]; ["0x3"; "0x4"]; ["0x1"; "0x1"]];
     pi_c := ["0x1"; "0x2"; "0x1"];
     protocol := "groth16";
     curve := "bn128" |}.

Definition JSON_stringify_groth16 (g : Groth16) : string :=
  json_object
    [ json_member "pi_a" (json_array (map json_string (pi_a g)));
      json_member "pi_b" (json_array (map (fun r => json_array (map json_string r)) (pi_b g)));
      json_member "pi_c" (json_array (map json_string (pi_c g)));
      json_member "protocol" (json_string (protocol g));
      json_member "curve" (json_string (curve g)) ].

Definition JSON_stringify (p : ZKProof) : string :=
  json_object
    ([ json_member "proof" (JSON_stringify_groth16 (proof p));
       json_member "publicSignals" (json_array (map json_string (publicSignals p))) ]
     ++ match proofHash p with
        | Some h => [ json_member "proofHash" (json_string h) ]
        | None => []
        end)%list.

(** ** Jurisdiction rules *)

Record Rules := { maxBet : float; minAge : Z; restricted : bool }.

(** What [rules[jurisdiction] || rules['default']] can evaluate to: an entry of
    the object literal, or a member inherited from [Object.prototype] (every
    one of them is a function or an object, hence truthy). *)
Inductive RulesValue :=
| OwnEntry (r : Rules)
| Inherited (name : string).

(** [rules.maxBet] and [rules.restricted]: an inherited member has neither
    property, so both read [undefined]. *)
Definition rules_maxBet (v : RulesValue) : option float :=
  match v with OwnEntry r => Some (maxBet r) | Inherited _ => None end.
Definition rules_restricted (v : RulesValue) : bool :=
  match v with OwnEntry r => restricted r | Inherited _ => false end.

Definition rules_US : Rules := {| maxBet := 10000%float; minAge := 21; restricted := false |}.
Definition rules_UK : Rules := {| maxBet := 50000%float; minAge := 18; restricted := false |}.
Definition rules_EU : Rules := {| maxBet := 25000%float; minAge := 18; restricted := false |}.
Definition rules_default : Rules := {| maxBet := 1000%float; minAge := 18; restricted := false |}.

(** Own properties of the [rules] literal. *)
Definition rules_own (key : string) : option Rules :=
  if String.eqb key "US" then Some rules_US
  else if String.eqb key "UK" then Some rules_UK
  else if String.eqb key "EU" then Some rules_EU
  else if String.eqb key "default" then Some rules_default
  else None.

(** Property names of [Object.prototype], the prototype of an object literal. *)
Definition object_prototype_keys : list string :=
  [ "constructor"; "__defineGetter__"; "__defineSetter__"; "hasOwnProperty";
    "__lookupGetter__"; "__lookupSetter__"; "isPrototypeOf"; "propertyIsEnumerable";
    "toString"; "valueOf"; "__proto__"; "toLocaleString" ].

(** Property key of [rules[jurisdiction]]: [ToPropertyKey(undefined)] is the
    string "undefined". *)
Definition property_key (jurisdiction : option string) : string :=
  match jurisdiction with Some s => s | None => "undefined" end.

(** [getJurisdictionRules] (the same text in both servers). *)
Definition getJurisdictionRules (jurisdiction : option string) : RulesValue :=
  let key := property_key jurisdiction in
  match rules_own key with
  | Some r => OwnEntry r
  | None =>
      if existsb (String.eqb key) object_prototype_keys then Inherited key
      else OwnEntry rules_default
  end.

(** The [reason] strings of the eligibility answers, one constructor per
    message of the source:
    - [ProofExpired]: 'Age verification proof has expired'
    - [PredicateNotMet]: 'Age verification failed - must be 18 or older'
    - [InvalidAmount]: 'Invalid betting amount'
    - [AmountExceedsLimit m]: `Betting amount exceeds maximum allowed ($m)`
    - [JurisdictionRestricted]: 'Sports betting restricted in this jurisdiction'
    - [Approved]: 'All eligibility requirements met' *)
Inductive Reason :=
| ProofExpired
| PredicateNotMet
| InvalidAmount
| AmountExceedsLimit (limit : float)
| JurisdictionRestricted
| Approved.

(** The object returned by [checkBettingEligibility]. *)
Record Check := { eligible : bool; reason : Reason }.

(** A [Date] object as the handlers observe it: [getTime()], [getFullYear()],
    [getMonth()] (0-based) and [getDate()], the last three in the host's local
    time. *)
Record DateObj := { getTime : Z; getFullYear : Z; getMonth : Z; getDate : Z }.

Definition msPerDay : Z := 24 * 60 * 60 * 1000.

(** ** The service state and its effects.

    [proofCache] is the [Map] of the server object; [clockReads] counts the
    clock reads made so far ([new Date()] and [Date.now()]); [hashed] is the
    trace of the strings passed to [createHash('sha256').update]. *)
Record World (E : Type) := mkWorld {
  proofCache : gmap string E;
  clockReads : nat;
  hashed : list string
}.
Arguments mkWorld {E} _ _ _.
Arguments proofCache {E} _.
Arguments clockReads {E} _.
Arguments hashed {E} _.

Definition M (E A : Type) : Type := World E -> A * World E.

Definition ret {E A} (a : A) : M E A := fun w => (a, w).
Definition bind {E A B} (m : M E A) (k : A -> M E B) : M E B :=
  fun w => let (a, w') := m w in k a w'.

Notation "x <- m ;; k" := (bind m (fun x => k))
  (at level 100, m at next level, right associativity).
Notation "m ;;; k" := (bind m (fun _ => k))
  (at level 100, right associativity).

Section Effects.
Context {E : Type}.
(** [createHash('sha256').update(s).digest('hex')] *)
Variable sha256_hex : string -> string.
(** The [n]-th reading of the host clock. *)
Variable clock : nat -> DateObj.

Definition sha256 (s : string) : M E string :=
  fun w => (sha256_hex s,
            mkWorld (proofCache w) (clockReads w) (hashed w ++ [s])%list).

(** [new Date()] *)
Definition new_Date : M E DateObj :=
  fun w => (clock (clockReads w),
            mkWorld (proofCache w) (S (clockReads w)) (hashed w)).

(** [Date.now()] *)
Definition Date_now : M E Z := d <- new_Date ;; ret (getTime d).

(** [this.proofCache.get(k)] *)
Definition cache_get (k : string) : M E (option E) :=
  fun w => (proofCache w !! k, w).

(** [this.proofCache.set(k, v)] *)
Definition cache_set (k : string) (v : E) : M E unit :=
  fun w => (tt, mkWorld (<[k := v]> (proofCache w)) (clockReads w) (hashed w)).
End Effects.

(** [v] when it is truthy: the fields that pass a [!v] guard. *)
Definition present_int (v : option Z) : option Z :=
  if truthy_int v then v else None.
Definition present_str (v : option string) : option string :=
  if truthy_str v then v else None.

(** ** simple-gap-server.js *)
Module Simple.

(** The bodies of the three POST routes, typed as documented; [None] is an
    absent field. *)
Record CommitmentRequest := {
  birthYear : option Z;
  birthMonth : option Z;
  birthDay : option Z;
  identitySecret : option string
}.

Record ProofRequest := {
  attributes : CommitmentRequest;
  identityCommitment : option string
}.

Record EligibilityRequest := {
  proofId : option string;
  bettingAmount : option float;
  jurisdiction : option string
}.

(** The value stored by [proofCache.set]. [timestamp] and [expiresAt] are the
    epoch milliseconds of the ISO strings the source stores ([toISOString]
    followed by [new Date(string)] is exact to the millisecond). *)
Record CachedProof := {
  c_proof : ZKProof;
  c_isEligible : bool;
  c_age : string;
  c_timestamp : Z;
  c_expiresAt : Z
}.

Inductive Body :=
| Error (error : string)
| CommitmentGenerated (commitment : string)
| ProofGenerated (proofId : string) (isEligible : bool) (age : string) (proofHash : string)
| ProofVerified (isValid isEligible : bool) (age : string) (timestamp expiresAt : Z)
                (message : string)
| Denied (reason : Reason)
| Eligibility (eligible canBet : bool) (reason : Reason) (maxBet : option float)
              (jurisdiction : string).

Record Response := { status : Z; body : Body }.

(** The body shape [{eligible: _, canBet: _, reason: _}]. *)
Definition canBet (b : Body) : bool :=
  match b with Eligibility _ c _ _ _ => c | _ => false end.
Definition reported_reason (b : Body) : option Reason :=
  match b with
  | Denied r => Some r
  | Eligibility _ _ r _ _ => Some r
  | _ => None
  end.

(** On numbers that are integers below 2^53 in magnitude, where the
    subtraction is exact and [===] is the equality of the integers. *)
Definition calculateAge (birthYear birthMonth birthDay currentYear currentMonth currentDay : Z) : Z :=
  let age := currentYear - birthYear in
  if (currentMonth <? birthMonth)%Z
     || ((currentMonth =? birthMonth)%Z && (currentDay <? birthDay)%Z)
  then age - 1
  else age.

Definition checkBettingEligibility (bettingAmount : option float) (rules : RulesValue) : Check :=
  if negb (truthy_num bettingAmount) || js_le bettingAmount (Some 0%float) then
    {| eligible := false; reason := InvalidAmount |}
  else if js_gt bettingAmount (rules_maxBet rules) then
    {| eligible := false;
       reason := AmountExceedsLimit (default 0%float (rules_maxBet rules)) |}
  else if rules_restricted rules then
    {| eligible := false; reason := JurisdictionRestricted |}
  else
    {| eligible := true; reason := Approved |}.

Section Server.
Variable sha256_hex : string -> string.
Variable clock : nat -> DateObj.

Abbreviation M := (M CachedProof).

(** The template literal prints a number that is an integer below 2^53 in
    magnitude as its decimal digits, which is what [pretty] gives. *)
Definition generateIdentityCommitment (birthYear birthMonth birthDay : Z)
    (identitySecret : string) : M string :=
  let input := pretty birthYear +:+ "-" +:+ pretty birthMonth +:+ "-"
               +:+ pretty birthDay +:+ "-" +:+ identitySecret in
  hash <- sha256 sha256_hex input ;;
  ret (substring16 hash).

(** The string hashed by [generateZKProof]. *)
Definition proof_preimage (identityCommitment : string) (isEligible : bool) (now : Z)
    : string :=
  identityCommitment +:+ "-" +:+ (if isEligible then "true" else "false")
  +:+ "-" +:+ pretty now.

(** Of its [input] object the function reads [identityCommitment] and
    [isEligible] only: they are its two parameters here. *)
Definition generateZKProof (identityCommitment : string) (isEligible : bool) : M ZKProof :=
  now <- Date_now clock ;;
  digest <- sha256 sha256_hex (proof_preimage identityCommitment isEligible now) ;;
  let proofHash := substring16 digest in
  ret {| proof := simulated_groth16;
         publicSignals := [if isEligible then "1" else "0"; proofHash];
         proofHash := Some proofHash |}.

Definition generateProofId (proof : ZKProof) : M string :=
  let proofString := JSON_stringify proof in
  digest <- sha256 sha256_hex proofString ;;
  ret (substring16 digest).

Definition age_label (isEligible : bool) : string :=
  if isEligible then "18+" else "under_18".

(** In the four handlers the body is [None] when [JSON.parse] throws, which
    the [catch] answers with 500. *)
Definition handleGenerateCommitment (body : option CommitmentRequest) : M Response :=
  match body with
  | None => ret {| status := 500; body := Error "Failed to generate commitment" |}
  | Some r =>
      match present_int (birthYear r), present_int (birthMonth r),
            present_int (birthDay r), present_str (identitySecret r) with
      | Some y, Some m, Some d, Some secret =>
          commitment <- generateIdentityCommitment y m d secret ;;
          ret {| status := 200; body := CommitmentGenerated commitment |}
      | _, _, _, _ =>
          ret {| status := 400;
                 body := Error "Missing required fields: birthYear, birthMonth, birthDay, identitySecret" |}
      end
  end.

Definition handleGenerateProof (body : option ProofRequest) : M Response :=
  match body with
  | None => ret {| status := 500; body := Error "Failed to generate age verification proof" |}
  | Some r =>
      match present_int (birthYear (attributes r)), present_int (birthMonth (attributes r)),
            present_int (birthDay (attributes r)), present_str (identitySecret (attributes r)),
            present_str (identityCommitment r) with
      | Some y, Some m, Some d, Some _, Some commitment =>
          now <- new_Date clock ;;
          let currentYear := getFullYear now in
          let currentMonth := getMonth now + 1 in
          let currentDay := getDate now in
          let age := calculateAge y m d currentYear currentMonth currentDay in
          let isEligible := (18 <=? age)%Z in
          proof <- generateZKProof commitment isEligible ;;
          proofId <- generateProofId proof ;;
          issued <- new_Date clock ;;
          t <- Date_now clock ;;
          cache_set proofId
            {| c_proof := proof;
               c_isEligible := isEligible;
               c_age := age_label isEligible;
               c_timestamp := getTime issued;
               c_expiresAt := t + msPerDay |} ;;;
          ret {| status := 200;
                 body := ProofGenerated proofId isEligible (age_label isEligible)
                           (default EmptyString (proofHash proof)) |}
      | _, _, _, _, _ =>
          ret {| status := 400; body := Error "Missing required fields for proof generation" |}
      end
  end.

(** The body is [{proofId}]: [None] when it does not parse, [Some proofId]
    otherwise. *)
Definition handleVerifyProof (body : option (option string)) : M Response :=
  match body with
  | None => ret {| status := 500; body := Error "Failed to verify proof" |}
  | Some proofId =>
      match present_str proofId with
      | None => ret {| status := 400; body := Error "Missing proofId" |}
      | Some id =>
          cachedProof <- cache_get id ;;
          match cachedProof with
          | None => ret {| status := 404; body := Error "Proof not found" |}
          | Some c =>
              now <- new_Date clock ;;
              let isExpired := (c_expiresAt c <? getTime now)%Z in
              ret {| status := 200;
                     body := ProofVerified (negb isExpired) (c_isEligible c) (c_age c)
                               (c_timestamp c) (c_expiresAt c)
                               (if negb isExpired && c_isEligible c
                                then "Valid proof - user is eligible for sports betting"
                                else if isExpired then "Proof has expired"
                                else "Invalid proof or user not eligible") |}
          end
      end
  end.

Definition handleBettingEligibility (body : option EligibilityRequest) : M Response :=
  match body with
  | None => ret {| status := 500; body := Error "Failed to check betting eligibility" |}
  | Some r =>
      match present_str (proofId r) with
      | None => ret {| status := 400; body := Error "Missing proofId" |}
      | Some id =>
          cachedProof <- cache_get id ;;
          match cachedProof with
          | None => ret {| status := 404; body := Error "Age verification proof not found" |}
          | Some c =>
              now <- new_Date clock ;;
              let isExpired := (c_expiresAt c <? getTime now)%Z in
              if isExpired then
                ret {| status := 400; body := Denied ProofExpired |}
              else if negb (c_isEligible c) then
                ret {| status := 200; body := Denied PredicateNotMet |}
              else
                let jurisdictionRules := getJurisdictionRules (jurisdiction r) in
                let eligibilityCheck :=
                  checkBettingEligibility (bettingAmount r) jurisdictionRules in
                ret {| status := 200;
                       body := Eligibility (eligible eligibilityCheck)
                                 (c_isEligible c && eligible eligibilityCheck)
                                 (reason eligibilityCheck)
                                 (rules_maxBet jurisdictionRules)
                                 (default "default" (present_str (jurisdiction r))) |}
          end
      end
  end.
End Server.
End Simple.

(** ** src/gap-server.js (the Express variant of the server) *)
Module Express.

(** The bodies of the routes, typed as in [Simple]. *)
Record CommitmentRequest := {
  birthYear : option Z;
  birthMonth : option Z;
  birthDay : option Z;
  identitySecret : option string
}.

Record ProofRequest := {
  attributes : CommitmentRequest;
  identityCommitment : option string
}.

Record EligibilityRequest := {
  proofId : option string;
  bettingAmount : option float;
  jurisdiction : option string
}.

(** The [input] object built by the /api/generate-proof route. *)
Record CircuitInput := {
  birth_year : Z;
  birth_month : Z;
  birth_day : Z;
  identity_secret : string;
  current_year : Z;
  current_month : Z;
  current_day : Z;
  identity_commitment : string;
  min_age : Z
}.

(** The value stored by [proofCache.set]: no expiry is recorded. *)
Record CachedProof := {
  c_proof : ZKProof;
  c_publicSignals : list string;
  c_timestamp : Z;
  c_isEligible : bool
}.

Inductive Body :=
| Error (error : string)
| CommitmentGenerated (commitment : string)
| ProofGenerated (proofId : string) (isEligible : bool) (proofHash : option string)
| ProofVerified (isValid isEligible : bool) (timestamp : Z) (message : string)
| Denied (reason : Reason)
| Eligibility (eligible canBet : bool) (reason : Reason) (maxBet : option float)
              (jurisdiction : string).

Record Response := { status : Z; body : Body }.

(** *** [new Date(year, monthIndex, day)], after ECMAScript's MakeDay. *)
Definition DayFromYear (y : Z) : Z :=
  365 * (y - 1970) + (y - 1969) / 4 - (y - 1901) / 100 + (y - 1601) / 400.

Definition InLeapYear (y : Z) : bool :=
  (y mod 4 =? 0)%Z && (negb (y mod 100 =? 0)%Z || (y mod 400 =? 0)%Z).

(** Day within the year of the first day of month [m] (0-based). *)
Definition DayWithinYear (leap : bool) (m : Z) : Z :=
  let l := if leap then 1 else 0 in
  match m with
  | 0 => 0
  | 1 => 31
  | 2 => 59 + l
  | 3 => 90 + l
  | 4 => 120 + l
  | 5 => 151 + l
  | 6 => 181 + l
  | 7 => 212 + l
  | 8 => 243 + l
  | 9 => 273 + l
  | 10 => 304 + l
  | _ => 334 + l
  end.

Definition MakeDay (year month date : Z) : Z :=
  let ym := year + month / 12 in
  let mn := month mod 12 in
  DayFromYear ym + DayWithinYear (InLeapYear ym) mn + date - 1.

(** Time value of local midnight of the given civil date, up to the host's
    offset from UTC, which cancels in the subtraction made by
    [generateZKProof] (a zone whose offset is the same at both dates).
    Years 0 to 99 mean 1900 to 1999. This is the time value of a [Date] that
    holds one; arguments too far from the epoch give an invalid [Date]. *)
Definition new_Date_ymd (year monthIndex day : Z) : Z :=
  let yr := if (0 <=? year)%Z && (year <=? 99)%Z then 1900 + year else year in
  msPerDay * MakeDay yr monthIndex day.

(** [365.25 * 24 * 60 * 60 * 1000], an exact double. *)
Definition msPerJulianYear : Z := 31557600000.

(** [Math.floor((currentDate - birthDate) / (365.25 * 24 * 60 * 60 * 1000))]:
    both operands are integers below 2^53 and the quotient of two such
    doubles never rounds up to the next integer in the range of time values,
    so the result is the floored integer quotient. (Two dates that hold a
    time: the difference is [NaN] otherwise.) *)
Definition approximate_age (i : CircuitInput) : Z :=
  let currentDate := new_Date_ymd (current_year i) (current_month i - 1) (current_day i) in
  let birthDate := new_Date_ymd (birth_year i) (birth_month i - 1) (birth_day i) in
  (currentDate - birthDate) / msPerJulianYear.

Definition verifyZKProof (proof : ZKProof) (publicSignals : list string) : bool := true.

Definition checkBettingEligibility (bettingAmount : option float) (rules : RulesValue) : Check :=
  if js_gt bettingAmount (rules_maxBet rules) then
    {| eligible := false;
       reason := AmountExceedsLimit (default 0%float (rules_maxBet rules)) |}
  else if rules_restricted rules then
    {| eligible := false; reason := JurisdictionRestricted |}
  else
    {| eligible := true; reason := Approved |}.

(** Value of a string of hexadecimal digits, [None] when a character is not
    one (where [BigInt('0x' + s)] throws a SyntaxError). *)
Definition hex_value (c : ascii) : option N :=
  let n := Ascii.N_of_ascii c in
  if (48 <=? n)%N && (n <=? 57)%N then Some (n - 48)%N
  else if (97 <=? n)%N && (n <=? 102)%N then Some (n - 87)%N
  else if (65 <=? n)%N && (n <=? 70)%N then Some (n - 55)%N
  else None.

Fixpoint hex_digits (acc : N) (s : string) : option N :=
  match s with
  | EmptyString => Some acc
  | String c s' =>
      match hex_value c with
      | Some d => hex_digits (16 * acc + d)%N s'
      | None => None
      end
  end.

Definition BigInt_of_hex (s : string) : option N :=
  match s with
  | EmptyString => None
  | _ => hex_digits 0%N s
  end.

Section Server.
Variable sha256_hex : string -> string.
Variable clock : nat -> DateObj.

Abbreviation M := (M CachedProof).

(** [None] when [BigInt] throws. The date fields print as in [Simple]. *)
Definition generateIdentityCommitment (birthYear birthMonth birthDay : Z)
    (identitySecret : string) : M (option N) :=
  let input := pretty birthYear +:+ "-" +:+ pretty birthMonth +:+ "-"
               +:+ pretty birthDay +:+ "-" +:+ identitySecret in
  hash <- sha256 sha256_hex input ;;
  ret (BigInt_of_hex (substring16 hash)).

Definition generateProofHash (input : CircuitInput) (isEligible : string) : M string :=
  let hashInput := identity_commitment input +:+ "-" +:+ isEligible +:+ "-"
                   +:+ pretty (current_year input) +:+ pretty (current_month input)
                   +:+ pretty (current_day input) in
  digest <- sha256 sha256_hex hashInput ;;
  ret (substring16 digest).

Definition generateZKProof (input : CircuitInput) : M ZKProof :=
  let age := approximate_age input in
  let isEligible := if (min_age input <=? age)%Z then "1" else "0" in
  proofHash <- generateProofHash input isEligible ;;
  ret {| proof := simulated_groth16;
         publicSignals := [isEligible; proofHash];
         proofHash := None |}.

Definition generateProofId (proof : ZKProof) : M string :=
  let proofString := JSON_stringify proof in
  digest <- sha256 sha256_hex proofString ;;
  ret (substring16 digest).

(** [proof.publicSignals[0] === '1'] *)
Definition signal_is_one (p : ZKProof) : bool :=
  match publicSignals p !! 0%nat with
  | Some s => String.eqb s "1"
  | None => false
  end.

Definition post_generate_commitment (r : CommitmentRequest) : M Response :=
  match present_int (birthYear r), present_int (birthMonth r),
        present_int (birthDay r), present_str (identitySecret r) with
  | Some y, Some m, Some d, Some secret =>
      commitment <- generateIdentityCommitment y m d secret ;;
      match commitment with
      | Some c => ret {| status := 200; body := CommitmentGenerated (pretty c) |}
      | None => ret {| status := 500; body := Error "Failed to generate commitment" |}
      end
  | _, _, _, _ =>
      ret {| status := 400;
             body := Error "Missing required fields: birthYear, birthMonth, birthDay, identitySecret" |}
  end.

Definition post_generate_proof (r : ProofRequest) : M Response :=
  match present_int (birthYear (attributes r)), present_int (birthMonth (attributes r)),
        present_int (birthDay (attributes r)), present_str (identitySecret (attributes r)),
        present_str (identityCommitment r) with
  | Some y, Some m, Some d, Some secret, Some commitment =>
      now <- new_Date clock ;;
      let input :=
        {| birth_year := y; birth_month := m; birth_day := d;
           identity_secret := secret;
           current_year := getFullYear now;
           current_month := getMonth now + 1;
           current_day := getDate now;
           identity_commitment := commitment;
           min_age := 18 |} in
      proof <- generateZKProof input ;;
      proofId <- generateProofId proof ;;
      issued <- new_Date clock ;;
      cache_set proofId
        {| c_proof := proof;
           c_publicSignals := publicSignals proof;
           c_timestamp := getTime issued;
           c_isEligible := signal_is_one proof |} ;;;
      ret {| status := 200;
             body := ProofGenerated proofId (signal_is_one proof)
                       (publicSignals proof !! 1%nat) |}
  | _, _, _, _, _ =>
      ret {| status := 400; body := Error "Missing required fields for proof generation" |}
  end.

Definition post_verify_proof (proofId : option string) : M Response :=
  match present_str proofId with
  | None => ret {| status := 400; body := Error "Missing proofId" |}
  | Some id =>
      cachedProof <- cache_get id ;;
      match cachedProof with
      | None => ret {| status := 404; body := Error "Proof not found" |}
      | Some c =>
          let isValid := verifyZKProof (c_proof c) (c_publicSignals c) in
          ret {| status := 200;
                 body := ProofVerified isValid (c_isEligible c) (c_timestamp c)
                           (if isValid && c_isEligible c
                            then "Valid proof - user is eligible for sports betting"
                            else "Invalid proof or user not eligible") |}
      end
  end.

Definition post_betting_eligibility (r : EligibilityRequest) : M Response :=
  match present_str (proofId r) with
  | None => ret {| status := 400; body := Error "Missing proofId" |}
  | Some id =>
      cachedProof <- cache_get id ;;
      match cachedProof with
      | None => ret {| status := 404; body := Error "Age verification proof not found" |}
      | Some c =>
          if negb (c_isEligible c) then
            ret {| status := 200; body := Denied PredicateNotMet |}
          else
            let jurisdictionRules := getJurisdictionRules (jurisdiction r) in
            let eligibilityCheck :=
              checkBettingEligibility (bettingAmount r) jurisdictionRules in
            ret {| status := 200;
                   body := Eligibility (eligible eligibilityCheck)
                             (c_isEligible c && eligible eligibilityCheck)
                             (reason eligibilityCheck)
                             (rules_maxBet jurisdictionRules)
                             (default "default" (present_str (jurisdiction r))) |}
      end
  end.
End Server.
End Express.

(** ** The AgeVerification circuit (circom).

    The constraints of the template, over the scalar field of BN254: a signal
    is an integer taken modulo [p]. The comparators are those of circomlib:
    [LessThan(n)] gives [in[0] + 2^n - in[1]] to [Num2Bits(n + 1)], which has
    a witness only when that field element is below [2^(n+1)], and returns
    one minus its bit [n]; the three other comparators are instances of it.
    [None] means that a constraint has no solution, so that no witness, hence
    no proof, exists. The template is read as the system of equations it
    writes: the product of five signals in [date_valid] is taken as it
    stands. *)
Module Circuit.

(** The order of the scalar field of BN254. *)
Definition p : Z :=
  21888242871839275222246405745257275088548364400416034343698204186575808495617.

Record Inputs := {
  birth_year : Z;
  birth_month : Z;
  birth_day : Z;
  identity_secret : Z;
  current_year : Z;
  current_month : Z;
  current_day : Z;
  identity_commitment : Z;
  min_age : Z
}.

Record Outputs := { is_eligible : Z; proof_hash : Z }.

(** [n2b.in <== in[0] + (1 << n) - in[1]; out <== 1 - n2b.out[n]] *)
Definition LessThan (n : Z) (a b : Z) : option Z :=
  let n2b_in := (a + 2 ^ n - b) mod p in
  if (n2b_in <? 2 ^ (n + 1))%Z then Some ((1 - Z.land (Z.shiftr n2b_in n) 1) mod p)
  else None.
Definition LessEqThan (n : Z) (a b : Z) : option Z := LessThan n a (b + 1).
Definition GreaterThan (n : Z) (a b : Z) : option Z := LessThan n b a.
Definition GreaterEqThan (n : Z) (a b : Z) : option Z := LessThan n b (a + 1).

(** [IsZero] and [IsEqual]: [in[1] - in[0] ==> isz.in]. *)
Definition IsZero (x : Z) : Z := if (x mod p =? 0)%Z then 1 else 0.
Definition IsEqual (a b : Z) : Z := IsZero (b - a).

Section Template.
(** [Poseidon(4)] and [Poseidon(3)] of circomlib. *)
Variable Poseidon4 : Z -> Z -> Z -> Z -> Z.
Variable Poseidon3 : Z -> Z -> Z -> Z.

Definition has_had_birthday (i : Inputs) : option Z :=
  month_check ← GreaterThan 8 (current_month i) (birth_month i);
  day_check ← GreaterEqThan 8 (current_day i) (birth_day i);
  Some ((month_check + IsEqual (current_month i) (birth_month i) * day_check) mod p).

Definition age_years (i : Inputs) : option Z :=
  has_had_birthday ← has_had_birthday i;
  Some ((current_year i - birth_year i - (1 - has_had_birthday)) mod p).

Definition date_valid (i : Inputs) : option Z :=
  year_range ← LessEqThan 12 (birth_year i) 2024;
  month_range1 ← GreaterEqThan 8 (birth_month i) 1;
  month_range2 ← LessEqThan 8 (birth_month i) 12;
  day_range1 ← GreaterEqThan 8 (birth_day i) 1;
  day_range2 ← LessEqThan 8 (birth_day i) 31;
  Some ((year_range * month_range1 * month_range2 * day_range1 * day_range2) mod p).

Definition AgeVerification (i : Inputs) : option Outputs :=
  let identity_hasher_out :=
    Poseidon4 (birth_year i) (birth_month i) (birth_day i) (identity_secret i) in
  if negb ((identity_commitment i - identity_hasher_out) mod p =? 0)%Z then None
  else
    age_years ← age_years i;
    is_eligible ← GreaterEqThan 8 age_years (min_age i);
    let proof_hash :=
      Poseidon3 (identity_commitment i) is_eligible
        ((current_year i * 10000 + current_month i * 100 + current_day i) mod p) in
    date_valid ← date_valid i;
    if negb (date_valid =? 1)%Z then None
    else Some {| is_eligible := is_eligible; proof_hash := proof_hash |}.
End Template.
End Circuit.

(** Arguments for which [new Date(year, monthIndex, day)] holds a time: a
    year and a month index within the bounds that the engines put on them,
    and a day, that lead to a day less than 10^8 days from the epoch. (The
    time values of a [Date] reach 10^8 days either side of the epoch; the
    last day is left to the offset of the zone.) For other arguments the
    [Date] may be invalid, and its time value [NaN]. *)
Definition holds_time (year monthIndex day : Z) : Prop :=
  Z.abs year <= 1000000 /\ Z.abs monthIndex <= 10000000
  /\ Z.abs day <= 10000000000
  /\ Z.abs (Express.new_Date_ymd year monthIndex day) < 100000000 * msPerDay.

(** An integer that a double holds exactly, so that the arithmetic and the
    comparisons of the servers on it are those of the integers, and that it
    prints in a template literal as its decimal digits. *)
Definition safe_integer (z : Z) : Prop := - 2 ^ 53 < z < 2 ^ 53.

(** The fields of a [Date] that holds a time: a year within the range of
    [Date], a month index in 0..11 and a day of the month in 1..31. *)
Definition calendar_fields (t : DateObj) : Prop :=
  -271821 <= getFullYear t <= 275760 /\ 0 <= getMonth t <= 11 /\ 1 <= getDate t <= 31.

(** [LessThan(n)] has a witness on [a] and [b]: their difference is a
    signed number of [n] bits, so that [a + 2^n - b] has [n + 1] bits. *)
Definition fits (n a b : Z) : bool := (- 2 ^ n <=? a - b)%Z && (a - b <? 2 ^ n)%Z.

(** A signal that stands for an integer far from the order of the field:
    no sum or difference of two of them wraps around. *)
Definition no_wrap (z : Z) : Prop := - 2 ^ 250 < z < 2 ^ 250.

(** Rewrites every comparator whose operands do not wrap around, with the
    lemma [cases] on [LessThan] and the lemma [bounds] on [no_wrap]. *)
Ltac comparator_cases cases bounds :=
  repeat match goal with
         | H : no_wrap _ |- _ => apply bounds in H
         end;
  rewrite ?cases
    by (unfold Circuit.p; try change (2 ^ 8) with 256; try change (2 ^ 12) with 4096;
        try change (2 ^ 64) with 18446744073709551616; lia).

(** ** Specification-side definitions *)

(** The reason selected by a list of checks tried in order: that of the first
    check that fails, [Approved] when none does. *)
Fixpoint first_failing (checks : list (bool * Reason)) : Reason :=
  match checks with
  | [] => Approved
  | (fails, r) :: rest => if fails then r else first_failing rest
  end.

(** Whole years between two civil dates by the birthday rule: the difference
    of the years, less one unless the reference (month, day) is on or after
    the birth (month, day). *)
Definition on_or_after (cm cd bm bd : Z) : Prop := bm < cm \/ (cm = bm /\ bd <= cd).

(** An amount that is absent, [NaN], or at most zero. *)
Definition nonpositive_or_nan (amount : option float) : Prop :=
  match amount with
  | None => True
  | Some x => PrimFloat.is_nan x = true \/ PrimFloat.leb x 0%float = true
  end.

(** The 64-bit fingerprint both servers keep of a digest. *)
Definition fingerprint (sha256_hex : string -> string) (s : string) : string :=
  substring16 (sha256_hex s).

(** The proof object [generateZKProof] of simple-gap-server.js returns when
    its clock read is [t]. *)
Definition proof_at (sha256_hex : string -> string) (commitment : string)
    (isEligible : bool) (t : Z) : ZKProof :=
  let h := fingerprint sha256_hex (Simple.proof_preimage commitment isEligible t) in
  {| proof := simulated_groth16;
     publicSignals := [if isEligible then "1" else "0"; h];
     proofHash := Some h |}.

(** Unfolds the effects of a handler. *)
Ltac run_handler :=
  unfold bind, ret, sha256, new_Date, Date_now, cache_get, cache_set, bind, ret;
  cbn [fst snd proofCache clockReads hashed].

(** The guards of [checkBettingEligibility] in simple-gap-server.js. *)
Definition invalid_amount (amount : option float) : bool :=
  negb (truthy_num amount) || js_le amount (Some 0%float).
Definition exceeds_limit (amount : option float) (rules : RulesValue) : bool :=
  js_gt amount (rules_maxBet rules).
Definition limit_of (rules : RulesValue) : float := default 0%float (rules_maxBet rules).

(** The five checks in the order the code makes them. *)
Definition checks_in_code_order (expired isEligible : bool) (amount : option float)
    (rules : RulesValue) : list (bool * Reason) :=
  [ (expired, ProofExpired);
    (negb isEligible, PredicateNotMet);
    (invalid_amount amount, InvalidAmount);
    (exceeds_limit amount rules, AmountExceedsLimit (limit_of rules));
    (rules_restricted rules, JurisdictionRestricted) ].

(** The same checks in the order of the specification: the restriction of the
    jurisdiction before the limit. *)
Definition checks_in_specified_order (expired isEligible : bool) (amount : option float)
    (rules : RulesValue) : list (bool * Reason) :=
  [ (expired, ProofExpired);
    (negb isEligible, PredicateNotMet);
    (invalid_amount amount, InvalidAmount);
    (rules_restricted rules, JurisdictionRestricted);
    (exceeds_limit amount rules, AmountExceedsLimit (limit_of rules)) ].

(** The third check as the specification words it: an amount that is at most
    zero or not finite. An absent amount is no number at all and is taken as
    invalid. *)
Definition non_finite (x : float) : bool :=
  PrimFloat.is_nan x || PrimFloat.eqb x PrimFloat.infinity
  || PrimFloat.eqb x PrimFloat.neg_infinity.
Definition invalid_amount_as_specified (amount : option float) : bool :=
  match amount with
  | Some x => PrimFloat.leb x 0%float || non_finite x
  | None => true
  end.

(** The five checks in the order of the specification, with its own third
    check. *)
Definition checks_as_specified (expired isEligible : bool) (amount : option float)
    (rules : RulesValue) : list (bool * Reason) :=
  [ (expired, ProofExpired);
    (negb isEligible, PredicateNotMet);
    (invalid_amount_as_specified amount, InvalidAmount);
    (rules_restricted rules, JurisdictionRestricted);
    (exceeds_limit amount rules, AmountExceedsLimit (limit_of rules)) ].

(** The amount is the number [Infinity]. *)
Definition is_positive_infinity (amount : option float) : bool :=
  match amount with Some x => PrimFloat.eqb x PrimFloat.infinity | None => false end.

Definition is_approved (r : Reason) : bool :=
  match r with Approved => true | _ => false end.

(** One of the two strings is a prefix of the other. *)
Fixpoint prefix_comparable (a b : string) : bool :=
  match a, b with
  | String x a', String y b' => Ascii.eqb x y && prefix_comparable a' b'
  | _, _ => true
  end.

Definition all_ascii : list ascii := map ascii_of_nat (seq 0 256).

(** [verifyZKProof(proof, publicSignals, commitment)]: a call that passes the
    commitment as a third argument, which the two-parameter function drops. *)
Definition verify (proof : ZKProof) (publicSignals : list string) (commitment : string) : bool :=
  Express.verifyZKProof proof publicSignals.

(** ** Concrete clocks, stores and requests *)
Module Scenario.

(** A host on 2024-05-15 from 08:00:00 UTC, one millisecond later at each read. *)
Definition clock_2024 (n : nat) : DateObj :=
  {| getTime := 1715760000000 + Z.of_nat n;
     getFullYear := 2024; getMonth := 4; getDate := 15 |}.

(** The same host, read for the fifth time two days later. *)
Definition clock_two_days_on (n : nat) : DateObj :=
  if (n <? 4)%nat then clock_2024 n
  else {| getTime := 1715760000000 + 2 * msPerDay + Z.of_nat n;
          getFullYear := 2024; getMonth := 4; getDate := 17 |}.

(** A host on 2023-05-15. *)
Definition clock_2023 (n : nat) : DateObj :=
  {| getTime := 1684137600000 + Z.of_nat n;
     getFullYear := 2023; getMonth := 4; getDate := 15 |}.

(** Two hosts, on 2024-05-25 and on 2024-09-17 (UTC), whose second clock
    reads are 1716617722981 and 1726594856365. *)
Definition clock_may_25 (n : nat) : DateObj :=
  {| getTime := 1716617722980 + Z.of_nat n;
     getFullYear := 2024; getMonth := 4; getDate := 25 |}.
Definition clock_september_17 (n : nat) : DateObj :=
  {| getTime := 1726594856364 + Z.of_nat n;
     getFullYear := 2024; getMonth := 8; getDate := 17 |}.

Definition fresh : World Simple.CachedProof := mkWorld ∅ 0 [].
Definition fresh_express : World Express.CachedProof := mkWorld ∅ 0 [].

(** A fresh server whose clock has been read once. *)
Definition fresh_later : World Simple.CachedProof := mkWorld ∅ 1 [].

(** Born 1990-05-15. *)
Definition adult : Simple.CommitmentRequest :=
  {| Simple.birthYear := Some 1990; Simple.birthMonth := Some 5;
     Simple.birthDay := Some 15; Simple.identitySecret := Some "s3cret" |}.

(** The same attributes with a commitment that is not theirs. *)
Definition forged : Simple.ProofRequest :=
  {| Simple.attributes := adult;
     Simple.identityCommitment := Some "0000000000000000" |}.

Definition forged_express : Express.ProofRequest :=
  {| Express.attributes :=
       {| Express.birthYear := Some 1990; Express.birthMonth := Some 5;
          Express.birthDay := Some 15; Express.identitySecret := Some "s3cret" |};
     Express.identityCommitment := Some "0000000000000000" |}.

(** The honest request: the commitment is the one /api/generate-commitment
    returns for [adult]. *)
Definition honest : Simple.ProofRequest :=
  {| Simple.attributes := adult;
     Simple.identityCommitment := Some "eb3eb8dfffe6b022" |}.

(** Month 13 and day 40. *)
Definition out_of_range : Simple.CommitmentRequest :=
  {| Simple.birthYear := Some 1990; Simple.birthMonth := Some 13;
     Simple.birthDay := Some 40; Simple.identitySecret := Some "s3cret" |}.

(** No [birthDay]. *)
Definition incomplete : Simple.CommitmentRequest :=
  {| Simple.birthYear := Some 1990; Simple.birthMonth := Some 5;
     Simple.birthDay := None; Simple.identitySecret := Some "s3cret" |}.

(** Born 2005-05-15, asked on 2023-05-15: the eighteenth birthday. *)
Definition eighteen_today : Express.CircuitInput :=
  {| Express.birth_year := 2005; Express.birth_month := 5; Express.birth_day := 15;
     Express.identity_secret := "s3cret";
     Express.current_year := 2023; Express.current_month := 5; Express.current_day := 15;
     Express.identity_commitment := "eb3eb8dfffe6b022";
     Express.min_age := 18 |}.

Definition eighteen_today_request : Express.ProofRequest :=
  {| Express.attributes :=
       {| Express.birthYear := Some 2005; Express.birthMonth := Some 5;
          Express.birthDay := Some 15; Express.identitySecret := Some "s3cret" |};
     Express.identityCommitment := Some "eb3eb8dfffe6b022" |}.

(** The store after the honest proof request on the fresh server. *)
Definition issued : World Simple.CachedProof :=
  snd (Simple.handleGenerateProof SHA256.hex clock_2024 (Some honest) fresh).

(** The id and the entry stored by the honest request. *)
Definition issued_id : string := "44710c33267ee0cb".
Definition issued_entry : Simple.CachedProof :=
  {| Simple.c_proof := proof_at SHA256.hex "eb3eb8dfffe6b022" true 1715760000001;
     Simple.c_isEligible := true;
     Simple.c_age := "18+";
     Simple.c_timestamp := 1715760000002;
     Simple.c_expiresAt := 1715846400003 |}.

(** 500 in the US, on the credential of the honest request. *)
Definition bet_500_US : Simple.EligibilityRequest :=
  {| Simple.proofId := Some issued_id;
     Simple.bettingAmount := Some 500%float;
     Simple.jurisdiction := Some "US" |}.

(** 15000 in the US, on the same credential: over the limit of 10000. *)
Definition bet_15000_US : Simple.EligibilityRequest :=
  {| Simple.proofId := Some issued_id;
     Simple.bettingAmount := Some 15000%float;
     Simple.jurisdiction := Some "US" |}.

(** An infinite amount in the US, on the same credential. *)
Definition bet_infinity_US : Simple.EligibilityRequest :=
  {| Simple.proofId := Some issued_id;
     Simple.bettingAmount := Some PrimFloat.infinity;
     Simple.jurisdiction := Some "US" |}.

(** A negative amount in the US, on the same credential. *)
Definition bet_negative_US : Simple.EligibilityRequest :=
  {| Simple.proofId := Some issued_id;
     Simple.bettingAmount := Some (-5)%float;
     Simple.jurisdiction := Some "US" |}.

(** A billion under the jurisdiction code "constructor". *)
Definition bet_billion_constructor : Simple.EligibilityRequest :=
  {| Simple.proofId := Some issued_id;
     Simple.bettingAmount := Some 1000000000%float;
     Simple.jurisdiction := Some "constructor" |}.

(** The store of src/gap-server.js after the request of [eighteen_today_request]
    on 2023-05-15, with the id and the entry it holds. *)
Definition issued_express : World Express.CachedProof :=
  snd (Express.post_generate_proof SHA256.hex clock_2023 eighteen_today_request
         fresh_express).
Definition issued_express_id : string := "ce6b9cfd4337cf66".
Definition issued_express_entry : Express.CachedProof :=
  {| Express.c_proof :=
       {| proof := simulated_groth16;
          publicSignals := ["0"; "d5ba04a1b86ce276"];
          proofHash := None |};
     Express.c_publicSignals := ["0"; "d5ba04a1b86ce276"];
     Express.c_timestamp := 1684137600001;
     Express.c_isEligible := false |}.

(** A policy that is restricted and has a limit of 100. *)
Definition restricted_policy : RulesValue :=
  OwnEntry {| maxBet := 100%float; minAge := 18; restricted := true |}.

End Scenario.

(** ** Request routing in simple-gap-server.js *)
Module Router.

(** A parsed JSON body: the fields the handlers destructure, each present or
    not. *)
Record JsonBody := {
  birthYear : option Z;
  birthMonth : option Z;
  birthDay : option Z;
  identitySecret : option string;
  identityCommitment : option string;
  proofId : option string;
  bettingAmount : option float;
  jurisdiction : option string
}.

(** [req.method], the pathname of [req.url], and the body once received:
    [None] when [JSON.parse] throws on it. *)
Record Request := { method : string; path : string; body : option JsonBody }.

(** What is written to [res]: the empty 200 of a preflight, the health
    object, or the JSON answer of a handler. *)
Inductive Reply :=
| Preflight
| Health (timestamp : Z)
| Answer (r : Simple.Response).

Definition reply_status (a : Reply) : Z :=
  match a with
  | Preflight => 200
  | Health _ => 200
  | Answer r => Simple.status r
  end.

(** The fields each handler destructures from the body. *)
Definition commitment_fields (b : JsonBody) : Simple.CommitmentRequest :=
  {| Simple.birthYear := birthYear b; Simple.birthMonth := birthMonth b;
     Simple.birthDay := birthDay b; Simple.identitySecret := identitySecret b |}.
Definition proof_fields (b : JsonBody) : Simple.ProofRequest :=
  {| Simple.attributes := commitment_fields b;
     Simple.identityCommitment := identityCommitment b |}.
Definition eligibility_fields (b : JsonBody) : Simple.EligibilityRequest :=
  {| Simple.proofId := proofId b; Simple.bettingAmount := bettingAmount b;
     Simple.jurisdiction := jurisdiction b |}.

Section Server.
Variable sha256_hex : string -> string.
Variable clock : nat -> DateObj.

Abbreviation M := (M Simple.CachedProof).

Definition handleHealth : M Reply :=
  now <- new_Date clock ;;
  ret (Health (getTime now)).

Definition handle404 : M Reply :=
  ret (Answer {| Simple.status := 404; Simple.body := Simple.Error "Endpoint not found" |}).

(** The log line of a request that is not a preflight reads the clock before
    the request is dispatched. A request is handled once its body has
    arrived, without interleaving with another one. *)
Definition handleRequest (req : Request) : M Reply :=
  if String.eqb (method req) "OPTIONS" then ret Preflight
  else
    new_Date clock ;;;
    if String.eqb (method req) "GET" && String.eqb (path req) "/health" then
      handleHealth
    else if String.eqb (method req) "POST"
            && String.eqb (path req) "/api/generate-commitment" then
      r <- Simple.handleGenerateCommitment sha256_hex (option_map commitment_fields (body req)) ;;
      ret (Answer r)
    else if String.eqb (method req) "POST" && String.eqb (path req) "/api/generate-proof" then
      r <- Simple.handleGenerateProof sha256_hex clock (option_map proof_fields (body req)) ;;
      ret (Answer r)
    else if String.eqb (method req) "POST" && String.eqb (path req) "/api/verify-proof" then
      r <- Simple.handleVerifyProof clock (option_map proofId (body req)) ;;
      ret (Answer r)
    else if String.eqb (method req) "POST"
            && String.eqb (path req) "/api/betting-eligibility" then
      r <- Simple.handleBettingEligibility clock (option_map eligibility_fields (body req)) ;;
      ret (Answer r)
    else handle404.

(** The server answering a sequence of requests, one after the other. *)
Fixpoint serve (reqs : list Request) : M (list Reply) :=
  match reqs with
  | [] => ret []
  | req :: rest =>
      a <- handleRequest req ;;
      l <- serve rest ;;
      ret (a :: l)
  end.
End Server.
End Router.

(** ** Specification-side definitions for the further properties *)

(** The civil date [(y1, m1, d1)] is on or before [(y2, m2, d2)]. *)
Definition date_le (y1 m1 d1 y2 m2 d2 : Z) : Prop :=
  y1 < y2 \/ (y1 = y2 /\ (m1 < m2 \/ (m1 = m2 /\ d1 <= d2))).

(** A stored credential whose key is the id of its proof, whose proof is one
    [generateZKProof] makes for its eligibility flag, and whose age label is
    that of the flag. *)
Definition entry_well_formed (sha256_hex : string -> string) (k : string)
    (e : Simple.CachedProof) : Prop :=
  k = fingerprint sha256_hex (JSON_stringify (Simple.c_proof e))
  /\ Simple.c_age e = Simple.age_label (Simple.c_isEligible e)
  /\ exists commitment t,
       commitment <> EmptyString
       /\ Simple.c_proof e = proof_at sha256_hex commitment (Simple.c_isEligible e) t.

(** A stored credential whose timestamp and expiry come from two successive
    clock reads made before the [hi]-th: the expiry is the second reading
    plus 24 hours. *)
Definition entry_timed (clock : nat -> DateObj) (hi : nat) (e : Simple.CachedProof) : Prop :=
  exists i : nat,
    (S i < hi)%nat
    /\ Simple.c_timestamp e = getTime (clock i)
    /\ Simple.c_expiresAt e = getTime (clock (S i)) + msPerDay.

(** The readings of the clock never go back. *)
Definition clock_monotone (clock : nat -> DateObj) : Prop :=
  forall n, getTime (clock n) <= getTime (clock (S n)).

(** The route that issues credentials. *)
Definition is_generate_proof (req : Router.Request) : bool :=
  String.eqb (Router.method req) "POST" && String.eqb (Router.path req) "/api/generate-proof".

(** ** The EntityProof circuit (circuits/entity_proof.circom).

    As for [Circuit]: signals modulo [Circuit.p], the comparators of
    circomlib on 64 bits, [None] when a constraint has no solution. *)
Module EntityCircuit.

Record Inputs := {
  entity_id : Z;
  secret_key : Z;
  balance : Z;
  timestamp : Z;
  commitment : Z;
  min_balance_threshold : Z;
  max_timestamp : Z
}.

Record Outputs := { valid_entity : Z; proof_hash : Z }.

Section Template.
(** [Poseidon(4)] and [Poseidon(2)] of circomlib. *)
Variable Poseidon4 : Z -> Z -> Z -> Z -> Z.
Variable Poseidon2 : Z -> Z -> Z.

Definition EntityProof (i : Inputs) : option Outputs :=
  let hasher_out := Poseidon4 (entity_id i) (secret_key i) (balance i) (timestamp i) in
  if negb ((commitment i - hasher_out) mod Circuit.p =? 0)%Z then None
  else
    balance_check ← Circuit.GreaterEqThan 64 (balance i) (min_balance_threshold i);
    timestamp_check ← Circuit.LessEqThan 64 (timestamp i) (max_timestamp i);
    let valid_entity := (balance_check * timestamp_check) mod Circuit.p in
    Some {| valid_entity := valid_entity;
            proof_hash := Poseidon2 (commitment i) valid_entity |}.
End Template.
End EntityCircuit.

(** The characters of [s] are hexadecimal digits. *)
Fixpoint all_hex (s : string) : bool :=
  match s with
  | EmptyString => true
  | String c s' =>
      match Express.hex_value c with Some _ => all_hex s' | None => false end
  end.

(** Days from the birth date to the current date of a circuit input, as
    [new Date(y, m - 1, d)] counts them. *)
Definition elapsed_days (i : Express.CircuitInput) : Z :=
  Express.MakeDay (Express.current_year i) (Express.current_month i - 1) (Express.current_day i)
  - Express.MakeDay (Express.birth_year i) (Express.birth_month i - 1) (Express.birth_day i).

(** ** A session with the router, and a minor *)
Module Session.

Definition health_check : Router.Request :=
  {| Router.method := "GET"; Router.path := "/health"; Router.body := None |}.

(** The body of [Scenario.honest], posted to /api/generate-proof. *)
Definition honest_post : Router.Request :=
  {| Router.method := "POST"; Router.path := "/api/generate-proof";
     Router.body :=
       Some {| Router.birthYear := Some 1990; Router.birthMonth := Some 5;
               Router.birthDay := Some 15; Router.identitySecret := Some "s3cret";
               Router.identityCommitment := Some "eb3eb8dfffe6b022";
               Router.proofId := None; Router.bettingAmount := None;
               Router.jurisdiction := None |} |}.

Definition requests : list Router.Request := [health_check; honest_post].

(** The server after [requests], from the fresh one: seven clock reads, and one
    credential. *)
Definition served : World Simple.CachedProof :=
  snd (Router.serve SHA256.hex Scenario.clock_2024 requests Scenario.fresh).
Definition served_id : string := "c22ebc0914469fbb".
Definition served_entry : Simple.CachedProof :=
  {| Simple.c_proof := proof_at SHA256.hex "eb3eb8dfffe6b022" true 1715760000004;
     Simple.c_isEligible := true;
     Simple.c_age := "18+";
     Simple.c_timestamp := 1715760000005;
     Simple.c_expiresAt := 1715846400006 |}.

(** Born 2010-01-01: fourteen on 2024-05-15. *)
Definition minor : Simple.ProofRequest :=
  {| Simple.attributes :=
       {| Simple.birthYear := Some 2010; Simple.birthMonth := Some 1;
          Simple.birthDay := Some 1; Simple.identitySecret := Some "s3cret" |};
     Simple.identityCommitment := Some "eb3eb8dfffe6b022" |}.
Definition minor_issued : World Simple.CachedProof :=
  snd (Simple.handleGenerateProof SHA256.hex Scenario.clock_2024 (Some minor) Scenario.fresh).
Definition minor_id : string := "40eee8e8488d81f2".

End Session.

(** Days of month [m] (1 to 12), and the dates of the civil calendar. *)
Definition days_in_month (leap : bool) (m : Z) : Z :=
  match m with
  | 2 => if leap then 29 else 28
  | 4 | 6 | 9 | 11 => 30
  | _ => 31
  end.

Definition civil_date (y m d : Z) : Prop :=
  1 <= m <= 12 /\ 1 <= d <= days_in_month (Express.InLeapYear y) m.

(** Case analysis on a month between 1 and 12. *)
Ltac month_cases m :=
  let H := fresh "Hm" in
  assert (m = 1 \/ m = 2 \/ m = 3 \/ m = 4 \/ m = 5 \/ m = 6 \/ m = 7 \/ m = 8 \/ m = 9
          \/ m = 10 \/ m = 11 \/ m = 12) as H by lia;
  repeat (destruct H as [H|H]; [subst m|]); [..|subst m].


(** Stand-ins for [Poseidon(4)] and [Poseidon(3)] in examples, and the
    outputs of the circuit under them for the birth date 1990-05-15, the
    secret 7, the commitment 2017 and the date 2024-05-15. *)
Definition example_Poseidon4 (a b c d : Z) : Z := a + b + c + d.
Definition example_Poseidon3 (a b c : Z) : Z := a + b + c.
Definition example_Poseidon2 (a b : Z) : Z := a + b.
Definition example_circuit_inputs : Circuit.Inputs :=
  {| Circuit.birth_year := 1990; Circuit.birth_month := 5; Circuit.birth_day := 15;
     Circuit.identity_secret := 7;
     Circuit.current_year := 2024; Circuit.current_month := 5; Circuit.current_day := 15;
     Circuit.identity_commitment := 2017; Circuit.min_age := 18 |}.
Definition example_circuit_outputs : Circuit.Outputs :=
  {| Circuit.is_eligible := 1; Circuit.proof_hash := 2017 + 1 + 20240515 |}.

(** An entity of balance 5000 at time 1700000000, against the threshold
    1000 and the latest time 1800000000. *)
Definition example_entity_inputs : EntityCircuit.Inputs :=
  {| EntityCircuit.entity_id := 42; EntityCircuit.secret_key := 7;
     EntityCircuit.balance := 5000; EntityCircuit.timestamp := 1700000000;
     EntityCircuit.commitment := 42 + 7 + 5000 + 1700000000;
     EntityCircuit.min_balance_threshold := 1000;
     EntityCircuit.max_timestamp := 1800000000 |}.
Definition example_entity_outputs : EntityCircuit.Outputs :=
  {| EntityCircuit.valid_entity := 1;
     EntityCircuit.proof_hash := 42 + 7 + 5000 + 1700000000 + 1 |}.

(** The decimal digits. *)
Definition is_digit (c : ascii) : bool :=
  let n := Ascii.N_of_ascii c in (48 <=? n)%N && (n <=? 57)%N.

Fixpoint all_digits (s : string) : bool :=
  match s with
  | EmptyString => true
  | String c s' => is_digit c && all_digits s'
  end.

(** The inputs [generateZKProof] of src/gap-server.js is given for someone
    born 1990-05-15, on 11 January and on 1 November 2024. *)
Definition january_eleventh : Express.CircuitInput :=
  {| Express.birth_year := 1990; Express.birth_month := 5; Express.birth_day := 15;
     Express.identity_secret := "s3cret";
     Express.current_year := 2024; Express.current_month := 1; Express.current_day := 11;
     Express.identity_commitment := "eb3eb8dfffe6b022";
     Express.min_age := 18 |}.

Definition november_first : Express.CircuitInput :=
  {| Express.birth_year := 1990; Express.birth_month := 5; Express.birth_day := 15;
     Express.identity_secret := "s3cret";
     Express.current_year := 2024; Express.current_month := 11; Express.current_day := 1;
     Express.identity_commitment := "eb3eb8dfffe6b022";
     Express.min_age := 18 |}.

(** ** src/compact-integration.js

    The class [CompactAgeVerification] drives the Compact runtime of the
    Midnight network. The runtime is outside the repository: each of its
    calls is an oracle that, given the calls made so far, returns a value or
    throws. The methods are [async]; a method is modelled as run to
    completion, each [await] in turn, a rejected promise being an exception.
    Birth dates and current dates are integral numbers, as the servers
    receive them, so that [BigInt] accepts them; the identity secret is a
    string; what the runtime returns is an object, except for [verifyProof],
    which returns a boolean, and for [queryState], which may resolve to
    [null] or [undefined]. *)
Module CompactAgeVerification.

(** The calls to the provider library and to the runtime. *)
Inductive Call :=
| GetProvider
| NewCompact
| CompactInitialize
| CreateCommitment
| GenerateProof
| VerifyProof
| CreateTransaction
| SubmitTransaction
| QueryState
| SignData
| CompactDisconnect
| CommitmentToString.

(** Where a TypeError comes from: a method called on [this.compact] when it
    is [null], [commitment.toString()] on a commitment that has no such
    method ([null] and [undefined] among them), and the hashing of a proof
    that [JSON.stringify] cannot serialise. *)
Inductive TypeErrorCause :=
| NullCompact (c : Call)
| NoToString
| NotSerialisable.

(** What a method throws: [new Error(message)], the SyntaxError of [BigInt]
    on a string that is not an integer literal, a TypeError, or what the
    runtime threw. *)
Inductive Error (E : Type) :=
| JsError (message : string)
| SyntaxError
| TypeError (cause : TypeErrorCause)
| Raised (e : E).
Arguments JsError {E} _.
Arguments SyntaxError {E}.
Arguments TypeError {E} _.
Arguments Raised {E} _.

Inductive Outcome (E A : Type) :=
| Returns (a : A)
| Throws (e : Error E).
Arguments Returns {E A} _.
Arguments Throws {E A} _.

(** [identityData], [currentDate], and the objects the methods build. The
    fields of the dates are numbers, integers that [BigInt] takes and that
    [calculateAge] compares as they are; the secret is a string. *)
Record IdentityData (C : Type) := {
  birthYear : Z;
  birthMonth : Z;
  birthDay : Z;
  identitySecret : string;
  identityCommitment : C
}.
Arguments birthYear {C} _.
Arguments birthMonth {C} _.
Arguments birthDay {C} _.
Arguments identitySecret {C} _.
Arguments identityCommitment {C} _.

Record CurrentDate := { year : Z; month : Z; day : Z }.

(** The [proofInputs] of [generateAgeProof], private and public. *)
Record ProofInputs (C : Type) := {
  birth_year : Z;
  birth_month : Z;
  birth_day : Z;
  identity_secret : Z;
  current_year : Z;
  current_month : Z;
  current_day : Z;
  min_age : Z;
  identity_commitment : C
}.

(** The result of [generateAgeProof]. *)
Record AgeProof (P : Type) := {
  proof : P;
  isEligible : bool;
  proofHash : string;
  timestamp : Z;
  age : string
}.
Arguments proof {P} _.
Arguments isEligible {P} _.
Arguments proofHash {P} _.
Arguments timestamp {P} _.
Arguments age {P} _.

(** The argument of [createTransaction], of type 'age_verification'. *)
Record TransactionRequest (P : Type) := {
  from : string;
  data_proof_hash : string;
  data_is_eligible : bool;
  data_timestamp : Z;
  tx_proof : P
}.

Record Submission (H : Type) := {
  success : bool;
  transactionHash : H;
  submitted_networkId : string
}.

(** What [queryState] resolves to: [null], [undefined], or a record. *)
Inductive QueryResult :=
| Null
| Undefined
| StateRecord (is_eligible : bool) (state_timestamp : option Z).

(** The result of [queryVerificationStatus]; the object of the [catch] branch
    has neither [isEligible] nor [timestamp]. *)
Record VerificationStatus := {
  exists_ : bool;
  status_isEligible : option bool;
  status_timestamp : option Z;
  verified : bool
}.

Record Certificate := {
  proof_hash : string;
  is_eligible : bool;
  jurisdiction : string;
  max_bet_amount : float;
  issued_at : Z;
  expires_at : Z;
  certificate_id : string
}.

Record NetworkInfo := {
  info_networkId : string;
  info_initialized : bool;
  info_provider : string
}.

(** The types of the runtime's values and what it answers to each call,
    after the calls in [list Call]: [inl e] when it throws [e]. A commitment
    is a value that has a [toString] method; [createCommitment] may resolve
    to a value that has none ([None]). *)
Record Runtime := {
  Provider : Type;
  Handle : Type;
  Commitment : Type;
  Proof : Type;
  PublicInputs : Type;
  Transaction : Type;
  TxHash : Type;
  Signed : Type;
  Exn : Type;
  MidnightProviders_getProvider : list Call -> string -> Exn + Provider;
  new_Compact : list Call -> Provider -> string -> Exn + Handle;
  compact_initialize : list Call -> Handle -> Exn + unit;
  compact_createCommitment :
    list Call -> Handle -> Z * Z * Z * Z -> Exn + option Commitment;
  commitment_toString : list Call -> Commitment -> Exn + string;
  compact_generateProof :
    list Call -> Handle -> string -> ProofInputs Commitment -> Exn + Proof;
  compact_verifyProof : list Call -> Handle -> string -> Proof -> PublicInputs -> Exn + bool;
  compact_createTransaction :
    list Call -> Handle -> TransactionRequest Proof -> Exn + Transaction;
  compact_submitTransaction : list Call -> Handle -> Transaction -> Exn + TxHash;
  compact_queryState : list Call -> Handle -> string -> Exn + QueryResult;
  compact_signData : list Call -> Handle -> Certificate -> Exn + Signed;
  compact_disconnect : list Call -> Handle -> Exn + unit
}.

Section Class.
Variable R : Runtime.
(** [BigInt] on a string ([None]: SyntaxError), [JSON.stringify] on a proof of
    the runtime ([inl e] when a [toJSON] of the proof throws [e], [inr None]
    when it throws a TypeError, as on a BigInt or on a cycle, or returns
    [undefined]), SHA-256 and the clock. *)
Variable BigInt : string -> option Z.
Variable JSON_stringify_proof : Proof R -> Exn R + option string.
Variable sha256_hex : string -> string.
Variable clock : nat -> DateObj.

(** The fields of the object, the calls made so far and the number of clock
    reads. *)
Record State := {
  networkId : string;
  provider : option (Provider R);
  compact : option (Handle R);
  initialized : bool;
  calls : list Call;
  reads : nat
}.

Definition constructor (networkId : string) : State :=
  {| networkId := networkId; provider := None; compact := None; initialized := false;
     calls := []; reads := 0 |}.

Definition M (A : Type) : Type := State -> Outcome (Exn R) A * State.

Definition ret {A : Type} (a : A) : M A := fun s => (Returns a, s).

Definition bind {A B : Type} (m : M A) (k : A -> M B) : M B :=
  fun s =>
    match m s with
    | (Returns a, s') => k a s'
    | (Throws e, s') => (Throws e, s')
    end.

Definition throw {A : Type} (e : Error (Exn R)) : M A := fun s => (Throws e, s).

(** [try { m } catch (error) { handler }] *)
Definition try_catch {A : Type} (m : M A) (handler : Error (Exn R) -> M A) : M A :=
  fun s =>
    match m s with
    | (Returns a, s') => (Returns a, s')
    | (Throws e, s') => handler e s'
    end.

Definition get : M State := fun s => (Returns s, s).

Definition set_provider (p : Provider R) : M unit :=
  fun s => (Returns tt,
            {| networkId := networkId s; provider := Some p; compact := compact s;
               initialized := initialized s; calls := calls s; reads := reads s |}).

Definition set_compact (h : Handle R) : M unit :=
  fun s => (Returns tt,
            {| networkId := networkId s; provider := provider s; compact := Some h;
               initialized := initialized s; calls := calls s; reads := reads s |}).

Definition set_initialized (b : bool) : M unit :=
  fun s => (Returns tt,
            {| networkId := networkId s; provider := provider s; compact := compact s;
               initialized := b; calls := calls s; reads := reads s |}).

(** A call of the library or of the runtime. *)
Definition call {A : Type} (c : Call) (answer : list Call -> Exn R + A) : M A :=
  fun s =>
    let s' := {| networkId := networkId s; provider := provider s; compact := compact s;
                 initialized := initialized s; calls := (calls s ++ [c])%list;
                 reads := reads s |} in
    match answer (calls s) with
    | inl e => (Throws (Raised e), s')
    | inr a => (Returns a, s')
    end.

(** [this.compact.method(...)]: a TypeError when [this.compact] is [null]. *)
Definition this_compact {A : Type} (c : Call)
    (answer : list Call -> Handle R -> Exn R + A) : M A :=
  fun s =>
    match compact s with
    | None => (Throws (TypeError (NullCompact c)), s)
    | Some h => call c (fun l => answer l h) s
    end.

(** [new Date()] *)
Definition new_Date : M DateObj :=
  fun s => (Returns (clock (reads s)),
            {| networkId := networkId s; provider := provider s; compact := compact s;
               initialized := initialized s; calls := calls s; reads := S (reads s) |}).

(** [BigInt(s)] on a string. *)
Definition BigInt_of (s : string) : M Z :=
  match BigInt s with
  | Some n => ret n
  | None => throw SyntaxError
  end.

Declare Scope compact_scope.
Notation "x <- m ;; k" := (bind m (fun x => k))
  (at level 100, m at next level, right associativity) : compact_scope.
Notation "m ;;; k" := (bind m (fun _ => k))
  (at level 100, right associativity) : compact_scope.
Local Open Scope compact_scope.

(** [if (!this.initialized) throw new Error('Compact not initialized')] *)
Definition require_initialized : M unit :=
  s <- get ;;
  if negb (initialized s) then throw (JsError "Compact not initialized") else ret tt.

Definition initialize : M bool :=
  try_catch
    (s <- get ;;
     p <- call GetProvider (fun l => MidnightProviders_getProvider R l (networkId s)) ;;
     set_provider p ;;;
     h <- call NewCompact (fun l => new_Compact R l p (networkId s)) ;;
     set_compact h ;;;
     this_compact CompactInitialize (compact_initialize R) ;;;
     set_initialized true ;;;
     ret true)
    (fun _ => ret false).

Definition createIdentityCommitment (birthYear birthMonth birthDay : Z)
    (identitySecret : string) : M (Commitment R) :=
  require_initialized ;;;
  try_catch
    (secret <- BigInt_of identitySecret ;;
     commitment <- this_compact CreateCommitment
                     (fun l h => compact_createCommitment R l h
                                   (birthYear, birthMonth, birthDay, secret)) ;;
     match commitment with
     | Some commitment =>
         call CommitmentToString (fun l => commitment_toString R l commitment) ;;;
         ret commitment
     | None => throw (TypeError NoToString)
     end)
    (fun error => throw error).

Definition calculateAge (birthYear birthMonth birthDay currentYear currentMonth currentDay : Z)
    : Z :=
  let age := currentYear - birthYear in
  if (currentMonth <? birthMonth)%Z
     || ((currentMonth =? birthMonth)%Z && (currentDay <? birthDay)%Z)
  then age - 1 else age.

(** [createHash('sha256').update(proofString)] throws a TypeError when
    [proofString] is [undefined]. *)
Definition generateProofHash (proof : Proof R) : M string :=
  match JSON_stringify_proof proof with
  | inl e => throw (Raised e)
  | inr None => throw (TypeError NotSerialisable)
  | inr (Some proofString) => ret (substring16 (sha256_hex proofString))
  end.

Definition generateAgeProof (identityData : IdentityData (Commitment R))
    (currentDate : CurrentDate) : M (AgeProof (Proof R)) :=
  require_initialized ;;;
  try_catch
    (secret <- BigInt_of (identitySecret identityData) ;;
     let proofInputs :=
       {| birth_year := birthYear identityData;
          birth_month := birthMonth identityData;
          birth_day := birthDay identityData;
          identity_secret := secret;
          current_year := year currentDate;
          current_month := month currentDate;
          current_day := day currentDate;
          min_age := 18;
          identity_commitment := identityCommitment identityData |} in
     proof <- this_compact GenerateProof
                (fun l h => compact_generateProof R l h "age_verification" proofInputs) ;;
     let age :=
       calculateAge (birthYear identityData) (birthMonth identityData)
         (birthDay identityData) (year currentDate) (month currentDate) (day currentDate) in
     proofHash <- generateProofHash proof ;;
     now <- new_Date ;;
     ret {| proof := proof;
            isEligible := (18 <=? age)%Z;
            proofHash := proofHash;
            timestamp := getTime now;
            age := if (18 <=? age)%Z then "18+" else "under_18" |})
    (fun error => throw error).

Definition verifyAgeProof (proof : Proof R) (publicInputs : PublicInputs R) : M bool :=
  require_initialized ;;;
  try_catch
    (isValid <- this_compact VerifyProof
                  (fun l h => compact_verifyProof R l h "age_verification" proof
                                publicInputs) ;;
     ret isValid)
    (fun _ => ret false).

Definition submitVerificationToNetwork (proofData : AgeProof (Proof R))
    (walletAddress : string) : M (Submission (TxHash R)) :=
  require_initialized ;;;
  try_catch
    (transaction <- this_compact CreateTransaction
                      (fun l h => compact_createTransaction R l h
                                    {| from := walletAddress;
                                       data_proof_hash := proofHash proofData;
                                       data_is_eligible := isEligible proofData;
                                       data_timestamp := timestamp proofData;
                                       tx_proof := proof proofData |}) ;;
     txHash <- this_compact SubmitTransaction
                 (fun l h => compact_submitTransaction R l h transaction) ;;
     s <- get ;;
     ret {| success := true; transactionHash := txHash;
            submitted_networkId := networkId s |})
    (fun error => throw error).

Definition queryVerificationStatus (proofHash : string) : M VerificationStatus :=
  require_initialized ;;;
  try_catch
    (status <- this_compact QueryState (fun l h => compact_queryState R l h proofHash) ;;
     ret {| exists_ := match status with Null => false | _ => true end;
            status_isEligible :=
              Some (match status with StateRecord e _ => e | _ => false end);
            status_timestamp :=
              match status with StateRecord _ t => t | _ => None end;
            verified := true |})
    (fun _ => ret {| exists_ := false; status_isEligible := None;
                     status_timestamp := None; verified := false |}).

(** [Date.now()] *)
Definition Date_now : M Z := d <- new_Date ;; ret (getTime d).

Definition generateCertificateId (proofHash jurisdiction : string) : M string :=
  now <- Date_now ;;
  ret (String.substring 0 12
         (sha256_hex (proofHash +:+ "-" +:+ jurisdiction +:+ "-" +:+ pretty now))).

Definition createBettingCertificate (proofData : AgeProof (Proof R)) (jurisdiction : string)
    (maxBetAmount : float) : M (Signed R) :=
  require_initialized ;;;
  try_catch
    (issued <- new_Date ;;
     now <- Date_now ;;
     id <- generateCertificateId (proofHash proofData) jurisdiction ;;
     let certificate :=
       {| proof_hash := proofHash proofData;
          is_eligible := isEligible proofData;
          jurisdiction := jurisdiction;
          max_bet_amount := maxBetAmount;
          issued_at := getTime issued;
          expires_at := now + 24 * 60 * 60 * 1000;
          certificate_id := id |} in
     signedCertificate <- this_compact SignData
                            (fun l h => compact_signData R l h certificate) ;;
     ret signedCertificate)
    (fun error => throw error).

Definition getNetworkInfo : M NetworkInfo :=
  s <- get ;;
  ret {| info_networkId := networkId s;
         info_initialized := initialized s;
         info_provider := match provider s with
                          | Some _ => "connected"
                          | None => "disconnected"
                          end |}.

Definition disconnect : M unit :=
  s <- get ;;
  (match compact s with
   | Some h => call CompactDisconnect (fun l => compact_disconnect R l h)
   | None => ret tt
   end) ;;;
  set_initialized false.

(** A use of the object: one of its methods with its arguments. *)
Inductive Method :=
| Initialize
| CreateIdentityCommitment (birthYear birthMonth birthDay : Z) (identitySecret : string)
| GenerateAgeProof (identityData : IdentityData (Commitment R)) (currentDate : CurrentDate)
| VerifyAgeProof (proof : Proof R) (publicInputs : PublicInputs R)
| SubmitVerificationToNetwork (proofData : AgeProof (Proof R)) (walletAddress : string)
| QueryVerificationStatus (proofHash : string)
| CreateBettingCertificate (proofData : AgeProof (Proof R)) (jurisdiction : string)
    (maxBetAmount : float)
| GetNetworkInfo
| Disconnect.

(** What a run throws, if it throws. *)
Definition thrown {A : Type} (r : Outcome (Exn R) A * State)
    : option (Error (Exn R)) * State :=
  match r with
  | (Returns _, s) => (None, s)
  | (Throws e, s) => (Some e, s)
  end.

Definition invoke (m : Method) (s : State) : option (Error (Exn R)) * State :=
  match m with
  | Initialize => thrown (initialize s)
  | CreateIdentityCommitment y mo d secret => thrown (createIdentityCommitment y mo d secret s)
  | GenerateAgeProof i c => thrown (generateAgeProof i c s)
  | VerifyAgeProof p inputs => thrown (verifyAgeProof p inputs s)
  | SubmitVerificationToNetwork p a => thrown (submitVerificationToNetwork p a s)
  | QueryVerificationStatus h => thrown (queryVerificationStatus h s)
  | CreateBettingCertificate p j a => thrown (createBettingCertificate p j a s)
  | GetNetworkInfo => thrown (getNetworkInfo s)
  | Disconnect => thrown (disconnect s)
  end.

(** The object after a sequence of uses, each awaited before the next. *)
Definition run (ms : list Method) (s : State) : State :=
  fold_left (fun s m => snd (invoke m s)) ms s.

(** The methods that start with the initialisation guard. *)
Definition guarded (m : Method) : bool :=
  match m with
  | Initialize | GetNetworkInfo | Disconnect => false
  | _ => true
  end.
End Class.

(** Symbolic execution of a method body. *)
Ltac run_method :=
  unfold initialize, createIdentityCommitment, generateAgeProof, verifyAgeProof,
    submitVerificationToNetwork, queryVerificationStatus, createBettingCertificate,
    generateCertificateId, generateProofHash, getNetworkInfo, disconnect, Date_now,
    BigInt_of;
  unfold require_initialized;
  unfold bind, try_catch, this_compact, call, get, throw, ret, new_Date, set_provider,
    set_compact, set_initialized;
  cbn [negb fst snd networkId provider compact initialized calls reads thrown].

Ltac simpl_state :=
  cbn [negb fst snd networkId provider compact initialized calls reads thrown].

Ltac oracle_cases :=
  repeat match goal with
         | |- context [match ?x with inl _ => _ | inr _ => _ end] =>
             destruct x; simpl_state
         | |- context [match ?x with Some _ => _ | None => _ end] =>
             destruct x; simpl_state
         end.
End CompactAgeVerification.

(** An initialised object has its provider and its runtime. *)
Definition well_initialized (R : CompactAgeVerification.Runtime)
    (s : CompactAgeVerification.State R) : Prop :=
  CompactAgeVerification.initialized R s = true ->
  is_Some (CompactAgeVerification.compact R s)
  /\ is_Some (CompactAgeVerification.provider R s).

(** A runtime for examples: every call returns, a commitment is an integer, a
    proof is a string, the verifier accepts and no state is found; [BigInt] on
    the strings of decimal digits (the other literals it accepts are left
    out), and [JSON.stringify] on a string. *)
Definition example_runtime : CompactAgeVerification.Runtime :=
  {| CompactAgeVerification.Provider := unit;
     CompactAgeVerification.Handle := unit;
     CompactAgeVerification.Commitment := Z;
     CompactAgeVerification.Proof := string;
     CompactAgeVerification.PublicInputs := unit;
     CompactAgeVerification.Transaction := unit;
     CompactAgeVerification.TxHash := string;
     CompactAgeVerification.Signed := CompactAgeVerification.Certificate;
     CompactAgeVerification.Exn := string;
     CompactAgeVerification.MidnightProviders_getProvider := fun _ _ => inr tt;
     CompactAgeVerification.new_Compact := fun _ _ _ => inr tt;
     CompactAgeVerification.compact_initialize := fun _ _ => inr tt;
     CompactAgeVerification.compact_createCommitment :=
       fun _ _ '(y, m, d, s) => inr (Some (y + m + d + s));
     CompactAgeVerification.commitment_toString := fun _ c => inr (pretty c);
     CompactAgeVerification.compact_generateProof := fun _ _ _ _ => inr "proof";
     CompactAgeVerification.compact_verifyProof := fun _ _ _ _ _ => inr true;
     CompactAgeVerification.compact_createTransaction := fun _ _ _ => inr tt;
     CompactAgeVerification.compact_submitTransaction := fun _ _ _ => inr "tx";
     CompactAgeVerification.compact_queryState :=
       fun _ _ _ => inr CompactAgeVerification.Null;
     CompactAgeVerification.compact_signData := fun _ _ c => inr c;
     CompactAgeVerification.compact_disconnect := fun _ _ => inr tt |}.

Fixpoint decimal_digits (acc : Z) (s : string) : option Z :=
  match s with
  | EmptyString => Some acc
  | String c s' =>
      let n := Ascii.N_of_ascii c in
      if (48 <=? n)%N && (n <=? 57)%N then decimal_digits (10 * acc + Z.of_N (n - 48)) s'
      else None
  end.

Definition example_BigInt (s : string) : option Z := decimal_digits 0 s.

Definition example_JSON_stringify (proof : string) : string + option string :=
  inr (Some (json_string proof)).

(** The object of the example runtime once initialised, and a request for
    someone born 1990-05-15 whose secret is the string 12345. *)
Definition example_initialized : CompactAgeVerification.State example_runtime :=
  snd (CompactAgeVerification.initialize example_runtime
         (CompactAgeVerification.constructor example_runtime "testnet")).

Definition example_identity : CompactAgeVerification.IdentityData Z :=
  {| CompactAgeVerification.birthYear := 1990;
     CompactAgeVerification.birthMonth := 5;
     CompactAgeVerification.birthDay := 15;
     CompactAgeVerification.identitySecret := "12345";
     CompactAgeVerification.identityCommitment := 14355 |}.

Definition example_date : CompactAgeVerification.CurrentDate :=
  {| CompactAgeVerification.year := 2024;
     CompactAgeVerification.month := 5;
     CompactAgeVerification.day := 15 |}.

(** What [generateAgeProof] returns for them on 2024-05-15 at 08:00:00 UTC. *)
Definition example_age_proof : CompactAgeVerification.AgeProof string :=
  {| CompactAgeVerification.proof := "proof";
     CompactAgeVerification.isEligible := true;
     CompactAgeVerification.proofHash := "b5a666eb4586fa40";
     CompactAgeVerification.timestamp := 1715760000000;
     CompactAgeVerification.age := "18+" |}.

(** The certificate [createBettingCertificate] has signed for it, in the UK
    with a limit of 100, on the initialised example object. *)
Definition example_certificate : CompactAgeVerification.Certificate :=
  {| CompactAgeVerification.proof_hash := "b5a666eb4586fa40";
     CompactAgeVerification.is_eligible := true;
     CompactAgeVerification.jurisdiction := "UK";
     CompactAgeVerification.max_bet_amount := 100%float;
     CompactAgeVerification.issued_at := 1715760000000;
     CompactAgeVerification.expires_at := 1715846400001;
     CompactAgeVerification.certificate_id := "685beb94e987" |}.

(** * Properties *)

(** ** SHA-256 test vectors (FIPS 180-4, appendix B) *)

Example sha256_abc :
  SHA256.hex "abc" = "ba7816bf8f01cfea414140de5dae2223b00361a396177a9cb410ff61f20015ad".
Proof. vm_compute. reflexivity. Qed.

Example sha256_empty :
  SHA256.hex EmptyString
  = "e3b0c44298fc1c149afbf4c8996fb92427ae41e4649b934ca495991b7852b855".
Proof. vm_compute. reflexivity. Qed.

Example sha256_two_blocks :
  SHA256.hex "abcdbcdecdefdefgefghfghighijhijkijkljklmklmnlmnomnopnopq"
  = "248d6a61d20638b8e5c026930c3e6039a33ce45964ff2167f6ecedd419db06c1".
Proof. vm_compute. reflexivity. Qed.

(** ** Truthiness guards *)

Lemma present_int_Some (n : Z) : n <> 0 -> present_int (Some n) = Some n.
Proof.
  intros Hn. unfold present_int, truthy_int.
  destruct (Z.eqb_spec n 0) as [->|_]; [contradiction | reflexivity].
Qed.

Lemma present_int_inv (v : option Z) (n : Z) :
  present_int v = Some n -> v = Some n /\ n <> 0.
Proof.
  unfold present_int, truthy_int. destruct v as [k|]; [|discriminate].
  destruct (Z.eqb_spec k 0) as [->|Hk]; simpl; [discriminate|].
  intros [= ->]. split; [reflexivity | assumption].
Qed.

Lemma present_str_Some (s : string) : s <> EmptyString -> present_str (Some s) = Some s.
Proof.
  intros Hs. unfold present_str, truthy_str.
  destruct (String.eqb_spec s EmptyString) as [->|_]; [contradiction | reflexivity].
Qed.

Lemma present_str_inv (v : option string) (s : string) :
  present_str v = Some s -> v = Some s /\ s <> EmptyString.
Proof.
  unfold present_str, truthy_str. destruct v as [k|]; [|discriminate].
  destruct (String.eqb_spec k EmptyString) as [->|Hk]; simpl; [discriminate|].
  intros [= ->]. split; [reflexivity | assumption].
Qed.

Lemma present_int_None (v : option Z) :
  present_int v = None <-> (v = None \/ v = Some 0).
Proof.
  unfold present_int, truthy_int. destruct v as [k|]; [|tauto].
  destruct (Z.eqb_spec k 0) as [->|Hk]; simpl.
  - tauto.
  - split; [discriminate|]. intros [H|[= H]]; [discriminate | contradiction].
Qed.

Lemma present_str_None (v : option string) :
  present_str v = None <-> (v = None \/ v = Some EmptyString).
Proof.
  unfold present_str, truthy_str. destruct v as [k|]; [|tauto].
  destruct (String.eqb_spec k EmptyString) as [->|Hk]; simpl.
  - tauto.
  - split; [discriminate|]. intros [H|[= H]]; [discriminate | contradiction].
Qed.

(** ** The age rule *)

(** [calculateAge] is the birthday rule. *)
Lemma calculateAge_birthday_rule (by_ bm bd cy cm cd : Z) :
  (on_or_after cm cd bm bd -> Simple.calculateAge by_ bm bd cy cm cd = cy - by_)
  /\ (~ on_or_after cm cd bm bd -> Simple.calculateAge by_ bm bd cy cm cd = cy - by_ - 1).
Proof.
  unfold on_or_after, Simple.calculateAge.
  destruct (Z.ltb_spec cm bm), (Z.eqb_spec cm bm), (Z.ltb_spec cd bd); simpl;
    split; intros; try reflexivity; lia.
Qed.

(** A birthday that falls on the reference day counts as passed. *)
Lemma calculateAge_on_birthday (by_ m d cy : Z) :
  Simple.calculateAge by_ m d cy m d = cy - by_.
Proof.
  apply calculateAge_birthday_rule. right. split; [reflexivity | lia].
Qed.

(** ** The comparators of the circuits *)

(** The field has more than 253 bits. *)
Lemma p_above_pow (n : Z) : 0 <= n <= 252 -> 2 ^ (n + 1) < Circuit.p.
Proof.
  intros Hn. apply Z.le_lt_trans with (2 ^ 253).
  - apply Z.pow_le_mono_r; lia.
  - reflexivity.
Qed.

(** [LessThan(n)] when the difference of its operands fits: it is the
    comparison. *)
Lemma LessThan_in_range (n a b : Z) :
  0 <= n <= 252 -> - 2 ^ n <= a - b < 2 ^ n ->
  Circuit.LessThan n a b = Some (if (a <? b)%Z then 1 else 0).
Proof.
  intros Hn Hab. pose proof (p_above_pow n Hn) as Hp.
  assert (H2 : 2 ^ (n + 1) = 2 * 2 ^ n) by (apply Z.pow_succ_r; lia).
  unfold Circuit.LessThan. cbv zeta.
  rewrite (Z.mod_small (a + 2 ^ n - b)) by lia.
  destruct (Z.ltb_spec (a + 2 ^ n - b) (2 ^ (n + 1))) as [_|Hge]; [|lia].
  rewrite Z.shiftr_div_pow2 by lia.
  change 1 with (Z.ones 1) at 2. rewrite Z.land_ones by lia. change (2 ^ 1) with 2.
  assert (Hpos : 0 < 2 ^ n) by (apply Z.pow_pos_nonneg; lia).
  destruct (Z.ltb_spec a b) as [Hlt|Hle].
  - rewrite Z.div_small by lia. reflexivity.
  - replace ((a + 2 ^ n - b) / 2 ^ n) with 1; [reflexivity|].
    apply Z.div_unique with (a - b); lia.
Qed.

(** [LessThan(n)] has no witness when the difference does not fit. *)
Lemma LessThan_out_of_range (n a b : Z) :
  0 <= n <= 252 ->
  2 ^ n <= a - b < Circuit.p - 2 ^ n \/ 2 ^ n - Circuit.p <= a - b < - 2 ^ n ->
  Circuit.LessThan n a b = None.
Proof.
  intros Hn Hab. pose proof (p_above_pow n Hn) as Hp.
  assert (H2 : 2 ^ (n + 1) = 2 * 2 ^ n) by (apply Z.pow_succ_r; lia).
  unfold Circuit.LessThan. cbv zeta.
  destruct Hab as [Hab|Hab].
  - rewrite (Z.mod_small (a + 2 ^ n - b)) by lia.
    destruct (Z.ltb_spec (a + 2 ^ n - b) (2 ^ (n + 1))); [lia | reflexivity].
  - replace ((a + 2 ^ n - b) mod Circuit.p) with (a + 2 ^ n - b + Circuit.p).
    + destruct (Z.ltb_spec (a + 2 ^ n - b + Circuit.p) (2 ^ (n + 1))); [lia | reflexivity].
    + apply Z.mod_unique with (-1); lia.
Qed.

(** [LessThan(n)] sees its operands modulo [p]. *)
Lemma LessThan_mod_r (n a b : Z) :
  Circuit.LessThan n a (b mod Circuit.p + 1) = Circuit.LessThan n a (b + 1).
Proof.
  unfold Circuit.LessThan. cbv zeta.
  replace ((a + 2 ^ n - (b mod Circuit.p + 1)) mod Circuit.p)
    with ((a + 2 ^ n - (b + 1)) mod Circuit.p); [reflexivity|].
  rewrite (Z.sub_add_distr _ (b mod Circuit.p)), (Z.sub_add_distr _ b).
  rewrite <- (Zminus_mod_idemp_l (a + 2 ^ n - b mod Circuit.p)).
  rewrite Zminus_mod_idemp_r. rewrite Zminus_mod_idemp_l. reflexivity.
Qed.

(** [IsEqual] on two integers less than [p] apart is their equality. *)
Lemma IsEqual_in_range (a b : Z) :
  - Circuit.p < b - a < Circuit.p ->
  Circuit.IsEqual a b = if (a =? b)%Z then 1 else 0.
Proof.
  intros H. unfold Circuit.IsEqual, Circuit.IsZero.
  destruct (Z.eqb_spec a b) as [->|Hne].
  - rewrite Z.sub_diag. reflexivity.
  - destruct (Z.eqb_spec ((b - a) mod Circuit.p) 0) as [H0|_]; [|reflexivity].
    exfalso. apply Z.mod_divide in H0; [|discriminate]. destruct H0 as [k Hk].
    assert (k = 0) by nia. lia.
Qed.


(** [LessThan(n)] on two integers that do not wrap around. *)
Lemma LessThan_cases (n a b : Z) :
  0 <= n <= 252 -> 2 ^ n - Circuit.p <= a - b < Circuit.p - 2 ^ n ->
  Circuit.LessThan n a b
  = if fits n a b then Some (if (a <? b)%Z then 1 else 0) else None.
Proof.
  intros Hn Hab. unfold fits.
  destruct (Z.leb_spec (- 2 ^ n) (a - b)) as [Hlo|Hlo];
    destruct (Z.ltb_spec (a - b) (2 ^ n)) as [Hhi|Hhi]; cbn [andb].
  - apply LessThan_in_range; lia.
  - apply LessThan_out_of_range; lia.
  - apply LessThan_out_of_range; lia.
  - apply LessThan_out_of_range; lia.
Qed.

(** [no_wrap] with its bound written out. *)
Lemma no_wrap_bounds (z : Z) :
  no_wrap z -> - 1809251394333065553493296640760748560207343510400633813116524750123642650624 < z
               < 1809251394333065553493296640760748560207343510400633813116524750123642650624.
Proof. intros H. exact H. Qed.

(** [age_years]: when the two comparisons of the birthday fit their eight
    bits, [has_had_birthday] is the indicator of [on_or_after] and the age is
    [calculateAge], as an element of the field. *)
Lemma age_years_cases (i : Circuit.Inputs) :
  no_wrap (Circuit.birth_month i) -> no_wrap (Circuit.birth_day i) ->
  no_wrap (Circuit.current_month i) -> no_wrap (Circuit.current_day i) ->
  Circuit.age_years i
  = if fits 8 (Circuit.birth_month i) (Circuit.current_month i)
       && fits 8 (Circuit.birth_day i) (Circuit.current_day i + 1)
    then Some (Simple.calculateAge (Circuit.birth_year i) (Circuit.birth_month i)
                 (Circuit.birth_day i) (Circuit.current_year i) (Circuit.current_month i)
                 (Circuit.current_day i) mod Circuit.p)
    else None.
Proof.
  intros Hbm Hbd Hcm Hcd.
  unfold Circuit.age_years, Circuit.has_had_birthday, Circuit.GreaterThan,
    Circuit.GreaterEqThan, Simple.calculateAge.
  comparator_cases LessThan_cases no_wrap_bounds.
  rewrite IsEqual_in_range by (unfold Circuit.p; lia).
  destruct (fits 8 (Circuit.birth_month i) (Circuit.current_month i)); [|reflexivity].
  destruct (fits 8 (Circuit.birth_day i) (Circuit.current_day i + 1)); [|reflexivity].
  cbn [mbind option_bind andb].
  destruct (Z.ltb_spec (Circuit.birth_month i) (Circuit.current_month i)),
    (Z.eqb_spec (Circuit.current_month i) (Circuit.birth_month i)),
    (Z.ltb_spec (Circuit.birth_day i) (Circuit.current_day i + 1)),
    (Z.ltb_spec (Circuit.current_month i) (Circuit.birth_month i)),
    (Z.ltb_spec (Circuit.current_day i) (Circuit.birth_day i)); simpl;
    try lia;
    match goal with
    | |- context [(?a + ?b * ?c) mod Circuit.p] =>
        let v := eval vm_compute in ((a + b * c) mod Circuit.p) in
        change ((a + b * c) mod Circuit.p) with v
    end; do 2 f_equal; lia.
Qed.

(** On months and days of eight bits the circuit computes the age of
    [calculateAge]. *)
Lemma circuit_age_years (i : Circuit.Inputs) :
  0 <= Circuit.birth_month i < 256 -> 0 <= Circuit.birth_day i < 256 ->
  0 <= Circuit.current_month i < 256 -> 0 <= Circuit.current_day i < 256 ->
  Circuit.age_years i
  = Some (Simple.calculateAge (Circuit.birth_year i) (Circuit.birth_month i)
            (Circuit.birth_day i) (Circuit.current_year i) (Circuit.current_month i)
            (Circuit.current_day i) mod Circuit.p).
Proof.
  intros Hbm Hbd Hcm Hcd.
  assert (256 <= 2 ^ 250) as Hpow
    by (change 256 with (2 ^ 8); apply Z.pow_le_mono_r; lia).
  rewrite age_years_cases by (unfold no_wrap; lia).
  assert (forall a b, -256 <= a - b < 256 -> fits 8 a b = true) as Hfits.
  { intros a b Hab. unfold fits. apply andb_true_intro.
    split; [apply Z.leb_le | apply Z.ltb_lt]; change (2 ^ 8) with 256; lia. }
  rewrite !Hfits by lia. reflexivity.
Qed.

(** [date_valid]: the five comparators have a witness for a year in
    -2071..6120, a month in -243..256 and a day in -224..256, and their
    product is 1 exactly for a year up to 2024, a month in 1..12 and a day in
    1..31. *)
Lemma date_valid_cases (i : Circuit.Inputs) :
  no_wrap (Circuit.birth_year i) -> no_wrap (Circuit.birth_month i) ->
  no_wrap (Circuit.birth_day i) ->
  Circuit.date_valid i
  = if (-2071 <=? Circuit.birth_year i)%Z && (Circuit.birth_year i <? 6121)%Z
       && (-243 <=? Circuit.birth_month i)%Z && (Circuit.birth_month i <=? 256)%Z
       && (-224 <=? Circuit.birth_day i)%Z && (Circuit.birth_day i <=? 256)%Z
    then Some (if (Circuit.birth_year i <=? 2024)%Z && (1 <=? Circuit.birth_month i)%Z
                  && (Circuit.birth_month i <=? 12)%Z && (1 <=? Circuit.birth_day i)%Z
                  && (Circuit.birth_day i <=? 31)%Z then 1 else 0)
    else None.
Proof.
  intros Hy Hm Hd.
  unfold Circuit.date_valid, Circuit.GreaterEqThan, Circuit.LessEqThan.
  comparator_cases LessThan_cases no_wrap_bounds. unfold fits.
  change (2 ^ 12) with 4096. change (2 ^ 8) with 256.
  change (2024 + 1) with 2025. change (12 + 1) with 13. change (31 + 1) with 32.
  destruct (Z.leb_spec (-2071) (Circuit.birth_year i)),
    (Z.ltb_spec (Circuit.birth_year i) 6121),
    (Z.leb_spec (-243) (Circuit.birth_month i)),
    (Z.leb_spec (Circuit.birth_month i) 256),
    (Z.leb_spec (-224) (Circuit.birth_day i)),
    (Z.leb_spec (Circuit.birth_day i) 256);
    repeat match goal with
           | |- context [Z.leb ?a ?b] => destruct (Z.leb_spec a b); try lia
           | |- context [Z.ltb ?a ?b] => destruct (Z.ltb_spec a b); try lia
           end; reflexivity.
Qed.

(** The circuit admits no witness when the supplied commitment is not the
    hash of the private inputs. *)
Lemma circuit_rejects_foreign_commitment
    (Poseidon4 : Z -> Z -> Z -> Z -> Z) (Poseidon3 : Z -> Z -> Z -> Z) (i : Circuit.Inputs) :
  (Circuit.identity_commitment i
   - Poseidon4 (Circuit.birth_year i) (Circuit.birth_month i) (Circuit.birth_day i)
       (Circuit.identity_secret i)) mod Circuit.p <> 0 ->
  Circuit.AgeVerification Poseidon4 Poseidon3 i = None.
Proof.
  intros Hne. unfold Circuit.AgeVerification. cbv zeta.
  destruct (Z.eqb_spec
              ((Circuit.identity_commitment i
                - Poseidon4 (Circuit.birth_year i) (Circuit.birth_month i)
                    (Circuit.birth_day i) (Circuit.identity_secret i)) mod Circuit.p) 0)
    as [Heq|_]; [contradiction | reflexivity].
Qed.

(** ** Proof generation in simple-gap-server.js *)

Section SimpleFacts.
Variable sha256_hex : string -> string.
Variable clock : nat -> DateObj.

Lemma generateZKProof_run (commitment : string) (isEligible : bool)
    (w : World Simple.CachedProof) :
  Simple.generateZKProof sha256_hex clock commitment isEligible w
  = (proof_at sha256_hex commitment isEligible (getTime (clock (clockReads w))),
     mkWorld (proofCache w) (S (clockReads w))
       (hashed w ++ [Simple.proof_preimage commitment isEligible
                       (getTime (clock (clockReads w)))])%list).
Proof. reflexivity. Qed.

Lemma generateProofId_run (p : ZKProof) (w : World Simple.CachedProof) :
  Simple.generateProofId sha256_hex p w
  = (fingerprint sha256_hex (JSON_stringify p),
     mkWorld (proofCache w) (clockReads w) (hashed w ++ [JSON_stringify p])%list).
Proof. reflexivity. Qed.

(** A request whose five fields are truthy is answered 200, whatever the
    commitment is: the proof is built from the commitment as supplied and
    stored under its id, with an expiry 24 hours after the fourth clock
    read of the handler. *)
Lemma handleGenerateProof_run (w : World Simple.CachedProof)
    (y m d : Z) (secret commitment : string) :
  y <> 0 -> m <> 0 -> d <> 0 -> secret <> EmptyString -> commitment <> EmptyString ->
  let n := clockReads w in
  let now := clock n in
  let isEligible :=
    (18 <=? Simple.calculateAge y m d (getFullYear now) (getMonth now + 1) (getDate now))%Z in
  let p := proof_at sha256_hex commitment isEligible (getTime (clock (S n))) in
  let id := fingerprint sha256_hex (JSON_stringify p) in
  Simple.handleGenerateProof sha256_hex clock
    (Some {| Simple.attributes :=
               {| Simple.birthYear := Some y; Simple.birthMonth := Some m;
                  Simple.birthDay := Some d; Simple.identitySecret := Some secret |};
             Simple.identityCommitment := Some commitment |}) w
  = ({| Simple.status := 200;
        Simple.body :=
          Simple.ProofGenerated id isEligible (Simple.age_label isEligible)
            (fingerprint sha256_hex
               (Simple.proof_preimage commitment isEligible (getTime (clock (S n))))) |},
     mkWorld
       (<[id := {| Simple.c_proof := p;
                   Simple.c_isEligible := isEligible;
                   Simple.c_age := Simple.age_label isEligible;
                   Simple.c_timestamp := getTime (clock (S (S n)));
                   Simple.c_expiresAt := getTime (clock (S (S (S n)))) + msPerDay |}]>
          (proofCache w))
       (S (S (S (S n))))
       (hashed w ++ [Simple.proof_preimage commitment isEligible (getTime (clock (S n)));
                     JSON_stringify p])%list).
Proof.
  intros Hy Hm Hd Hs Hc. cbv zeta.
  unfold Simple.handleGenerateProof. cbn [Simple.attributes Simple.birthYear
    Simple.birthMonth Simple.birthDay Simple.identitySecret Simple.identityCommitment].
  rewrite !present_int_Some, !present_str_Some by assumption.
  unfold bind at 1. unfold new_Date at 1. cbn [clockReads proofCache hashed].
  unfold bind at 1. rewrite generateZKProof_run. cbn [clockReads proofCache hashed].
  unfold bind at 1. rewrite generateProofId_run.
  run_handler. rewrite <- app_assoc. reflexivity.
Qed.
End SimpleFacts.

(** C1, at the failing input. The attributes 1990-05-15 / "s3cret" commit to
    eb3eb8dfffe6b022, the request carries 0000000000000000 instead, and both
    servers answer 200 and store a credential; the circuit they stand for has
    no witness for such inputs ([circuit_rejects_foreign_commitment]). *)
Theorem C1_forged_commitment_is_issued :
  fst (Simple.generateIdentityCommitment SHA256.hex 1990 5 15 "s3cret" Scenario.fresh)
    = "eb3eb8dfffe6b022"
  /\ Simple.identityCommitment Scenario.forged = Some "0000000000000000"
  /\ fst (Simple.handleGenerateProof SHA256.hex Scenario.clock_2024
            (Some Scenario.forged) Scenario.fresh)
     = {| Simple.status := 200;
          Simple.body := Simple.ProofGenerated "be519054c778b30f" true "18+" "7c0d0b0a4a90104e" |}
  /\ is_Some (proofCache (snd (Simple.handleGenerateProof SHA256.hex Scenario.clock_2024
                                 (Some Scenario.forged) Scenario.fresh))
                !! "be519054c778b30f")
  /\ fst (Express.post_generate_proof SHA256.hex Scenario.clock_2024
            Scenario.forged_express Scenario.fresh_express)
     = {| Express.status := 200;
          Express.body := Express.ProofGenerated "a1b78ff4fdff4437" true
                            (Some "8396277202b2731c") |}
  /\ is_Some (proofCache (snd (Express.post_generate_proof SHA256.hex Scenario.clock_2024
                                 Scenario.forged_express Scenario.fresh_express))
                !! "a1b78ff4fdff4437").
Proof.
  repeat split; try (vm_compute; reflexivity);
    vm_compute; eexists; reflexivity.
Qed.

(** C2, at the failing input. On the eighteenth birthday (born 2005-05-15,
    asked 2023-05-15) the birthday rule of [calculateAge] and of the circuit
    gives 18, while [generateZKProof] of src/gap-server.js divides the 6574
    elapsed days by 365.25, gets 17, and signals "0". *)
Theorem C2_express_age_is_a_julian_year_quotient :
  Simple.calculateAge 2005 5 15 2023 5 15 = 18
  /\ Express.approximate_age Scenario.eighteen_today = 17
  /\ publicSignals (fst (Express.generateZKProof SHA256.hex Scenario.eighteen_today
                           Scenario.fresh_express)) !! 0%nat = Some "0"
  /\ fst (Express.post_generate_proof SHA256.hex Scenario.clock_2023
            Scenario.eighteen_today_request Scenario.fresh_express)
     = {| Express.status := 200;
          Express.body := Express.ProofGenerated "ce6b9cfd4337cf66" false
                            (Some "d5ba04a1b86ce276") |}.
Proof. repeat split; vm_compute; reflexivity. Qed.

(** ** Verification in src/gap-server.js *)

(** C3, counterexample. A proof produced against the commitment
    eb3eb8dfffe6b022 verifies against 0000000000000000 with unchanged
    signals. *)
Lemma C3_altered_commitment_verifies :
  Express.identity_commitment Scenario.eighteen_today <> "0000000000000000"
  /\ verify
       (fst (Express.generateZKProof SHA256.hex Scenario.eighteen_today Scenario.fresh_express))
       (publicSignals
          (fst (Express.generateZKProof SHA256.hex Scenario.eighteen_today
                  Scenario.fresh_express)))
       "0000000000000000" = true.
Proof. split; [discriminate | reflexivity]. Qed.

(** The /api/verify-proof route of src/gap-server.js reports every stored
    credential as valid. *)
Lemma post_verify_proof_valid (w : World Express.CachedProof)
    (id : string) (c : Express.CachedProof) :
  id <> EmptyString -> proofCache w !! id = Some c ->
  exists message,
    fst (Express.post_verify_proof (Some id) w)
    = {| Express.status := 200;
         Express.body := Express.ProofVerified true (Express.c_isEligible c)
                           (Express.c_timestamp c) message |}.
Proof.
  intros Hid Hc. unfold Express.post_verify_proof.
  rewrite present_str_Some by assumption. run_handler. rewrite Hc.
  eexists. reflexivity.
Qed.

(** C3, as amended. The simulated verifier answers true for every proof,
    every list of public signals and every commitment passed to it, and the
    /api/verify-proof route, which calls it on the stored proof and signals,
    reports every stored credential as valid. *)
Theorem C3_verify_is_constantly_true
    (p : ZKProof) (signals : list string) (commitment : string)
    (w : World Express.CachedProof) (id : string) (c : Express.CachedProof) :
  id <> EmptyString ->
  proofCache w !! id = Some c ->
  verify p signals commitment = true
  /\ verify (Express.c_proof c) (Express.c_publicSignals c) commitment = true
  /\ exists message,
       fst (Express.post_verify_proof (Some id) w)
       = {| Express.status := 200;
            Express.body := Express.ProofVerified true (Express.c_isEligible c)
                              (Express.c_timestamp c) message |}.
Proof.
  intros Hid Hc. split; [reflexivity|]. split; [reflexivity|].
  exact (post_verify_proof_valid w id c Hid Hc).
Qed.

Lemma C3_verify_is_constantly_true_witness :
  verify
    (fst (Express.generateZKProof SHA256.hex Scenario.eighteen_today Scenario.fresh_express))
    ["0"; "d5ba04a1b86ce276"] "0000000000000000" = true
  /\ verify (Express.c_proof Scenario.issued_express_entry)
       (Express.c_publicSignals Scenario.issued_express_entry) "0000000000000000" = true
  /\ exists message,
       fst (Express.post_verify_proof (Some Scenario.issued_express_id)
              Scenario.issued_express)
       = {| Express.status := 200;
            Express.body :=
              Express.ProofVerified true
                (Express.c_isEligible Scenario.issued_express_entry)
                (Express.c_timestamp Scenario.issued_express_entry) message |}.
Proof.
  apply (C3_verify_is_constantly_true _ _ _ Scenario.issued_express
           Scenario.issued_express_id Scenario.issued_express_entry).
  - discriminate.
  - vm_compute. reflexivity.
Defined.

(** ** The eligibility decision of simple-gap-server.js *)

(** [checkBettingEligibility] reports the first failing check among: invalid
    amount, amount over the limit, restricted jurisdiction. *)
Lemma checkBettingEligibility_order (amount : option float) (rules : RulesValue) :
  reason (Simple.checkBettingEligibility amount rules)
    = first_failing (checks_in_code_order false true amount rules)
  /\ eligible (Simple.checkBettingEligibility amount rules)
    = is_approved (first_failing (checks_in_code_order false true amount rules)).
Proof.
  unfold Simple.checkBettingEligibility, checks_in_code_order, invalid_amount,
    exceeds_limit, limit_of. cbn [first_failing negb].
  destruct (negb (truthy_num amount) || js_le amount (Some 0%float));
    [split; reflexivity|].
  destruct (js_gt amount (rules_maxBet rules)); [split; reflexivity|].
  destruct (rules_restricted rules); split; reflexivity.
Qed.

(** [checkBettingEligibility] itself tests the limit before the restriction:
    under a policy that is restricted and has a limit of 100, which no
    jurisdiction code selects, 500 is denied for the limit. *)
Lemma checkBettingEligibility_tests_the_limit_first :
  reason (Simple.checkBettingEligibility (Some 500%float) Scenario.restricted_policy)
  = AmountExceedsLimit 100%float.
Proof. vm_compute. reflexivity. Qed.

(** No entry reachable through [getJurisdictionRules] is restricted. *)
Lemma getJurisdictionRules_unrestricted (jurisdiction : option string) :
  rules_restricted (getJurisdictionRules jurisdiction) = false.
Proof.
  unfold getJurisdictionRules, rules_own.
  repeat match goal with
         | |- context [if ?b then _ else _] => destruct b; try reflexivity
         end.
Qed.

(** ** Comparisons of doubles *)

Lemma SFcompare_antisym (a b : spec_float) :
  SFcompare a b = option_map CompOpp (SFcompare b a).
Proof.
  destruct a as [sa|sa| |sa ma ea], b as [sb|sb| |sb mb eb]; cbn;
    try reflexivity; try (destruct sa; reflexivity); try (destruct sb; reflexivity);
    try (destruct sa, sb; reflexivity).
  f_equal. rewrite (Z.compare_antisym ea eb).
  pose proof (Pos.compare_cont_antisym mb ma Eq) as Hm. cbn in Hm.
  destruct sa, sb; try reflexivity;
    destruct (ea ?= eb)%Z eqn:He; cbn; try reflexivity;
    rewrite <- Hm; destruct (Pos.compare_cont Eq mb ma); reflexivity.
Qed.

Lemma SFcompare_refl (f : spec_float) : f <> S754_nan -> SFcompare f f = Some Eq.
Proof.
  destruct f as [s|s| |s m e]; cbn; intros H; try reflexivity; try contradiction.
  - destruct s; reflexivity.
  - rewrite Z.compare_refl, Pcompare_refl. destruct s; reflexivity.
Qed.

Lemma is_nan_spec (x : float) : PrimFloat.is_nan x = true <-> Prim2SF x = S754_nan.
Proof.
  unfold PrimFloat.is_nan. rewrite FloatAxioms.eqb_spec. unfold SFeqb. split.
  - destruct (Prim2SF x) eqn:Hx; try reflexivity;
      rewrite SFcompare_refl by discriminate; discriminate.
  - intros ->. reflexivity.
Qed.

Lemma Prim2SF_zero : Prim2SF 0%float = S754_zero false.
Proof. reflexivity. Qed.

(** For two numbers, [a > b] is the negation of [a <= b]. *)
Lemma float_ltb_negb_leb (x y : float) :
  PrimFloat.is_nan x = false -> PrimFloat.is_nan y = false ->
  PrimFloat.ltb y x = negb (PrimFloat.leb x y).
Proof.
  intros Hx Hy. rewrite FloatAxioms.ltb_spec, FloatAxioms.leb_spec. unfold SFltb, SFleb.
  rewrite (SFcompare_antisym (Prim2SF y) (Prim2SF x)).
  destruct (SFcompare (Prim2SF x) (Prim2SF y)) as [[]|] eqn:Hc; try reflexivity.
  exfalso.
  destruct (Prim2SF x) eqn:Ex, (Prim2SF y) eqn:Ey; cbn in Hc; try discriminate.
  all: first [ apply is_nan_spec in Ex; congruence | apply is_nan_spec in Ey; congruence ].
Qed.

(** The guard of [checkBettingEligibility] and the third check of the
    specification part on one amount only: [Infinity]. *)
Lemma invalid_amount_as_specified_eq (amount : option float) :
  is_positive_infinity amount = false ->
  invalid_amount_as_specified amount = invalid_amount amount.
Proof.
  destruct amount as [x|]; [|reflexivity].
  unfold is_positive_infinity, invalid_amount_as_specified, non_finite, invalid_amount,
    truthy_num, js_le, PrimFloat.is_zero, PrimFloat.is_nan.
  rewrite negb_involutive, !FloatAxioms.eqb_spec, FloatAxioms.leb_spec, Prim2SF_zero.
  change (Prim2SF PrimFloat.infinity) with (S754_infinity false).
  change (Prim2SF PrimFloat.neg_infinity) with (S754_infinity true).
  unfold SFeqb, SFleb.
  destruct (Prim2SF x) as [s|s| |s m e] eqn:Ex; cbn.
  - destruct s; reflexivity.
  - destruct s; [reflexivity | discriminate].
  - reflexivity.
  - intros _. rewrite Z.compare_refl, Pcompare_refl.
    destruct s; cbn; reflexivity.
Qed.

(** C4, counterexample. On the unexpired credential of an eligible holder, an
    infinite amount in the US is not a finite number, so that the third check
    of the specification fails first; the reason reported is that of the
    fifth, the amount exceeding the limit. *)
Lemma C4_infinite_amount_skips_the_third_check :
  Simple.reported_reason
    (Simple.body (fst (Simple.handleBettingEligibility Scenario.clock_2024
                         (Some Scenario.bet_infinity_US) Scenario.issued)))
  = Some (AmountExceedsLimit 10000%float)
  /\ first_failing
       (checks_as_specified
          (Simple.c_expiresAt Scenario.issued_entry
             <? getTime (Scenario.clock_2024 (clockReads Scenario.issued)))%Z
          (Simple.c_isEligible Scenario.issued_entry)
          (Simple.bettingAmount Scenario.bet_infinity_US)
          (getJurisdictionRules (Simple.jurisdiction Scenario.bet_infinity_US)))
     = InvalidAmount.
Proof. split; vm_compute; reflexivity. Qed.

(** C4, as amended. For a stored credential, the reason reported by
    [handleBettingEligibility] is that of the first failing check in the
    order: expired, predicate false, invalid amount, jurisdiction restricted,
    amount over the limit, where the invalid amounts are those the guard of
    [checkBettingEligibility] catches; the answer allows the bet exactly when
    no check fails. An expired credential is reported expired, whatever the
    amount. No jurisdiction code leads to a restricted policy, so that no
    denial is a restriction, and the order in which [checkBettingEligibility]
    makes its last two tests cannot be seen. The reason is the one the checks
    of the specification give for every amount but [Infinity]. *)
Theorem C4_reason_is_first_failing_check (clock : nat -> DateObj)
    (w : World Simple.CachedProof) (r : Simple.EligibilityRequest)
    (id : string) (c : Simple.CachedProof) :
  present_str (Simple.proofId r) = Some id ->
  proofCache w !! id = Some c ->
  Simple.reported_reason
    (Simple.body (fst (Simple.handleBettingEligibility clock (Some r) w)))
  = Some (first_failing
            (checks_in_specified_order
               (Simple.c_expiresAt c <? getTime (clock (clockReads w)))%Z
               (Simple.c_isEligible c) (Simple.bettingAmount r)
               (getJurisdictionRules (Simple.jurisdiction r))))
  /\ Simple.canBet (Simple.body (fst (Simple.handleBettingEligibility clock (Some r) w)))
     = is_approved
         (first_failing
            (checks_in_specified_order
               (Simple.c_expiresAt c <? getTime (clock (clockReads w)))%Z
               (Simple.c_isEligible c) (Simple.bettingAmount r)
               (getJurisdictionRules (Simple.jurisdiction r))))
  /\ ((Simple.c_expiresAt c <? getTime (clock (clockReads w)))%Z = true ->
      Simple.reported_reason
        (Simple.body (fst (Simple.handleBettingEligibility clock (Some r) w)))
      = Some ProofExpired)
  /\ Simple.reported_reason
       (Simple.body (fst (Simple.handleBettingEligibility clock (Some r) w)))
     <> Some JurisdictionRestricted
  /\ (is_positive_infinity (Simple.bettingAmount r) = false ->
      Simple.reported_reason
        (Simple.body (fst (Simple.handleBettingEligibility clock (Some r) w)))
      = Some (first_failing
                (checks_as_specified
                   (Simple.c_expiresAt c <? getTime (clock (clockReads w)))%Z
                   (Simple.c_isEligible c) (Simple.bettingAmount r)
                   (getJurisdictionRules (Simple.jurisdiction r))))).
Proof.
  intros Hid Hc. unfold Simple.handleBettingEligibility. rewrite Hid.
  run_handler. rewrite Hc. cbn [fst snd clockReads].
  unfold checks_in_specified_order, checks_as_specified. cbn [first_failing].
  destruct (Simple.c_expiresAt c <? getTime (clock (clockReads w)))%Z;
    [repeat split; try reflexivity; discriminate|].
  destruct (Simple.c_isEligible c); cbn [negb];
    [|repeat split; try reflexivity; discriminate].
  destruct (checkBettingEligibility_order (Simple.bettingAmount r)
              (getJurisdictionRules (Simple.jurisdiction r))) as [Hr He].
  unfold checks_in_code_order in Hr, He. cbn [first_failing negb] in Hr, He.
  cbn [fst Simple.body Simple.reported_reason Simple.canBet andb].
  rewrite Hr, He, getJurisdictionRules_unrestricted.
  repeat split.
  - discriminate.
  - destruct (invalid_amount (Simple.bettingAmount r)); [discriminate|].
    destruct (exceeds_limit _ _); discriminate.
  - intros Hinf. rewrite (invalid_amount_as_specified_eq _ Hinf). reflexivity.
Qed.

Lemma C4_reason_is_first_failing_check_witness :
  Simple.reported_reason
    (Simple.body (fst (Simple.handleBettingEligibility Scenario.clock_two_days_on
                         (Some Scenario.bet_15000_US) Scenario.issued)))
  = Some ProofExpired
  /\ Simple.reported_reason
       (Simple.body (fst (Simple.handleBettingEligibility Scenario.clock_2024
                            (Some Scenario.bet_15000_US) Scenario.issued)))
     = Some (first_failing
               (checks_as_specified
                  (Simple.c_expiresAt Scenario.issued_entry
                     <? getTime (Scenario.clock_2024 (clockReads Scenario.issued)))%Z
                  (Simple.c_isEligible Scenario.issued_entry)
                  (Simple.bettingAmount Scenario.bet_15000_US)
                  (getJurisdictionRules (Simple.jurisdiction Scenario.bet_15000_US)))).
Proof.
  split.
  - apply (proj1 (proj2 (proj2
             (C4_reason_is_first_failing_check Scenario.clock_two_days_on Scenario.issued
                Scenario.bet_15000_US Scenario.issued_id Scenario.issued_entry
                ltac:(vm_compute; reflexivity) ltac:(vm_compute; reflexivity))))).
    vm_compute. reflexivity.
  - apply (proj2 (proj2 (proj2 (proj2
             (C4_reason_is_first_failing_check Scenario.clock_2024 Scenario.issued
                Scenario.bet_15000_US Scenario.issued_id Scenario.issued_entry
                ltac:(vm_compute; reflexivity) ltac:(vm_compute; reflexivity)))))).
    vm_compute. reflexivity.
Defined.

(** ** Lookup of a credential in simple-gap-server.js *)

(** The answer of /api/verify-proof for a stored credential. *)
Lemma handleVerifyProof_stored (clock : nat -> DateObj) (w : World Simple.CachedProof)
    (id : string) (c : Simple.CachedProof) :
  id <> EmptyString -> proofCache w !! id = Some c ->
  exists message,
    fst (Simple.handleVerifyProof clock (Some (Some id)) w)
    = {| Simple.status := 200;
         Simple.body :=
           Simple.ProofVerified
             (negb (Simple.c_expiresAt c <? getTime (clock (clockReads w)))%Z)
             (Simple.c_isEligible c) (Simple.c_age c) (Simple.c_timestamp c)
             (Simple.c_expiresAt c) message |}.
Proof.
  intros Hid Hc. unfold Simple.handleVerifyProof.
  rewrite present_str_Some by assumption. run_handler. rewrite Hc.
  eexists. reflexivity.
Qed.

(** C5, counterexample. Two days after the honest request, the lookup of its
    credential is answered with status 200 (and [isValid] false), not 410. *)
Lemma C5_expired_lookup_is_answered_200 :
  fst (Simple.handleVerifyProof Scenario.clock_two_days_on
         (Some (Some Scenario.issued_id)) Scenario.issued)
  = {| Simple.status := 200;
       Simple.body := Simple.ProofVerified false true "18+" 1715760000002 1715846400003
                        "Proof has expired" |}
  /\ Simple.status (fst (Simple.handleVerifyProof Scenario.clock_two_days_on
                           (Some (Some Scenario.issued_id)) Scenario.issued)) <> 410.
Proof. split; [vm_compute; reflexivity | vm_compute; discriminate]. Qed.

(** C5, as amended. For a non-empty id, the lookup has three outcomes: 404
    when nothing is stored under the id; for a stored credential whose
    [expiresAt] is before the clock read of the handler, 200 with [isValid]
    false and the message 'Proof has expired', whatever [isEligible] is, and
    the eligibility endpoint denies with [ProofExpired] for every amount and
    jurisdiction; otherwise 200 with [isValid] true. *)
Theorem C5_lookup_outcomes (clock : nat -> DateObj) (w : World Simple.CachedProof)
    (id : string) :
  id <> EmptyString ->
  match proofCache w !! id with
  | None =>
      fst (Simple.handleVerifyProof clock (Some (Some id)) w)
      = {| Simple.status := 404; Simple.body := Simple.Error "Proof not found" |}
  | Some c =>
      if (Simple.c_expiresAt c <? getTime (clock (clockReads w)))%Z then
        fst (Simple.handleVerifyProof clock (Some (Some id)) w)
        = {| Simple.status := 200;
             Simple.body :=
               Simple.ProofVerified false (Simple.c_isEligible c) (Simple.c_age c)
                 (Simple.c_timestamp c) (Simple.c_expiresAt c) "Proof has expired" |}
        /\ forall amount jurisdiction,
             fst (Simple.handleBettingEligibility clock
                    (Some {| Simple.proofId := Some id;
                             Simple.bettingAmount := amount;
                             Simple.jurisdiction := jurisdiction |}) w)
             = {| Simple.status := 400; Simple.body := Simple.Denied ProofExpired |}
      else
        exists message,
          fst (Simple.handleVerifyProof clock (Some (Some id)) w)
          = {| Simple.status := 200;
               Simple.body :=
                 Simple.ProofVerified true (Simple.c_isEligible c) (Simple.c_age c)
                   (Simple.c_timestamp c) (Simple.c_expiresAt c) message |}
  end.
Proof.
  intros Hid.
  destruct (proofCache w !! id) as [c|] eqn:Hc.
  - destruct (Simple.c_expiresAt c <? getTime (clock (clockReads w)))%Z eqn:Hexp.
    + split.
      * unfold Simple.handleVerifyProof.
        rewrite present_str_Some by assumption. run_handler. rewrite Hc.
        cbn [fst snd clockReads]. rewrite Hexp. reflexivity.
      * intros amount jurisdiction. unfold Simple.handleBettingEligibility.
        cbn [Simple.proofId]. rewrite present_str_Some by assumption.
        run_handler. rewrite Hc. cbn [fst snd clockReads]. rewrite Hexp. reflexivity.
    + destruct (handleVerifyProof_stored clock w id c Hid Hc) as [message Hm].
      exists message. rewrite Hm, Hexp. reflexivity.
  - unfold Simple.handleVerifyProof.
    rewrite present_str_Some by assumption. run_handler. rewrite Hc. reflexivity.
Qed.

Lemma C5_lookup_outcomes_witness :
  fst (Simple.handleVerifyProof Scenario.clock_two_days_on
         (Some (Some Scenario.issued_id)) Scenario.issued)
  = {| Simple.status := 200;
       Simple.body := Simple.ProofVerified false true "18+" 1715760000002 1715846400003
                        "Proof has expired" |}
  /\ forall amount jurisdiction,
       fst (Simple.handleBettingEligibility Scenario.clock_two_days_on
              (Some {| Simple.proofId := Some Scenario.issued_id;
                       Simple.bettingAmount := amount;
                       Simple.jurisdiction := jurisdiction |}) Scenario.issued)
       = {| Simple.status := 400; Simple.body := Simple.Denied ProofExpired |}.
Proof.
  pose proof (C5_lookup_outcomes Scenario.clock_two_days_on Scenario.issued
                Scenario.issued_id ltac:(discriminate)) as H.
  vm_compute in H. vm_compute. exact H.
Defined.

(** The window of a credential: it is stored with an expiry 24 hours after
    the fourth clock read of the request that issued it, and the lookup of a
    fresh server finds nothing. *)
Lemma issued_credential_window :
  proofCache Scenario.issued !! Scenario.issued_id = Some Scenario.issued_entry
  /\ Simple.c_expiresAt Scenario.issued_entry
     = getTime (Scenario.clock_2024 3%nat) + 24 * 60 * 60 * 1000
  /\ proofCache Scenario.fresh !! Scenario.issued_id = None.
Proof. repeat split; vm_compute; reflexivity. Qed.

(** The store of src/gap-server.js records no expiry and its lookup reads no
    clock: the credential is reported valid whenever it is looked up. *)
Lemma express_lookup_never_expires :
  fst (Express.post_verify_proof (Some "a1b78ff4fdff4437")
         (snd (Express.post_generate_proof SHA256.hex Scenario.clock_two_days_on
                 Scenario.forged_express Scenario.fresh_express)))
  = {| Express.status := 200;
       Express.body := Express.ProofVerified true true 1715760000001
                         "Valid proof - user is eligible for sports betting" |}.
Proof. vm_compute. reflexivity. Qed.

(** ** Commitments in simple-gap-server.js *)

(** The string hashed for a commitment: the fields as supplied. *)
Lemma generateIdentityCommitment_run (sha256_hex : string -> string)
    (y m d : Z) (secret : string) (w : World Simple.CachedProof) :
  Simple.generateIdentityCommitment sha256_hex y m d secret w
  = (fingerprint sha256_hex
       (pretty y +:+ "-" +:+ pretty m +:+ "-" +:+ pretty d +:+ "-" +:+ secret),
     mkWorld (proofCache w) (clockReads w)
       (hashed w ++ [pretty y +:+ "-" +:+ pretty m +:+ "-" +:+ pretty d +:+ "-" +:+ secret])%list).
Proof. reflexivity. Qed.




(** The /api/generate-commitment route of src/gap-server.js has the same guard
    and no range check either. *)
Lemma express_out_of_range_date_is_committed :
  fst (Express.post_generate_commitment SHA256.hex
         {| Express.birthYear := Some 1990; Express.birthMonth := Some 13;
            Express.birthDay := Some 40; Express.identitySecret := Some "s3cret" |}
         Scenario.fresh_express)
  = {| Express.status := 200;
       Express.body := Express.CommitmentGenerated "6661829705083247548" |}.
Proof. vm_compute. reflexivity. Qed.

(** ** Invalid amounts *)

Lemma nonpositive_or_nan_invalid (amount : option float) :
  nonpositive_or_nan amount -> invalid_amount amount = true.
Proof.
  unfold nonpositive_or_nan, invalid_amount, truthy_num, js_le.
  destruct amount as [x|]; [|reflexivity].
  intros [Hnan|Hle].
  - rewrite Hnan, orb_true_r. reflexivity.
  - rewrite Hle. apply orb_true_r.
Qed.

(** C7, counterexample. On an unexpired credential with a true predicate, an
    infinite amount in the US is denied for exceeding the limit of 10000, not
    as an invalid amount. *)
Lemma C7_infinite_amount_exceeds_the_limit :
  fst (Simple.handleBettingEligibility Scenario.clock_2024
         (Some Scenario.bet_infinity_US) Scenario.issued)
  = {| Simple.status := 200;
       Simple.body := Simple.Eligibility false false (AmountExceedsLimit 10000%float)
                        (Some 10000%float) "US" |}.
Proof. vm_compute. reflexivity. Qed.

(** C7, as amended. On an unexpired credential with a true predicate, an
    amount that is absent, [NaN], or at most zero (negative infinity
    included) is denied with [InvalidAmount], for every jurisdiction. *)
Theorem C7_nonpositive_or_nan_amount_is_invalid (clock : nat -> DateObj)
    (w : World Simple.CachedProof) (r : Simple.EligibilityRequest)
    (id : string) (c : Simple.CachedProof) :
  present_str (Simple.proofId r) = Some id ->
  proofCache w !! id = Some c ->
  (Simple.c_expiresAt c <? getTime (clock (clockReads w)))%Z = false ->
  Simple.c_isEligible c = true ->
  nonpositive_or_nan (Simple.bettingAmount r) ->
  fst (Simple.handleBettingEligibility clock (Some r) w)
  = {| Simple.status := 200;
       Simple.body :=
         Simple.Eligibility false false InvalidAmount
           (rules_maxBet (getJurisdictionRules (Simple.jurisdiction r)))
           (default "default" (present_str (Simple.jurisdiction r))) |}.
Proof.
  intros Hid Hc Hexp Hel Hamt. unfold Simple.handleBettingEligibility. rewrite Hid.
  run_handler. rewrite Hc. cbn [fst snd clockReads]. rewrite Hexp, Hel. cbn [negb].
  apply nonpositive_or_nan_invalid in Hamt. unfold invalid_amount in Hamt.
  unfold Simple.checkBettingEligibility. rewrite Hamt. reflexivity.
Qed.

Lemma C7_nonpositive_or_nan_amount_is_invalid_witness :
  fst (Simple.handleBettingEligibility Scenario.clock_2024
         (Some Scenario.bet_negative_US) Scenario.issued)
  = {| Simple.status := 200;
       Simple.body :=
         Simple.Eligibility false false InvalidAmount
           (rules_maxBet (getJurisdictionRules (Simple.jurisdiction Scenario.bet_negative_US)))
           (default "default" (present_str (Simple.jurisdiction Scenario.bet_negative_US))) |}.
Proof.
  apply (C7_nonpositive_or_nan_amount_is_invalid Scenario.clock_2024 Scenario.issued
           Scenario.bet_negative_US Scenario.issued_id Scenario.issued_entry).
  - vm_compute. reflexivity.
  - vm_compute. reflexivity.
  - vm_compute. reflexivity.
  - reflexivity.
  - right. vm_compute. reflexivity.
Defined.

(** [NaN], both zeros and negative infinity are invalid amounts. *)
Lemma invalid_amount_examples :
  invalid_amount (Some PrimFloat.nan) = true
  /\ invalid_amount (Some 0%float) = true
  /\ invalid_amount (Some (-0)%float) = true
  /\ invalid_amount (Some PrimFloat.neg_infinity) = true
  /\ invalid_amount None = true
  /\ invalid_amount (Some PrimFloat.infinity) = false.
Proof. repeat split; vm_compute; reflexivity. Qed.

(** [checkBettingEligibility] of src/gap-server.js has no guard on the
    amount: a negative amount is approved. *)
Lemma express_negative_amount_is_approved :
  Express.checkBettingEligibility (Some (-5)%float) (OwnEntry rules_US)
  = {| eligible := true; reason := Approved |}.
Proof. vm_compute. reflexivity. Qed.

(** ** Credential ids *)

(** C8. The credential id is the fingerprint of the serialised proof: issuing
    the same proof gives the same id in every state of either server, at any
    time, and storing twice under it keeps one credential per id. *)
Theorem C8_credential_id_depends_on_proof_only (sha256_hex : string -> string)
    (p : ZKProof) (w1 w2 : World Simple.CachedProof) (v1 v2 : World Express.CachedProof)
    (first second : Simple.CachedProof) :
  fst (Simple.generateProofId sha256_hex p w1) = fst (Simple.generateProofId sha256_hex p w2)
  /\ fst (Express.generateProofId sha256_hex p v1) = fst (Express.generateProofId sha256_hex p v2)
  /\ fst (Simple.generateProofId sha256_hex p w1) = fingerprint sha256_hex (JSON_stringify p)
  /\ dom (proofCache
            (snd (cache_set (fst (Simple.generateProofId sha256_hex p w2)) second
                    (snd (cache_set (fst (Simple.generateProofId sha256_hex p w1)) first w1)))))
     = dom (proofCache
              (snd (cache_set (fst (Simple.generateProofId sha256_hex p w1)) first w1))).
Proof.
  split; [reflexivity|]. split; [reflexivity|]. split; [reflexivity|].
  rewrite !generateProofId_run. unfold cache_set. cbn [fst snd proofCache].
  rewrite !dom_insert_L, (assoc_L (∪)), (idemp_L (∪)). reflexivity.
Qed.

(** ** Jurisdiction lookup *)

(** Codes that are neither own keys of the table nor names of
    [Object.prototype] resolve to the default entry. *)
Lemma getJurisdictionRules_default (jurisdiction : option string) :
  rules_own (property_key jurisdiction) = None ->
  ~ In (property_key jurisdiction) object_prototype_keys ->
  getJurisdictionRules jurisdiction = OwnEntry rules_default.
Proof.
  intros Hown Hnot. unfold getJurisdictionRules. rewrite Hown.
  destruct (existsb (String.eqb (property_key jurisdiction)) object_prototype_keys) eqn:He;
    [|reflexivity].
  apply existsb_exists in He. destruct He as [k [Hin Heq]].
  apply String.eqb_eq in Heq. subst k. contradiction.
Qed.

(** A name of [Object.prototype] resolves to the inherited member. *)
Lemma getJurisdictionRules_inherited (name : string) :
  In name object_prototype_keys ->
  getJurisdictionRules (Some name) = Inherited name.
Proof.
  intros Hin. cbn [In object_prototype_keys] in Hin.
  repeat (destruct Hin as [<-|Hin]; [reflexivity|]). contradiction.
Qed.

(** C9, at the failing input. The code "XX" resolves to the default entry,
    but the code "constructor" resolves to a member inherited from
    [Object.prototype], which has no [maxBet]: a bet of a billion is then
    approved with no limit. *)
Theorem C9_inherited_name_is_not_the_default :
  getJurisdictionRules (Some "XX") = OwnEntry rules_default
  /\ getJurisdictionRules (Some "constructor") = Inherited "constructor"
  /\ getJurisdictionRules (Some "constructor") <> OwnEntry rules_default
  /\ rules_maxBet (getJurisdictionRules (Some "constructor")) = None
  /\ fst (Simple.handleBettingEligibility Scenario.clock_2024
            (Some Scenario.bet_billion_constructor) Scenario.issued)
     = {| Simple.status := 200;
          Simple.body := Simple.Eligibility true true Approved None "constructor" |}.
Proof.
  repeat split; try (vm_compute; reflexivity). vm_compute. discriminate.
Qed.

(** ** [JSON.stringify] separates proofs *)

Lemma append_assoc (a b c : string) : (a +:+ b) +:+ c = a +:+ (b +:+ c).
Proof.
  induction a as [|x a IH]; [reflexivity|].
  change (String x ((a +:+ b) +:+ c) = String x (a +:+ (b +:+ c))).
  f_equal. exact IH.
Qed.

Lemma prefix_comparable_app (a b s1 s2 : string) :
  a +:+ s1 = b +:+ s2 -> prefix_comparable a b = true.
Proof.
  revert b. induction a as [|x a IH]; intros [|y b]; try reflexivity.
  change (String x (a +:+ s1) = String y (b +:+ s2) -> prefix_comparable (String x a) (String y b) = true).
  intros [= -> H]. cbn [prefix_comparable]. rewrite Ascii.eqb_refl. apply (IH b H).
Qed.

Lemma In_all_ascii (c : ascii) : In c all_ascii.
Proof.
  unfold all_ascii. rewrite <- (ascii_nat_embedding c).
  apply in_map, in_seq. pose proof (nat_ascii_bounded c). lia.
Qed.

(** The escapes of [JSON.stringify] form a prefix code that the closing quote
    of a string does not meet: checked on the 256 characters. *)
Lemma escape_code_checked :
  forallb
    (fun c1 =>
       negb (prefix_comparable (json_escape_char c1) dquote)
       && forallb
            (fun c2 =>
               implb (prefix_comparable (json_escape_char c1) (json_escape_char c2))
                     (Ascii.eqb c1 c2))
            all_ascii)
    all_ascii
  = true.
Proof. vm_compute. reflexivity. Qed.

Lemma escape_code_spec (c1 : ascii) :
  negb (prefix_comparable (json_escape_char c1) dquote) = true
  /\ forall c2,
       implb (prefix_comparable (json_escape_char c1) (json_escape_char c2))
             (Ascii.eqb c1 c2) = true.
Proof.
  pose proof (proj1 (forallb_forall _ _) escape_code_checked c1 (In_all_ascii c1)) as Hok.
  cbv beta in Hok. apply andb_prop in Hok. destruct Hok as [Hq Hall]. split; [exact Hq|].
  intros c2. exact (proj1 (forallb_forall _ _) Hall c2 (In_all_ascii c2)).
Qed.

Lemma json_escape_char_not_quote (c : ascii) (s1 s2 : string) :
  json_escape_char c +:+ s1 <> dquote +:+ s2.
Proof.
  intros H. apply prefix_comparable_app in H.
  destruct (escape_code_spec c) as [Hq _]. rewrite H in Hq. discriminate.
Qed.

Lemma json_escape_char_prefix_free (c1 c2 : ascii) (s1 s2 : string) :
  json_escape_char c1 +:+ s1 = json_escape_char c2 +:+ s2 -> c1 = c2.
Proof.
  intros H. apply prefix_comparable_app in H.
  destruct (escape_code_spec c1) as [_ Hall]. specialize (Hall c2).
  rewrite H in Hall. apply Ascii.eqb_eq. exact Hall.
Qed.

(** An escaped string followed by its closing quote determines the string. *)
Lemma json_escape_delimited (h1 h2 r1 r2 : string) :
  json_escape h1 +:+ dquote +:+ r1 = json_escape h2 +:+ dquote +:+ r2 -> h1 = h2.
Proof.
  revert h2. induction h1 as [|c1 h1 IH]; intros [|c2 h2]; cbn [json_escape].
  - reflexivity.
  - rewrite append_assoc. change (EmptyString +:+ dquote +:+ r1) with (dquote +:+ r1).
    intros H. symmetry in H.
    exfalso. exact (json_escape_char_not_quote _ _ _ H).
  - rewrite append_assoc. change (EmptyString +:+ dquote +:+ r2) with (dquote +:+ r2).
    intros H.
    exfalso. exact (json_escape_char_not_quote _ _ _ H).
  - rewrite !append_assoc. intros H.
    pose proof (json_escape_char_prefix_free _ _ _ _ H) as ->.
    apply (inj (String.app _)) in H. f_equal. exact (IH h2 H).
Qed.

(** The serialisations of two proofs of [generateZKProof] with the same
    eligibility flag coincide only if their fingerprints do. *)
Lemma JSON_stringify_separates (isEligible : bool) (h1 h2 : string) :
  JSON_stringify {| proof := simulated_groth16;
                    publicSignals := [if isEligible then "1" else "0"; h1];
                    proofHash := Some h1 |}
  = JSON_stringify {| proof := simulated_groth16;
                      publicSignals := [if isEligible then "1" else "0"; h2];
                      proofHash := Some h2 |} ->
  h1 = h2.
Proof.
  intros H.
  unfold JSON_stringify, JSON_stringify_groth16, json_object, json_member, json_array,
    json_string in H.
  cbn [proof publicSignals proofHash map json_join app] in H.
  rewrite !append_assoc in H.
  repeat (apply (inj (String.app _)) in H).
  exact (json_escape_delimited _ _ _ _ H).
Qed.

(** ** Proof generation reads the clock *)

(** The hashed string determines the clock read. *)
Lemma proof_preimage_inj (commitment : string) (isEligible : bool) (t1 t2 : Z) :
  Simple.proof_preimage commitment isEligible t1
  = Simple.proof_preimage commitment isEligible t2 ->
  t1 = t2.
Proof.
  unfold Simple.proof_preimage. intros H.
  repeat (apply (inj (String.app _)) in H).
  exact (inj pretty _ _ H).
Qed.

(** C10, counterexample. For the commitment eb3eb8dfffe6b022 and an eligible
    holder, the clock reads 1716617722981 and 1726594856365 give the same
    proof hash 9237a26269cafbfb: the two runs of [generateZKProof] return the
    same proof, and the same request served on the two hosts is answered with
    the same credential id. *)
Lemma C10_two_milliseconds_one_proof :
  getTime (Scenario.clock_may_25 1) <> getTime (Scenario.clock_september_17 1)
  /\ fst (Simple.generateZKProof SHA256.hex Scenario.clock_may_25 "eb3eb8dfffe6b022" true
            Scenario.fresh_later)
     = fst (Simple.generateZKProof SHA256.hex Scenario.clock_september_17 "eb3eb8dfffe6b022"
              true Scenario.fresh_later)
  /\ proofHash (fst (Simple.generateZKProof SHA256.hex Scenario.clock_may_25
                       "eb3eb8dfffe6b022" true Scenario.fresh_later))
     = Some "9237a26269cafbfb"
  /\ Simple.body (fst (Simple.handleGenerateProof SHA256.hex Scenario.clock_may_25
                         (Some Scenario.honest) Scenario.fresh))
     = Simple.ProofGenerated "2ab25e6960786d6a" true "18+" "9237a26269cafbfb"
  /\ Simple.body (fst (Simple.handleGenerateProof SHA256.hex Scenario.clock_september_17
                         (Some Scenario.honest) Scenario.fresh))
     = Simple.ProofGenerated "2ab25e6960786d6a" true "18+" "9237a26269cafbfb".
Proof.
  split; [vm_compute; discriminate|].
  repeat split; vm_compute; reflexivity.
Qed.

(** C10, as amended. [generateZKProof] reads the clock once and hashes the
    reading with the commitment and the eligibility flag. Two runs on the same
    commitment and flag whose readings are equal return the same proof, hence
    the same credential id, whatever the states of the server. Two runs whose
    readings differ hash different strings, but only 64 bits of the digest go
    into the proof: the two proofs are equal exactly when these 64 bits are,
    and equal proofs have equal credential ids. *)
Theorem C10_proof_depends_on_clock_read (sha256_hex : string -> string)
    (clock1 clock2 : nat -> DateObj) (commitment : string) (isEligible : bool)
    (w1 w2 : World Simple.CachedProof) :
  (getTime (clock1 (clockReads w1)) = getTime (clock2 (clockReads w2)) ->
   fst (Simple.generateZKProof sha256_hex clock1 commitment isEligible w1)
   = fst (Simple.generateZKProof sha256_hex clock2 commitment isEligible w2)
   /\ fst (Simple.generateProofId sha256_hex
             (fst (Simple.generateZKProof sha256_hex clock1 commitment isEligible w1)) w1)
      = fst (Simple.generateProofId sha256_hex
               (fst (Simple.generateZKProof sha256_hex clock2 commitment isEligible w2)) w2))
  /\ (getTime (clock1 (clockReads w1)) <> getTime (clock2 (clockReads w2)) ->
      Simple.proof_preimage commitment isEligible (getTime (clock1 (clockReads w1)))
      <> Simple.proof_preimage commitment isEligible (getTime (clock2 (clockReads w2))))
  /\ (fst (Simple.generateZKProof sha256_hex clock1 commitment isEligible w1)
      = fst (Simple.generateZKProof sha256_hex clock2 commitment isEligible w2)
      <-> fingerprint sha256_hex
            (Simple.proof_preimage commitment isEligible (getTime (clock1 (clockReads w1))))
          = fingerprint sha256_hex
              (Simple.proof_preimage commitment isEligible
                 (getTime (clock2 (clockReads w2)))))
  /\ (fst (Simple.generateZKProof sha256_hex clock1 commitment isEligible w1)
      = fst (Simple.generateZKProof sha256_hex clock2 commitment isEligible w2) ->
      fst (Simple.generateProofId sha256_hex
             (fst (Simple.generateZKProof sha256_hex clock1 commitment isEligible w1)) w1)
      = fst (Simple.generateProofId sha256_hex
               (fst (Simple.generateZKProof sha256_hex clock2 commitment isEligible w2)) w2)).
Proof.
  rewrite !generateZKProof_run, !generateProofId_run. cbn [fst].
  split; [|split; [|split]].
  - intros ->. split; reflexivity.
  - intros Hne Heq. apply Hne. exact (proof_preimage_inj commitment isEligible _ _ Heq).
  - unfold proof_at. split.
    + intros [= Heq]. exact Heq.
    + intros ->. reflexivity.
  - intros ->. reflexivity.
Qed.

Lemma C10_proof_depends_on_clock_read_witness :
  (fst (Simple.generateZKProof SHA256.hex Scenario.clock_2024 "eb3eb8dfffe6b022" true
          Scenario.fresh)
   = fst (Simple.generateZKProof SHA256.hex Scenario.clock_two_days_on "eb3eb8dfffe6b022" true
            Scenario.fresh)
   /\ fst (Simple.generateProofId SHA256.hex
             (fst (Simple.generateZKProof SHA256.hex Scenario.clock_2024 "eb3eb8dfffe6b022"
                     true Scenario.fresh)) Scenario.fresh)
      = fst (Simple.generateProofId SHA256.hex
               (fst (Simple.generateZKProof SHA256.hex Scenario.clock_two_days_on
                       "eb3eb8dfffe6b022" true Scenario.fresh)) Scenario.fresh))
  /\ Simple.proof_preimage "eb3eb8dfffe6b022" true
       (getTime (Scenario.clock_may_25 (clockReads Scenario.fresh_later)))
     <> Simple.proof_preimage "eb3eb8dfffe6b022" true
          (getTime (Scenario.clock_september_17 (clockReads Scenario.fresh_later)))
  /\ fst (Simple.generateProofId SHA256.hex
            (fst (Simple.generateZKProof SHA256.hex Scenario.clock_may_25 "eb3eb8dfffe6b022"
                    true Scenario.fresh_later)) Scenario.fresh_later)
     = fst (Simple.generateProofId SHA256.hex
              (fst (Simple.generateZKProof SHA256.hex Scenario.clock_september_17
                      "eb3eb8dfffe6b022" true Scenario.fresh_later)) Scenario.fresh_later).
Proof.
  split; [|split].
  - apply (proj1 (C10_proof_depends_on_clock_read SHA256.hex Scenario.clock_2024
                    Scenario.clock_two_days_on "eb3eb8dfffe6b022" true
                    Scenario.fresh Scenario.fresh)).
    reflexivity.
  - apply (proj1 (proj2 (C10_proof_depends_on_clock_read SHA256.hex Scenario.clock_may_25
                           Scenario.clock_september_17 "eb3eb8dfffe6b022" true
                           Scenario.fresh_later Scenario.fresh_later))).
    vm_compute. discriminate.
  - apply (proj2 (proj2 (proj2 (C10_proof_depends_on_clock_read SHA256.hex
                                  Scenario.clock_may_25 Scenario.clock_september_17
                                  "eb3eb8dfffe6b022" true
                                  Scenario.fresh_later Scenario.fresh_later)))).
    vm_compute. reflexivity.
Defined.

(** * Further properties of the code *)

(** The guard [!bettingAmount || bettingAmount <= 0] lets through exactly the
    numbers above zero. *)
Lemma invalid_amount_positive (x : float) :
  invalid_amount (Some x) = false <-> PrimFloat.ltb 0%float x = true.
Proof.
  unfold invalid_amount, truthy_num, js_le, PrimFloat.is_zero, PrimFloat.is_nan.
  rewrite negb_involutive, !FloatAxioms.eqb_spec, FloatAxioms.leb_spec, FloatAxioms.ltb_spec, Prim2SF_zero.
  unfold SFeqb, SFleb, SFltb.
  destruct (Prim2SF x) as [s|s| |s m e] eqn:Ex; cbn.
  - split; discriminate.
  - destruct s; cbn; split; (discriminate || reflexivity).
  - split; discriminate.
  - rewrite Z.compare_refl, Pcompare_refl. destruct s; cbn; split; (discriminate || reflexivity).
Qed.

(** ** Ages and dates *)

(** The age computed by [calculateAge] is at least [n] exactly from the
    [n]-th birthday on. *)
Lemma calculateAge_at_least (n by_ bm bd cy cm cd : Z) :
  n <= Simple.calculateAge by_ bm bd cy cm cd <-> date_le (by_ + n) bm bd cy cm cd.
Proof.
  unfold Simple.calculateAge, date_le.
  destruct (Z.ltb_spec cm bm), (Z.eqb_spec cm bm), (Z.ltb_spec cd bd); cbn; lia.
Qed.


Lemma date_le_trans (y1 m1 d1 y2 m2 d2 y3 m3 d3 : Z) :
  date_le y1 m1 d1 y2 m2 d2 -> date_le y2 m2 d2 y3 m3 d3 -> date_le y1 m1 d1 y3 m3 d3.
Proof. unfold date_le. lia. Qed.

(** ** The amounts [checkBettingEligibility] approves *)

Lemma invalid_amount_not_nan (x : float) :
  invalid_amount (Some x) = false -> PrimFloat.is_nan x = false.
Proof.
  unfold invalid_amount, truthy_num. rewrite negb_involutive.
  intros H. apply orb_false_elim in H. destruct H as [H _].
  apply orb_false_elim in H. tauto.
Qed.

(** For a policy of the table (or any policy whose limit is a number),
    [checkBettingEligibility] approves an amount that is a number exactly
    when it is above zero and at most the limit and the policy is not
    restricted. (An amount that is no number is not covered: the
    comparisons would first convert it, and a string that is no numeral,
    which converts to [NaN], passes them all.) *)
Theorem checkBettingEligibility_approves_interval (x : float) (r : Rules) :
  PrimFloat.is_nan (maxBet r) = false ->
  eligible (Simple.checkBettingEligibility (Some x) (OwnEntry r)) = true
  <-> (PrimFloat.ltb 0%float x = true
       /\ PrimFloat.leb x (maxBet r) = true
       /\ restricted r = false).
Proof.
  intros Hmax. unfold Simple.checkBettingEligibility.
  change (negb (truthy_num (Some x)) || js_le (Some x) (Some 0%float))
    with (invalid_amount (Some x)).
  destruct (invalid_amount (Some x)) eqn:Hinv.
  - cbn. split; [discriminate|]. intros [Hpos _].
    apply invalid_amount_positive in Hpos. congruence.
  - pose proof (invalid_amount_not_nan x Hinv) as Hx.
    apply invalid_amount_positive in Hinv.
    cbn [js_gt rules_maxBet rules_restricted].
    rewrite (float_ltb_negb_leb x (maxBet r) Hx Hmax).
    destruct (PrimFloat.leb x (maxBet r)); cbn.
    + destruct (restricted r); cbn; split; try discriminate; try tauto.
      intros [_ [_ H]]. discriminate.
    + split; [discriminate|]. intros [_ [H _]]. discriminate.
Qed.

Lemma checkBettingEligibility_approves_interval_witness :
  eligible (Simple.checkBettingEligibility (Some 500%float) (OwnEntry rules_US)) = true
  <-> (PrimFloat.ltb 0%float 500%float = true
       /\ PrimFloat.leb 500%float (maxBet rules_US) = true
       /\ restricted rules_US = false).
Proof.
  apply (checkBettingEligibility_approves_interval 500%float rules_US). reflexivity.
Defined.

(** ** What each handler of simple-gap-server.js does to the server *)

Lemma handleGenerateCommitment_world (sha256_hex : string -> string)
    (body : option Simple.CommitmentRequest) (w : World Simple.CachedProof) :
  proofCache (snd (Simple.handleGenerateCommitment sha256_hex body w)) = proofCache w
  /\ clockReads (snd (Simple.handleGenerateCommitment sha256_hex body w)) = clockReads w.
Proof.
  unfold Simple.handleGenerateCommitment.
  destruct body as [r|]; [|split; reflexivity].
  destruct (present_int (Simple.birthYear r)), (present_int (Simple.birthMonth r)),
    (present_int (Simple.birthDay r)), (present_str (Simple.identitySecret r));
    split; reflexivity.
Qed.

Lemma handleVerifyProof_world (clock : nat -> DateObj) (body : option (option string))
    (w : World Simple.CachedProof) :
  proofCache (snd (Simple.handleVerifyProof clock body w)) = proofCache w
  /\ hashed (snd (Simple.handleVerifyProof clock body w)) = hashed w
  /\ (clockReads w <= clockReads (snd (Simple.handleVerifyProof clock body w)))%nat.
Proof.
  unfold Simple.handleVerifyProof.
  destruct body as [p|]; [|cbn; auto].
  destruct (present_str p); [|cbn; auto].
  run_handler. destruct (proofCache w !! s); cbn; auto.
Qed.

Lemma handleBettingEligibility_world (clock : nat -> DateObj)
    (body : option Simple.EligibilityRequest) (w : World Simple.CachedProof) :
  proofCache (snd (Simple.handleBettingEligibility clock body w)) = proofCache w
  /\ hashed (snd (Simple.handleBettingEligibility clock body w)) = hashed w
  /\ (clockReads w <= clockReads (snd (Simple.handleBettingEligibility clock body w)))%nat.
Proof.
  unfold Simple.handleBettingEligibility.
  destruct body as [r|]; [|cbn; auto].
  destruct (present_str (Simple.proofId r)); [|cbn; auto].
  run_handler. destruct (proofCache w !! s) as [c|]; [|cbn; auto].
  cbn [fst snd clockReads].
  destruct (Simple.c_expiresAt c <? getTime (clock (clockReads w)))%Z; [cbn; auto|].
  destruct (negb (Simple.c_isEligible c)); cbn; auto.
Qed.

(** A proof request either leaves the store as it is or stores one
    well-formed credential, timed by the third and fourth clock reads of the
    handler. *)
Lemma handleGenerateProof_world (sha256_hex : string -> string) (clock : nat -> DateObj)
    (body : option Simple.ProofRequest) (w : World Simple.CachedProof) :
  (clockReads w <= clockReads (snd (Simple.handleGenerateProof sha256_hex clock body w)))%nat
  /\ (proofCache (snd (Simple.handleGenerateProof sha256_hex clock body w)) = proofCache w
      \/ exists k e,
           proofCache (snd (Simple.handleGenerateProof sha256_hex clock body w))
           = <[k := e]> (proofCache w)
           /\ entry_well_formed sha256_hex k e
           /\ entry_timed clock
                (clockReads (snd (Simple.handleGenerateProof sha256_hex clock body w))) e).
Proof.
  destruct body as [[[oy om od os] oc]|]; [|cbn; auto].
  destruct (present_int oy) as [y|] eqn:Hy;
    [|unfold Simple.handleGenerateProof; cbn; rewrite Hy; cbn; auto].
  destruct (present_int om) as [m|] eqn:Hm;
    [|unfold Simple.handleGenerateProof; cbn; rewrite Hy, Hm; cbn; auto].
  destruct (present_int od) as [d|] eqn:Hd;
    [|unfold Simple.handleGenerateProof; cbn; rewrite Hy, Hm, Hd; cbn; auto].
  destruct (present_str os) as [secret|] eqn:Hs;
    [|unfold Simple.handleGenerateProof; cbn; rewrite Hy, Hm, Hd, Hs; cbn; auto].
  destruct (present_str oc) as [commitment|] eqn:Hc;
    [|unfold Simple.handleGenerateProof; cbn; rewrite Hy, Hm, Hd, Hs, Hc; cbn; auto].
  apply present_int_inv in Hy, Hm, Hd. apply present_str_inv in Hs, Hc.
  destruct Hy as [-> Hy], Hm as [-> Hm], Hd as [-> Hd], Hs as [-> Hs], Hc as [-> Hc].
  rewrite (handleGenerateProof_run sha256_hex clock w y m d secret commitment Hy Hm Hd Hs Hc).
  cbn [snd clockReads proofCache]. split; [lia|]. right.
  eexists _, _. split; [reflexivity|]. split.
  - split; [reflexivity|]. split; [reflexivity|].
    eexists commitment, _. split; [exact Hc | reflexivity].
  - exists (S (S (clockReads w))). cbn [Simple.c_timestamp Simple.c_expiresAt].
    split; [lia|]. split; reflexivity.
Qed.

(** ** The server over a sequence of requests *)

Section RouterFacts.
Variable sha256_hex : string -> string.
Variable clock : nat -> DateObj.

(** One request: the clock only advances, and the store is left as it is
    unless the request is a POST to /api/generate-proof that stores one
    well-formed, timed credential. *)
Lemma handleRequest_step (req : Router.Request) (w : World Simple.CachedProof) :
  (clockReads w <= clockReads (snd (Router.handleRequest sha256_hex clock req w)))%nat
  /\ (proofCache (snd (Router.handleRequest sha256_hex clock req w)) = proofCache w
      \/ (is_generate_proof req = true
          /\ exists k e,
               proofCache (snd (Router.handleRequest sha256_hex clock req w))
               = <[k := e]> (proofCache w)
               /\ entry_well_formed sha256_hex k e
               /\ entry_timed clock
                    (clockReads (snd (Router.handleRequest sha256_hex clock req w))) e)).
Proof.
  remember (snd (Router.handleRequest sha256_hex clock req w)) as w' eqn:Hw'.
  unfold Router.handleRequest in Hw'. unfold is_generate_proof.
  destruct (String.eqb (Router.method req) "OPTIONS"); [subst w'; cbn; auto|].
  unfold bind at 1 in Hw'. unfold new_Date at 1 in Hw'.
  set (w1 := mkWorld (proofCache w) (S (clockReads w)) (hashed w)) in Hw'.
  destruct (String.eqb (Router.method req) "GET" && String.eqb (Router.path req) "/health").
  { subst w'. cbn. split; [lia|]. left. reflexivity. }
  destruct (String.eqb (Router.method req) "POST"); cbn [andb] in Hw' |- *;
    [|subst w'; cbn; split; [lia | auto]].
  destruct (String.eqb (Router.path req) "/api/generate-commitment").
  { unfold bind, ret in Hw'.
    pose proof (handleGenerateCommitment_world sha256_hex
                  (option_map Router.commitment_fields (Router.body req)) w1) as [Hc Hn].
    destruct (Simple.handleGenerateCommitment sha256_hex
                (option_map Router.commitment_fields (Router.body req)) w1) as [r w2].
    cbn [snd] in *. subst w'. rewrite Hc, Hn. cbn. split; [lia | auto]. }
  destruct (String.eqb (Router.path req) "/api/generate-proof").
  { unfold bind, ret in Hw'.
    pose proof (handleGenerateProof_world sha256_hex clock
                  (option_map Router.proof_fields (Router.body req)) w1) as [Hn Hc].
    destruct (Simple.handleGenerateProof sha256_hex clock
                (option_map Router.proof_fields (Router.body req)) w1) as [r w2].
    cbn [snd] in *. subst w'. split; [cbn in Hn; lia|].
    destruct Hc as [Hc|Hc]; [left; exact Hc | right; split; [reflexivity | exact Hc]]. }
  destruct (String.eqb (Router.path req) "/api/verify-proof").
  { unfold bind, ret in Hw'.
    pose proof (handleVerifyProof_world clock
                  (option_map Router.proofId (Router.body req)) w1) as [Hc [_ Hn]].
    destruct (Simple.handleVerifyProof clock (option_map Router.proofId (Router.body req)) w1)
      as [r w2].
    cbn [snd] in *. subst w'. split; [cbn in Hn; lia | left; exact Hc]. }
  destruct (String.eqb (Router.path req) "/api/betting-eligibility").
  { unfold bind, ret in Hw'.
    pose proof (handleBettingEligibility_world clock
                  (option_map Router.eligibility_fields (Router.body req)) w1) as [Hc [_ Hn]].
    destruct (Simple.handleBettingEligibility clock
                (option_map Router.eligibility_fields (Router.body req)) w1) as [r w2].
    cbn [snd] in *. subst w'. split; [cbn in Hn; lia | left; exact Hc]. }
  subst w'. cbn. split; [lia | auto].
Qed.

Lemma serve_cons (req : Router.Request) (rest : list Router.Request)
    (w : World Simple.CachedProof) :
  snd (Router.serve sha256_hex clock (req :: rest) w)
  = snd (Router.serve sha256_hex clock rest
           (snd (Router.handleRequest sha256_hex clock req w))).
Proof.
  cbn [Router.serve]. unfold bind, ret.
  destruct (Router.handleRequest sha256_hex clock req w) as [a w1]. cbn [snd].
  destruct (Router.serve sha256_hex clock rest w1) as [l w2]. reflexivity.
Qed.

Lemma entry_timed_mono (lo hi : nat) (e : Simple.CachedProof) :
  (lo <= hi)%nat -> entry_timed clock lo e -> entry_timed clock hi e.
Proof.
  intros Hle [i [Hi Ht]]. exists i. split; [lia | exact Ht].
Qed.

Lemma serve_clockReads (reqs : list Router.Request) (w : World Simple.CachedProof) :
  (clockReads w <= clockReads (snd (Router.serve sha256_hex clock reqs w)))%nat.
Proof.
  revert w. induction reqs as [|req rest IH]; intros w; [cbn; lia|].
  rewrite serve_cons.
  pose proof (handleRequest_step req w) as [Hn _].
  specialize (IH (snd (Router.handleRequest sha256_hex clock req w))). lia.
Qed.

(** Only a POST to /api/generate-proof changes the credential store. *)
Theorem only_generate_proof_writes_the_store (req : Router.Request)
    (w : World Simple.CachedProof) :
  is_generate_proof req = false ->
  proofCache (snd (Router.handleRequest sha256_hex clock req w)) = proofCache w.
Proof.
  intros Hreq. destruct (handleRequest_step req w) as [_ [H|[H _]]];
    [exact H | congruence].
Qed.

(** No sequence of requests removes a credential: every id stored before is
    stored after. *)
Theorem serve_never_evicts (reqs : list Router.Request) (w : World Simple.CachedProof) :
  dom (proofCache w) ⊆ dom (proofCache (snd (Router.serve sha256_hex clock reqs w))).
Proof.
  revert w. induction reqs as [|req rest IH]; intros w; [reflexivity|].
  rewrite serve_cons. etrans; [|apply IH].
  destruct (handleRequest_step req w) as [_ [H|[_ [k [e [H _]]]]]]; rewrite H.
  - reflexivity.
  - rewrite dom_insert. apply union_subseteq_r.
Qed.

Lemma serve_invariant (reqs : list Router.Request)
    (w : World Simple.CachedProof) (k : string) (e : Simple.CachedProof) :
  (forall k0 e0, proofCache w !! k0 = Some e0 ->
     entry_well_formed sha256_hex k0 e0 /\ entry_timed clock (clockReads w) e0) ->
  proofCache (snd (Router.serve sha256_hex clock reqs w)) !! k = Some e ->
  entry_well_formed sha256_hex k e
  /\ entry_timed clock (clockReads (snd (Router.serve sha256_hex clock reqs w))) e.
Proof.
  revert w. induction reqs as [|req rest IH]; intros w Hinv Hk.
  - cbn in Hk. exact (Hinv k e Hk).
  - rewrite serve_cons in Hk |- *. apply (IH _ ); [|exact Hk].
    intros k0 e0 H0.
    destruct (handleRequest_step req w) as [Hn [H|[_ [k1 [e1 [H [Hwf Ht]]]]]]].
    + rewrite H in H0. destruct (Hinv k0 e0 H0) as [Hw0 Ht0].
      split; [exact Hw0 | exact (entry_timed_mono _ _ _ Hn Ht0)].
    + rewrite H in H0. destruct (decide (k1 = k0)) as [->|Hne].
      * rewrite lookup_insert_eq in H0. injection H0 as <-. split; assumption.
      * rewrite lookup_insert_ne in H0 by assumption.
        destruct (Hinv k0 e0 H0) as [Hw0 Ht0].
        split; [exact Hw0 | exact (entry_timed_mono _ _ _ Hn Ht0)].
Qed.

End RouterFacts.

Lemma only_generate_proof_writes_the_store_witness :
  proofCache (snd (Router.handleRequest SHA256.hex Scenario.clock_2024 Session.health_check
                     Scenario.issued))
  = proofCache Scenario.issued.
Proof.
  apply (only_generate_proof_writes_the_store SHA256.hex Scenario.clock_2024
           Session.health_check Scenario.issued).
  reflexivity.
Defined.


(** ** Issuing, then using a credential *)

(** For a request whose [proofId] and [jurisdiction] are strings or absent
    and whose [bettingAmount] is a number or absent, [canBet] is true exactly
    when the request names a stored credential that is unexpired at the clock
    read of the handler and eligible, and the amount is present, above zero
    and not over the limit of the jurisdiction. (A request in which the
    amount is no number is not covered: the comparisons would first convert
    it, and a string that is no numeral, which converts to [NaN], passes
    them all.) *)
Theorem canBet_iff (clock : nat -> DateObj) (w : World Simple.CachedProof)
    (r : Simple.EligibilityRequest) :
  Simple.canBet (Simple.body (fst (Simple.handleBettingEligibility clock (Some r) w))) = true
  <-> exists id c x,
        Simple.proofId r = Some id /\ id <> EmptyString
        /\ proofCache w !! id = Some c
        /\ (Simple.c_expiresAt c <? getTime (clock (clockReads w)))%Z = false
        /\ Simple.c_isEligible c = true
        /\ Simple.bettingAmount r = Some x
        /\ PrimFloat.ltb 0%float x = true
        /\ js_gt (Some x) (rules_maxBet (getJurisdictionRules (Simple.jurisdiction r))) = false.
Proof.
  unfold Simple.handleBettingEligibility.
  destruct (present_str (Simple.proofId r)) as [id|] eqn:Hid.
  2:{ cbn. split; [discriminate|]. intros [id [c [x [Hp [Hne _]]]]].
      rewrite Hp, (present_str_Some id Hne) in Hid. discriminate. }
  apply present_str_inv in Hid. destruct Hid as [Hid Hne].
  run_handler. destruct (proofCache w !! id) as [c|] eqn:Hc.
  2:{ cbn. split; [discriminate|]. intros [id' [c [x [Hp [_ [Hc' _]]]]]]. congruence. }
  cbn [fst snd clockReads].
  destruct (Simple.c_expiresAt c <? getTime (clock (clockReads w)))%Z eqn:Hexp.
  { cbn. split; [discriminate|]. intros [id' [c' [x [Hp [_ [Hc' [He _]]]]]]]. congruence. }
  destruct (Simple.c_isEligible c) eqn:Hel; cbn [negb].
  2:{ cbn. split; [discriminate|].
      intros [id' [c' [x [Hp [_ [Hc' [_ [He _]]]]]]]]. congruence. }
  cbn [fst Simple.body Simple.canBet andb].
  unfold Simple.checkBettingEligibility.
  change (negb (truthy_num (Simple.bettingAmount r))
          || js_le (Simple.bettingAmount r) (Some 0%float))
    with (invalid_amount (Simple.bettingAmount r)).
  rewrite getJurisdictionRules_unrestricted.
  destruct (Simple.bettingAmount r) as [x|] eqn:Hx.
  2:{ cbn. split; [discriminate|]. intros [id' [c' [x [_ [_ [_ [_ [_ [H _]]]]]]]]].
      discriminate. }
  destruct (invalid_amount (Some x)) eqn:Hinv.
  { cbn. split; [discriminate|]. intros [id' [c' [x' [_ [_ [_ [_ [_ [[= <-] [Hpos _]]]]]]]]]].
    apply invalid_amount_positive in Hpos. congruence. }
  apply invalid_amount_positive in Hinv.
  destruct (js_gt (Some x) (rules_maxBet (getJurisdictionRules (Simple.jurisdiction r))))
    eqn:Hgt.
  { split; [cbn; discriminate|].
    intros [id' [c' [x' [_ [_ [_ [_ [_ [[= <-] [_ Hle]]]]]]]]]]. congruence. }
  split; [|reflexivity]. intros _.
  exists id, c, x. repeat split; assumption.
Qed.

(** Issue, then look up. A proof request with five truthy fields, the three
    of the birth date being integers that a double holds exactly and the two
    others strings, returns an id under which the credential can be looked up
    in any later state that still holds it: the lookup reports it valid
    exactly while the clock has not passed the fourth clock read of the
    issuing request plus 24 hours, and reports the eligibility decided at
    issuance, which is true exactly when the local date of the first clock
    read is on or after the eighteenth birthday. *)
Theorem issue_then_lookup (sha256_hex : string -> string) (clock : nat -> DateObj)
    (w w2 : World Simple.CachedProof) (y m d : Z) (secret commitment : string)
    (id label h : string) (e : bool) :
  safe_integer y -> safe_integer m -> safe_integer d ->
  calendar_fields (clock (clockReads w)) ->
  y <> 0 -> m <> 0 -> d <> 0 -> secret <> EmptyString -> commitment <> EmptyString ->
  Simple.body
    (fst (Simple.handleGenerateProof sha256_hex clock
            (Some {| Simple.attributes :=
                       {| Simple.birthYear := Some y; Simple.birthMonth := Some m;
                          Simple.birthDay := Some d;
                          Simple.identitySecret := Some secret |};
                     Simple.identityCommitment := Some commitment |}) w))
  = Simple.ProofGenerated id e label h ->
  id <> EmptyString ->
  proofCache w2 !! id
  = proofCache
      (snd (Simple.handleGenerateProof sha256_hex clock
              (Some {| Simple.attributes :=
                         {| Simple.birthYear := Some y; Simple.birthMonth := Some m;
                            Simple.birthDay := Some d;
                            Simple.identitySecret := Some secret |};
                       Simple.identityCommitment := Some commitment |}) w)) !! id ->
  (e = true
   <-> date_le (y + 18) m d (getFullYear (clock (clockReads w)))
         (getMonth (clock (clockReads w)) + 1) (getDate (clock (clockReads w))))
  /\ exists message,
       fst (Simple.handleVerifyProof clock (Some (Some id)) w2)
       = {| Simple.status := 200;
            Simple.body :=
              Simple.ProofVerified
                (getTime (clock (clockReads w2))
                   <=? getTime (clock (3 + clockReads w)%nat) + msPerDay)%Z
                e label (getTime (clock (2 + clockReads w)%nat))
                (getTime (clock (3 + clockReads w)%nat) + msPerDay) message |}.
Proof.
  intros _ _ _ _ Hy Hm Hd Hs Hc.
  rewrite (handleGenerateProof_run sha256_hex clock w y m d secret commitment Hy Hm Hd Hs Hc).
  cbn [fst snd Simple.body proofCache]. intros [= <- <- <- <-] Hid Hw2.
  rewrite lookup_insert_eq in Hw2. split.
  - rewrite Z.leb_le. apply calculateAge_at_least.
  - destruct (handleVerifyProof_stored clock w2 _ _ Hid Hw2) as [message Hm2].
    exists message. rewrite Hm2. cbn [Simple.c_expiresAt Simple.c_isEligible Simple.c_age
      Simple.c_timestamp]. rewrite <- Z.leb_antisym. reflexivity.
Qed.

Lemma issue_then_lookup_witness :
  (true = true
   <-> date_le (1990 + 18) 5 15
         (getFullYear (Scenario.clock_2024 (clockReads Scenario.fresh)))
         (getMonth (Scenario.clock_2024 (clockReads Scenario.fresh)) + 1)
         (getDate (Scenario.clock_2024 (clockReads Scenario.fresh))))
  /\ exists message,
       fst (Simple.handleVerifyProof Scenario.clock_2024 (Some (Some Scenario.issued_id))
              Scenario.issued)
       = {| Simple.status := 200;
            Simple.body :=
              Simple.ProofVerified
                (getTime (Scenario.clock_2024 (clockReads Scenario.issued))
                   <=? getTime (Scenario.clock_2024 (3 + clockReads Scenario.fresh)%nat)
                       + msPerDay)%Z
                true "18+"
                (getTime (Scenario.clock_2024 (2 + clockReads Scenario.fresh)%nat))
                (getTime (Scenario.clock_2024 (3 + clockReads Scenario.fresh)%nat) + msPerDay)
                message |}.
Proof.
  apply (issue_then_lookup SHA256.hex Scenario.clock_2024 Scenario.fresh Scenario.issued
           1990 5 15 "s3cret" "eb3eb8dfffe6b022" Scenario.issued_id "18+"
           "7fc1d9e271f8406e" true); try discriminate.
  1-3: split; reflexivity.
  - vm_compute. repeat split; discriminate.
  - vm_compute. reflexivity.
  - reflexivity.
Defined.

(** A stored credential that is not eligible never allows a bet. *)
Lemma handleBettingEligibility_ineligible (clock : nat -> DateObj)
    (w : World Simple.CachedProof) (r : Simple.EligibilityRequest) (id : string)
    (c : Simple.CachedProof) :
  Simple.proofId r = Some id -> proofCache w !! id = Some c ->
  Simple.c_isEligible c = false ->
  Simple.canBet (Simple.body (fst (Simple.handleBettingEligibility clock (Some r) w))) = false.
Proof.
  intros Hid Hc Hel. unfold Simple.handleBettingEligibility. rewrite Hid.
  destruct (present_str (Some id)) as [id'|] eqn:Hp; [|reflexivity].
  apply present_str_inv in Hp. destruct Hp as [[= <-] _].
  run_handler. rewrite Hc. cbn [fst snd clockReads].
  destruct (Simple.c_expiresAt c <? getTime (clock (clockReads w)))%Z; [reflexivity|].
  rewrite Hel. reflexivity.
Qed.

(** A credential issued before the eighteenth birthday never allows a bet.
    When a proof request whose birth fields are integers that a double holds
    exactly is served on a local date before the eighteenth birthday, then
    whatever the amount (a number or none), the jurisdiction (a string or
    none) and the time of a later request for that credential, [canBet] is
    false in every state that still holds it. *)
Theorem minor_never_bets (sha256_hex : string -> string) (clock : nat -> DateObj)
    (w w2 : World Simple.CachedProof) (y m d : Z) (secret commitment : string)
    (id label h : string) (e : bool)
    (amount : option float) (jurisdiction : option string) :
  safe_integer y -> safe_integer m -> safe_integer d ->
  calendar_fields (clock (clockReads w)) ->
  y <> 0 -> m <> 0 -> d <> 0 -> secret <> EmptyString -> commitment <> EmptyString ->
  ~ date_le (y + 18) m d (getFullYear (clock (clockReads w)))
      (getMonth (clock (clockReads w)) + 1) (getDate (clock (clockReads w))) ->
  Simple.body
    (fst (Simple.handleGenerateProof sha256_hex clock
            (Some {| Simple.attributes :=
                       {| Simple.birthYear := Some y; Simple.birthMonth := Some m;
                          Simple.birthDay := Some d;
                          Simple.identitySecret := Some secret |};
                     Simple.identityCommitment := Some commitment |}) w))
  = Simple.ProofGenerated id e label h ->
  proofCache w2 !! id
  = proofCache
      (snd (Simple.handleGenerateProof sha256_hex clock
              (Some {| Simple.attributes :=
                         {| Simple.birthYear := Some y; Simple.birthMonth := Some m;
                            Simple.birthDay := Some d;
                            Simple.identitySecret := Some secret |};
                       Simple.identityCommitment := Some commitment |}) w)) !! id ->
  Simple.canBet
    (Simple.body
       (fst (Simple.handleBettingEligibility clock
               (Some {| Simple.proofId := Some id;
                        Simple.bettingAmount := amount;
                        Simple.jurisdiction := jurisdiction |}) w2)))
  = false.
Proof.
  intros _ _ _ _ Hy Hm Hd Hs Hc Hminor.
  rewrite (handleGenerateProof_run sha256_hex clock w y m d secret commitment Hy Hm Hd Hs Hc).
  cbn [fst snd Simple.body proofCache]. intros [= <- <- <- <-] Hw2.
  rewrite lookup_insert_eq in Hw2.
  eapply handleBettingEligibility_ineligible; [reflexivity | exact Hw2 |].
  cbn [Simple.c_isEligible]. apply Z.leb_gt.
  destruct (Z.lt_ge_cases
              (Simple.calculateAge y m d (getFullYear (clock (clockReads w)))
                 (getMonth (clock (clockReads w)) + 1) (getDate (clock (clockReads w)))) 18)
    as [Hlt|Hge]; [exact Hlt|].
  apply calculateAge_at_least in Hge. contradiction.
Qed.

Lemma minor_never_bets_witness :
  Simple.canBet
    (Simple.body
       (fst (Simple.handleBettingEligibility Scenario.clock_2024
               (Some {| Simple.proofId := Some Session.minor_id;
                        Simple.bettingAmount := Some 5%float;
                        Simple.jurisdiction := Some "UK" |}) Session.minor_issued)))
  = false.
Proof.
  apply (minor_never_bets SHA256.hex Scenario.clock_2024 Scenario.fresh
           Session.minor_issued 2010 1 1 "s3cret" "eb3eb8dfffe6b022" Session.minor_id
           "under_18" "c2c32a294541adbf" false (Some 5%float) (Some "UK"));
    try discriminate.
  1-3: split; reflexivity.
  - vm_compute. repeat split; discriminate.
  - unfold date_le. cbn. lia.
  - vm_compute. reflexivity.
  - reflexivity.
Defined.

(** ** src/gap-server.js *)

(** [generateZKProof] of src/gap-server.js signals eligibility exactly when
    four times the days elapsed between the two dates reach 1461 times the
    minimum age: for the age of 18 the route asks for, from the 6575th day
    on. (Years outside 0..99, which [Date] takes as they are, and dates
    within the range of [Date].) *)
Lemma express_signal_iff_elapsed_days (sha256_hex : string -> string)
    (i : Express.CircuitInput) (w : World Express.CachedProof) :
  99 < Express.birth_year i -> 99 < Express.current_year i ->
  publicSignals (fst (Express.generateZKProof sha256_hex i w)) !! 0%nat
  = Some (if (1461 * Express.min_age i <=? 4 * elapsed_days i)%Z then "1" else "0").
Proof.
  intros Hb Hc. unfold Express.generateZKProof, Express.generateProofHash. run_handler.
  cbn [publicSignals lookup list_lookup]. f_equal.
  assert ((Express.min_age i <=? Express.approximate_age i)%Z
          = (1461 * Express.min_age i <=? 4 * elapsed_days i)%Z) as ->; [|reflexivity].
  unfold Express.approximate_age, Express.new_Date_ymd, elapsed_days,
    Express.msPerJulianYear, msPerDay.
  destruct (Z.leb_spec 0 (Express.birth_year i)), (Z.leb_spec (Express.birth_year i) 99),
    (Z.leb_spec 0 (Express.current_year i)), (Z.leb_spec (Express.current_year i) 99);
    cbn [andb]; try lia.
  set (dc := Express.MakeDay (Express.current_year i) (Express.current_month i - 1)
               (Express.current_day i)).
  set (db := Express.MakeDay (Express.birth_year i) (Express.birth_month i - 1)
               (Express.birth_day i)).
  apply eq_true_iff_eq. rewrite !Z.leb_le. split; intros Hage.
  - assert (24 * 60 * 60 * 1000 * dc - 24 * 60 * 60 * 1000 * db
            >= 31557600000 * Express.min_age i); [|lia].
    pose proof (Z.mul_div_le (24 * 60 * 60 * 1000 * dc - 24 * 60 * 60 * 1000 * db)
                  31557600000 ltac:(lia)). nia.
  - apply Z.div_le_lower_bound; lia.
Qed.

(** The eligibility route of src/gap-server.js allows the bet exactly when the
    request names a stored, eligible credential and the amount is not over
    the limit of the jurisdiction: neither an expiry nor the sign of the
    amount, nor its absence, is ever a ground for denial. *)
Theorem express_canBet_iff (w : World Express.CachedProof) (r : Express.EligibilityRequest) :
  (exists e reason limit j,
     Express.body (fst (Express.post_betting_eligibility r w))
     = Express.Eligibility e true reason limit j)
  <-> exists id c,
        Express.proofId r = Some id /\ id <> EmptyString
        /\ proofCache w !! id = Some c
        /\ Express.c_isEligible c = true
        /\ js_gt (Express.bettingAmount r)
             (rules_maxBet (getJurisdictionRules (Express.jurisdiction r))) = false.
Proof.
  unfold Express.post_betting_eligibility.
  destruct (present_str (Express.proofId r)) as [id|] eqn:Hid.
  2:{ cbn. split; [intros [e [rs [l [j H]]]]; discriminate|].
      intros [id [c [Hp [Hne _]]]].
      rewrite Hp, (present_str_Some id Hne) in Hid. discriminate. }
  apply present_str_inv in Hid. destruct Hid as [Hid Hne].
  run_handler. destruct (proofCache w !! id) as [c|] eqn:Hc.
  2:{ cbn. split; [intros [e [rs [l [j H]]]]; discriminate|].
      intros [id' [c [Hp [_ [Hc' _]]]]]. congruence. }
  destruct (Express.c_isEligible c) eqn:Hel; cbn [negb].
  2:{ cbn. split; [intros [e [rs [l [j H]]]]; discriminate|].
      intros [id' [c' [Hp [_ [Hc' [He _]]]]]]. congruence. }
  cbn [fst Express.body andb]. unfold Express.checkBettingEligibility.
  rewrite getJurisdictionRules_unrestricted.
  destruct (js_gt (Express.bettingAmount r)
              (rules_maxBet (getJurisdictionRules (Express.jurisdiction r)))) eqn:Hgt.
  - split; [intros [e [rs [l [j H]]]]; cbn in H; discriminate|].
    intros [id' [c' [_ [_ [_ [_ H]]]]]]. discriminate.
  - split; [|intros _; cbn; eauto].
    intros _. exists id, c. repeat split; assumption.
Qed.

(** The circuit input the /api/generate-proof route builds at clock reading
    [now]. *)
Lemma post_generate_proof_run (sha256_hex : string -> string) (clock : nat -> DateObj)
    (w : World Express.CachedProof) (y m d : Z) (secret commitment : string) :
  y <> 0 -> m <> 0 -> d <> 0 -> secret <> EmptyString -> commitment <> EmptyString ->
  let now := clock (clockReads w) in
  let input :=
    {| Express.birth_year := y; Express.birth_month := m; Express.birth_day := d;
       Express.identity_secret := secret;
       Express.current_year := getFullYear now;
       Express.current_month := getMonth now + 1;
       Express.current_day := getDate now;
       Express.identity_commitment := commitment;
       Express.min_age := 18 |} in
  let p := fst (Express.generateZKProof sha256_hex input w) in
  let id := fingerprint sha256_hex (JSON_stringify p) in
  Express.post_generate_proof sha256_hex clock
    {| Express.attributes :=
         {| Express.birthYear := Some y; Express.birthMonth := Some m;
            Express.birthDay := Some d; Express.identitySecret := Some secret |};
       Express.identityCommitment := Some commitment |} w
  = ({| Express.status := 200;
        Express.body := Express.ProofGenerated id (Express.signal_is_one p)
                          (publicSignals p !! 1%nat) |},
     mkWorld
       (<[id := {| Express.c_proof := p;
                   Express.c_publicSignals := publicSignals p;
                   Express.c_timestamp := getTime (clock (S (clockReads w)));
                   Express.c_isEligible := Express.signal_is_one p |}]> (proofCache w))
       (S (S (clockReads w)))
       (hashed (snd (Express.generateZKProof sha256_hex input w)) ++ [JSON_stringify p])%list).
Proof.
  intros Hy Hm Hd Hs Hc. cbv zeta. unfold Express.post_generate_proof.
  cbn [Express.attributes Express.birthYear Express.birthMonth Express.birthDay
       Express.identitySecret Express.identityCommitment].
  rewrite !present_int_Some, !present_str_Some by assumption.
  reflexivity.
Qed.



(** *** The approximate age against the calendar *)

Lemma InLeapYear_spec (y : Z) :
  Express.InLeapYear y = true <-> (y mod 4 = 0 /\ (y mod 100 <> 0 \/ y mod 400 = 0)).
Proof.
  unfold Express.InLeapYear.
  destruct (Z.eqb_spec (y mod 4) 0), (Z.eqb_spec (y mod 100) 0), (Z.eqb_spec (y mod 400) 0);
    cbn; split; try discriminate; try tauto; intros; lia.
Qed.

Lemma DayFromYear_succ (y : Z) :
  Express.DayFromYear (y + 1)
  = Express.DayFromYear y + 365 + (if Express.InLeapYear y then 1 else 0).
Proof.
  pose proof (InLeapYear_spec y) as Hl.
  destruct (Express.InLeapYear y); unfold Express.DayFromYear.
  - destruct Hl as [Hl _]. specialize (Hl eq_refl). Z.div_mod_to_equations. lia.
  - assert (~ (y mod 4 = 0 /\ (y mod 100 <> 0 \/ y mod 400 = 0))) as Hn
      by (intros H; apply Hl in H; discriminate).
    clear Hl. Z.div_mod_to_equations. lia.
Qed.

Lemma DayFromYear_mono (a b : Z) : a <= b -> Express.DayFromYear a <= Express.DayFromYear b.
Proof. intros H. unfold Express.DayFromYear. Z.div_mod_to_equations. lia. Qed.

Lemma MakeDay_in_year (y m d : Z) :
  1 <= m <= 12 ->
  Express.MakeDay y (m - 1) d
  = Express.DayFromYear y + Express.DayWithinYear (Express.InLeapYear y) (m - 1) + d - 1.
Proof.
  intros Hm. unfold Express.MakeDay. cbv zeta.
  rewrite (Z.div_small (m - 1) 12), (Z.mod_small (m - 1) 12), Z.add_0_r by lia.
  reflexivity.
Qed.

(** A month starts where the month before it ends, and the twelve months
    fill the year. *)
Lemma DayWithinYear_next (l : bool) (m : Z) :
  1 <= m < 12 ->
  Express.DayWithinYear l (m - 1) + days_in_month l m = Express.DayWithinYear l (m + 1 - 1).
Proof.
  intros Hm. month_cases m; try lia; destruct l; reflexivity.
Qed.

Lemma DayWithinYear_bounds (l : bool) (m : Z) :
  1 <= m <= 12 ->
  0 <= Express.DayWithinYear l (m - 1)
  /\ Express.DayWithinYear l (m - 1) + days_in_month l m <= 365 + (if l then 1 else 0).
Proof.
  intros Hm. month_cases m; destruct l; split; apply Z.leb_le; reflexivity.
Qed.

Lemma DayWithinYear_mono (l : bool) (m n : Z) :
  1 <= m -> m <= n -> n <= 12 ->
  Express.DayWithinYear l (m - 1) <= Express.DayWithinYear l (n - 1).
Proof.
  intros H1 H2 H3. month_cases m; month_cases n; try lia; destruct l; apply Z.leb_le;
    reflexivity.
Qed.

(** A civil date before the day [bd] of month [bm] of year [y] has a smaller
    day number, whether or not that month has a day [bd]. *)
Lemma MakeDay_lt (cy cm cd y bm bd : Z) :
  civil_date cy cm cd -> 1 <= bm <= 12 -> 1 <= bd ->
  ~ date_le y bm bd cy cm cd ->
  Express.MakeDay cy (cm - 1) cd < Express.MakeDay y (bm - 1) bd.
Proof.
  intros [Hcm Hcd] Hbm Hbd Hlt. rewrite !MakeDay_in_year by lia.
  pose proof (DayWithinYear_bounds (Express.InLeapYear cy) cm Hcm) as [Hc0 Hc1].
  pose proof (DayWithinYear_bounds (Express.InLeapYear y) bm Hbm) as [Hb0 Hb1].
  unfold date_le in Hlt.
  destruct (Z.lt_trichotomy cy y) as [Hy|[Hy|Hy]]; [| |lia].
  - pose proof (DayFromYear_succ cy) as Hs.
    pose proof (DayFromYear_mono (cy + 1) y ltac:(lia)) as Hmono. lia.
  - subst y. destruct (Z.lt_trichotomy cm bm) as [Hm|[Hm|Hm]]; [| |lia].
    + pose proof (DayWithinYear_next (Express.InLeapYear cy) cm ltac:(lia)) as Hn.
      pose proof (DayWithinYear_mono (Express.InLeapYear cy) (cm + 1) bm
                    ltac:(lia) ltac:(lia) ltac:(lia)) as Hmono.
      lia.
    + subst bm. lia.
Qed.

(** Eighteen years are 6573 to 6575 days. *)
Lemma eighteen_years_in_days (y m d : Z) :
  1 <= m <= 12 ->
  6573 <= Express.MakeDay (y + 18) (m - 1) d - Express.MakeDay y (m - 1) d <= 6575.
Proof.
  intros Hm. rewrite !MakeDay_in_year by lia.
  pose proof (InLeapYear_spec y) as Hy. pose proof (InLeapYear_spec (y + 18)) as Hy'.
  assert (forall l l', Express.DayWithinYear l' (m - 1) - Express.DayWithinYear l (m - 1)
                       = if (m <=? 2)%Z then 0
                         else (if l' then 1 else 0) - (if l then 1 else 0)) as Hd.
  { intros l l'. month_cases m; destruct l, l'; reflexivity. }
  specialize (Hd (Express.InLeapYear y) (Express.InLeapYear (y + 18))).
  unfold Express.DayFromYear.
  destruct (Express.InLeapYear y), (Express.InLeapYear (y + 18)), (Z.leb_spec m 2);
    try (assert (y mod 4 = 0 /\ (y mod 100 <> 0 \/ y mod 400 = 0)) as Hl
           by (apply Hy; reflexivity));
    try (assert (~ (y mod 4 = 0 /\ (y mod 100 <> 0 \/ y mod 400 = 0))) as Hl
           by (intros H'; apply Hy in H'; discriminate));
    try (assert ((y + 18) mod 4 = 0 /\ ((y + 18) mod 100 <> 0 \/ (y + 18) mod 400 = 0)) as Hl'
           by (apply Hy'; reflexivity));
    try (assert (~ ((y + 18) mod 4 = 0 /\ ((y + 18) mod 100 <> 0 \/ (y + 18) mod 400 = 0)))
           as Hl' by (intros H'; apply Hy' in H'; discriminate));
    clear Hy Hy'; Z.div_mod_to_equations; lia.
Qed.



(** ** Commitments of src/gap-server.js *)

Lemma hex_value_below_16 (c : ascii) (d : N) : Express.hex_value c = Some d -> (d < 16)%N.
Proof.
  unfold Express.hex_value.
  destruct (N.leb_spec 48 (N_of_ascii c)), (N.leb_spec (N_of_ascii c) 57);
    cbn [andb]; try (intros [= <-]; lia);
    destruct (N.leb_spec 97 (N_of_ascii c)), (N.leb_spec (N_of_ascii c) 102);
    cbn [andb]; try (intros [= <-]; lia);
    destruct (N.leb_spec 65 (N_of_ascii c)), (N.leb_spec (N_of_ascii c) 70);
    cbn [andb]; try (intros [= <-]; lia); discriminate.
Qed.

Lemma hex_digits_bound (s : string) (acc n : N) :
  Express.hex_digits acc s = Some n -> (n < (acc + 1) * 16 ^ N.of_nat (String.length s))%N.
Proof.
  revert acc. induction s as [|c s IH]; intros acc; cbn [Express.hex_digits String.length].
  - intros [= <-]. cbn. lia.
  - destruct (Express.hex_value c) as [d|] eqn:Hd; [|discriminate].
    intros H. apply IH in H. apply hex_value_below_16 in Hd.
    rewrite Nat2N.inj_succ, N.pow_succ_r'.
    assert (0 < 16 ^ N.of_nat (String.length s))%N by (apply N.neq_0_lt_0, N.pow_nonzero; lia).
    nia.
Qed.

Lemma length_substring_le (n m : nat) (s : string) :
  (String.length (String.substring n m s) <= m)%nat.
Proof.
  revert n m. induction s as [|c s IH]; intros [|n] [|m]; cbn; try lia.
  - specialize (IH 0%nat m). lia.
  - apply (IH n 0%nat).
  - apply (IH n (S m)).
Qed.

(** The commitment of src/gap-server.js, when [BigInt] accepts the digest, is
    a number below 2^64. *)
Theorem express_commitment_below_2_64 (sha256_hex : string -> string)
    (y m d : Z) (secret : string) (w : World Express.CachedProof) (n : N) :
  fst (Express.generateIdentityCommitment sha256_hex y m d secret w) = Some n ->
  (n < 2 ^ 64)%N.
Proof.
  unfold Express.generateIdentityCommitment. run_handler. unfold Express.BigInt_of_hex.
  destruct (substring16 _) as [|c s] eqn:Hs; [discriminate|].
  intros H. apply hex_digits_bound in H.
  pose proof (length_substring_le 0 16 (sha256_hex
    (pretty y +:+ "-" +:+ pretty m +:+ "-" +:+ pretty d +:+ "-" +:+ secret))) as Hlen.
  unfold substring16 in Hs. rewrite Hs in Hlen.
  assert (16 ^ N.of_nat (String.length (String c s)) <= 16 ^ 16)%N
    by (apply N.pow_le_mono_r; lia).
  change (2 ^ 64)%N with (16 ^ 16)%N. lia.
Qed.

Lemma express_commitment_below_2_64_witness :
  (16951189319679651874 < 2 ^ 64)%N.
Proof.
  apply (express_commitment_below_2_64 SHA256.hex 1990 5 15 "s3cret" Scenario.fresh_express).
  vm_compute. reflexivity.
Defined.

(** *** The digest of SHA-256 is 64 hexadecimal digits *)

Lemma all_hex_app (a b : string) : all_hex (a +:+ b) = all_hex a && all_hex b.
Proof.
  induction a as [|c a IH]; [reflexivity|].
  change (String c a +:+ b) with (String c (a +:+ b)). cbn [all_hex].
  destruct (Express.hex_value c); [exact IH | reflexivity].
Qed.

Lemma length_app_string (a b : string) :
  String.length (a +:+ b) = (String.length a + String.length b)%nat.
Proof.
  induction a as [|c a IH]; [reflexivity|].
  change (String c a +:+ b) with (String c (a +:+ b)). cbn [String.length]. lia.
Qed.

Lemma hex_digit_hex (d : Z) :
  0 <= d < 16 -> all_hex (SHA256.hex_digit d) = true /\ String.length (SHA256.hex_digit d) = 1%nat.
Proof.
  intros Hd.
  assert (d = 0 \/ d = 1 \/ d = 2 \/ d = 3 \/ d = 4 \/ d = 5 \/ d = 6 \/ d = 7 \/ d = 8
          \/ d = 9 \/ d = 10 \/ d = 11 \/ d = 12 \/ d = 13 \/ d = 14 \/ d = 15) as H by lia.
  repeat (destruct H as [->|H]; [split; reflexivity|]). subst d. split; reflexivity.
Qed.

Lemma hex_word_hex (n : nat) (x : Z) :
  all_hex (SHA256.hex_word n x) = true /\ String.length (SHA256.hex_word n x) = n.
Proof.
  induction n as [|n [IHa IHl]]; [split; reflexivity|].
  cbn [SHA256.hex_word].
  destruct (hex_digit_hex (Z.land (Z.shiftr x (4 * Z.of_nat n)) 15)) as [Ha Hl].
  { change 15 with (Z.ones 4). rewrite Z.land_ones by lia.
    apply Z.mod_pos_bound. lia. }
  rewrite all_hex_app, length_app_string, Ha, Hl, IHa, IHl. split; reflexivity.
Qed.

Lemma hex_words_hex (h : list Z) :
  all_hex (fold_right (fun w acc => SHA256.hex_word 8 w +:+ acc) EmptyString h) = true
  /\ String.length (fold_right (fun w acc => SHA256.hex_word 8 w +:+ acc) EmptyString h)
     = (8 * length h)%nat.
Proof.
  induction h as [|x h [IHa IHl]]; [split; reflexivity|].
  cbn [fold_right length]. destruct (hex_word_hex 8 x) as [Ha Hl].
  rewrite all_hex_app, length_app_string, Ha, Hl, IHa, IHl. split; [reflexivity | lia].
Qed.

Lemma round_length (st : list Z) (kw : Z * Z) : length (SHA256.round st kw) = length st.
Proof.
  destruct st as [|a [|b [|c [|d [|e [|f [|g [|h [|i r]]]]]]]]]; reflexivity.
Qed.

Lemma compress_length (h block : list Z) : length (SHA256.compress h block) = length h.
Proof.
  unfold SHA256.compress. rewrite length_map, length_combine.
  assert (forall kws st, length (fold_left SHA256.round kws st) = length st) as Hfold.
  { induction kws as [|kw kws IH]; intros st; [reflexivity|].
    cbn [fold_left]. rewrite IH. apply round_length. }
  rewrite Hfold. lia.
Qed.

Lemma blocks_length (n : nat) (bs h : list Z) : length (SHA256.blocks n bs h) = length h.
Proof.
  revert bs h. induction n as [|n IH]; intros bs h; [reflexivity|].
  cbn [SHA256.blocks]. rewrite IH. apply compress_length.
Qed.

Lemma SHA256_hex_format (s : string) :
  all_hex (SHA256.hex s) = true /\ String.length (SHA256.hex s) = 64%nat.
Proof.
  unfold SHA256.hex. cbv zeta.
  destruct (hex_words_hex
              (SHA256.blocks (length (SHA256.pad (SHA256.bytes_of_string s)) / 64)
                 (SHA256.pad (SHA256.bytes_of_string s)) SHA256.H0)) as [Ha Hl].
  rewrite blocks_length in Hl. split; [exact Ha | exact Hl].
Qed.

Lemma all_hex_substring (n m : nat) (s : string) :
  all_hex s = true -> all_hex (String.substring n m s) = true.
Proof.
  revert n m. induction s as [|c s IH]; intros [|n] [|m]; cbn; try reflexivity.
  - destruct (Express.hex_value c); [intros H; apply (IH 0%nat m H) | discriminate].
  - destruct (Express.hex_value c); [intros H; apply (IH n 0%nat H) | discriminate].
  - destruct (Express.hex_value c); [intros H; apply (IH n (S m) H) | discriminate].
Qed.

Lemma hex_digits_all_hex (s : string) (acc : N) :
  all_hex s = true -> exists n, Express.hex_digits acc s = Some n.
Proof.
  revert acc. induction s as [|c s IH]; intros acc; cbn [all_hex Express.hex_digits].
  - eauto.
  - destruct (Express.hex_value c); [apply IH | discriminate].
Qed.



(** ** The circuits *)

(** [calculateAge] is the difference of the years, less one at most. *)
Lemma calculateAge_bounds (by_ bm bd cy cm cd : Z) :
  cy - by_ - 1 <= Simple.calculateAge by_ bm bd cy cm cd <= cy - by_.
Proof.
  unfold Simple.calculateAge.
  destruct ((cm <? bm)%Z || (cm =? bm)%Z && (cd <? bd)%Z); lia.
Qed.

(** The AgeVerification template on integers that do not wrap around: which
    inputs have a witness, and the outputs it then fixes. *)
Lemma AgeVerification_cases (Poseidon4 : Z -> Z -> Z -> Z -> Z)
    (Poseidon3 : Z -> Z -> Z -> Z) (i : Circuit.Inputs) :
  no_wrap (Circuit.birth_year i) -> no_wrap (Circuit.birth_month i) ->
  no_wrap (Circuit.birth_day i) -> no_wrap (Circuit.current_year i) ->
  no_wrap (Circuit.current_month i) -> no_wrap (Circuit.current_day i) ->
  no_wrap (Circuit.min_age i) ->
  let age := Simple.calculateAge (Circuit.birth_year i) (Circuit.birth_month i)
               (Circuit.birth_day i) (Circuit.current_year i) (Circuit.current_month i)
               (Circuit.current_day i) in
  let e := if (Circuit.min_age i <=? age)%Z then 1 else 0 in
  Circuit.AgeVerification Poseidon4 Poseidon3 i
  = if ((Circuit.identity_commitment i
         - Poseidon4 (Circuit.birth_year i) (Circuit.birth_month i) (Circuit.birth_day i)
             (Circuit.identity_secret i)) mod Circuit.p =? 0)%Z
       && fits 8 (Circuit.birth_month i) (Circuit.current_month i)
       && fits 8 (Circuit.birth_day i) (Circuit.current_day i + 1)
       && fits 8 (Circuit.min_age i) (age + 1)
       && (-2071 <=? Circuit.birth_year i)%Z && (Circuit.birth_year i <=? 2024)%Z
       && (1 <=? Circuit.birth_month i)%Z && (Circuit.birth_month i <=? 12)%Z
       && (1 <=? Circuit.birth_day i)%Z && (Circuit.birth_day i <=? 31)%Z
    then Some {| Circuit.is_eligible := e;
                 Circuit.proof_hash :=
                   Poseidon3 (Circuit.identity_commitment i) e
                     ((Circuit.current_year i * 10000 + Circuit.current_month i * 100
                       + Circuit.current_day i) mod Circuit.p) |}
    else None.
Proof.
  intros Hby Hbm Hbd Hcy Hcm Hcd Hmin age e.
  pose proof (calculateAge_bounds (Circuit.birth_year i) (Circuit.birth_month i)
                (Circuit.birth_day i) (Circuit.current_year i) (Circuit.current_month i)
                (Circuit.current_day i)) as Hage.
  fold age in Hage.
  unfold Circuit.AgeVerification. cbv zeta.
  destruct (_ =? 0)%Z; cbn [negb andb]; [|reflexivity].
  rewrite age_years_cases, date_valid_cases by assumption. fold age.
  destruct (fits 8 (Circuit.birth_month i) (Circuit.current_month i)); cbn [andb];
    [|reflexivity].
  destruct (fits 8 (Circuit.birth_day i) (Circuit.current_day i + 1)); cbn [andb];
    [|reflexivity].
  cbn [mbind option_bind]. unfold Circuit.GreaterEqThan. rewrite LessThan_mod_r.
  comparator_cases LessThan_cases no_wrap_bounds.
  destruct (fits 8 (Circuit.min_age i) (age + 1)); cbn [andb mbind option_bind];
    [|reflexivity].
  replace (Circuit.min_age i <? age + 1)%Z with (Circuit.min_age i <=? age)%Z
    by (destruct (Z.leb_spec (Circuit.min_age i) age),
          (Z.ltb_spec (Circuit.min_age i) (age + 1)); reflexivity || lia).
  fold e.
  destruct (Z.leb_spec (-2071) (Circuit.birth_year i)),
    (Z.ltb_spec (Circuit.birth_year i) 6121),
    (Z.leb_spec (-243) (Circuit.birth_month i)),
    (Z.leb_spec (Circuit.birth_month i) 256),
    (Z.leb_spec (-224) (Circuit.birth_day i)),
    (Z.leb_spec (Circuit.birth_day i) 256),
    (Z.leb_spec (Circuit.birth_year i) 2024),
    (Z.leb_spec 1 (Circuit.birth_month i)),
    (Z.leb_spec (Circuit.birth_month i) 12),
    (Z.leb_spec 1 (Circuit.birth_day i)),
    (Z.leb_spec (Circuit.birth_day i) 31); try lia; reflexivity.
Qed.

(** The relation the AgeVerification circuit enforces, on signals that stand
    for integers without wrapping around the field. A witness exists exactly
    when the commitment is the hash of the private inputs, the birth year is
    in -2071..2024 (the lower bound is that of the 12-bit comparator: no bound
    of the template), the month is in 1..12 and the day in 1..31, and the
    three comparisons of the age computation fit their eight bits: the
    current month and day are within 256 of those of the birth, and the age
    within 256 of the minimum age. The current date is constrained in no
    other way. The eligibility output is then 1 from the [min_age]-th birthday
    on and 0 before, and the proof hash binds the commitment, that output and
    the current date. *)
Theorem AgeVerification_relation (Poseidon4 : Z -> Z -> Z -> Z -> Z)
    (Poseidon3 : Z -> Z -> Z -> Z) (i : Circuit.Inputs) (o : Circuit.Outputs) :
  no_wrap (Circuit.birth_year i) -> no_wrap (Circuit.birth_month i) ->
  no_wrap (Circuit.birth_day i) -> no_wrap (Circuit.current_year i) ->
  no_wrap (Circuit.current_month i) -> no_wrap (Circuit.current_day i) ->
  no_wrap (Circuit.min_age i) ->
  Circuit.AgeVerification Poseidon4 Poseidon3 i = Some o
  <-> ((Circuit.identity_commitment i
        - Poseidon4 (Circuit.birth_year i) (Circuit.birth_month i) (Circuit.birth_day i)
            (Circuit.identity_secret i)) mod Circuit.p = 0
       /\ -2071 <= Circuit.birth_year i <= 2024
       /\ 1 <= Circuit.birth_month i <= 12
       /\ 1 <= Circuit.birth_day i <= 31
       /\ fits 8 (Circuit.birth_month i) (Circuit.current_month i) = true
       /\ fits 8 (Circuit.birth_day i) (Circuit.current_day i + 1) = true
       /\ fits 8 (Circuit.min_age i)
            (Simple.calculateAge (Circuit.birth_year i) (Circuit.birth_month i)
               (Circuit.birth_day i) (Circuit.current_year i) (Circuit.current_month i)
               (Circuit.current_day i) + 1) = true
       /\ ((date_le (Circuit.birth_year i + Circuit.min_age i) (Circuit.birth_month i)
              (Circuit.birth_day i) (Circuit.current_year i) (Circuit.current_month i)
              (Circuit.current_day i)
            /\ Circuit.is_eligible o = 1)
           \/ (~ date_le (Circuit.birth_year i + Circuit.min_age i) (Circuit.birth_month i)
                 (Circuit.birth_day i) (Circuit.current_year i) (Circuit.current_month i)
                 (Circuit.current_day i)
               /\ Circuit.is_eligible o = 0))
       /\ Circuit.proof_hash o
          = Poseidon3 (Circuit.identity_commitment i) (Circuit.is_eligible o)
              ((Circuit.current_year i * 10000 + Circuit.current_month i * 100
                + Circuit.current_day i) mod Circuit.p)).
Proof.
  intros Hby Hbm Hbd Hcy Hcm Hcd Hmin.
  rewrite (AgeVerification_cases Poseidon4 Poseidon3 i) by assumption. cbv zeta.
  pose proof (calculateAge_at_least (Circuit.min_age i) (Circuit.birth_year i)
                (Circuit.birth_month i) (Circuit.birth_day i) (Circuit.current_year i)
                (Circuit.current_month i) (Circuit.current_day i)) as Hage.
  destruct (Z.eqb_spec
              ((Circuit.identity_commitment i
                - Poseidon4 (Circuit.birth_year i) (Circuit.birth_month i)
                    (Circuit.birth_day i) (Circuit.identity_secret i)) mod Circuit.p) 0)
    as [Hc|Hc]; cbn [andb]; [|split; [discriminate | tauto]].
  destruct (fits 8 (Circuit.birth_month i) (Circuit.current_month i)); cbn [andb];
    [|split; [discriminate | intros H; decompose [and] H; discriminate]].
  destruct (fits 8 (Circuit.birth_day i) (Circuit.current_day i + 1)); cbn [andb];
    [|split; [discriminate | intros H; decompose [and] H; discriminate]].
  destruct (fits 8 (Circuit.min_age i) _); cbn [andb];
    [|split; [discriminate | intros H; decompose [and] H; discriminate]].
  destruct (Z.leb_spec (-2071) (Circuit.birth_year i)),
    (Z.leb_spec (Circuit.birth_year i) 2024), (Z.leb_spec 1 (Circuit.birth_month i)),
    (Z.leb_spec (Circuit.birth_month i) 12), (Z.leb_spec 1 (Circuit.birth_day i)),
    (Z.leb_spec (Circuit.birth_day i) 31); cbn [andb];
    try (split; [discriminate | lia]).
  destruct (Z.leb_spec (Circuit.min_age i)
              (Simple.calculateAge (Circuit.birth_year i) (Circuit.birth_month i)
                 (Circuit.birth_day i) (Circuit.current_year i) (Circuit.current_month i)
                 (Circuit.current_day i))) as [Hle|Hlt].
  - split.
    + intros [= <-]. cbn. repeat split; try lia. left. split; [tauto | reflexivity].
    + intros [_ [_ [_ [_ [_ [_ [_ [[[_ He]|[Hn _]] Hh]]]]]]]]; [|tauto].
      destruct o as [e h]. cbn in *. subst. reflexivity.
  - split.
    + intros [= <-]. cbn. repeat split; try lia. right. split; [|reflexivity].
      intros Hd. apply Hage in Hd. lia.
    + intros [_ [_ [_ [_ [_ [_ [_ [[[Hd _]|[_ He]] Hh]]]]]]]]; [apply Hage in Hd; lia|].
      destruct o as [e h]. cbn in *. subst. reflexivity.
Qed.

Lemma AgeVerification_relation_witness :
  Circuit.AgeVerification example_Poseidon4 example_Poseidon3 example_circuit_inputs
  = Some example_circuit_outputs
  <-> ((Circuit.identity_commitment example_circuit_inputs
        - example_Poseidon4 (Circuit.birth_year example_circuit_inputs)
            (Circuit.birth_month example_circuit_inputs)
            (Circuit.birth_day example_circuit_inputs)
            (Circuit.identity_secret example_circuit_inputs)) mod Circuit.p = 0
       /\ -2071 <= Circuit.birth_year example_circuit_inputs <= 2024
       /\ 1 <= Circuit.birth_month example_circuit_inputs <= 12
       /\ 1 <= Circuit.birth_day example_circuit_inputs <= 31
       /\ fits 8 (Circuit.birth_month example_circuit_inputs)
            (Circuit.current_month example_circuit_inputs) = true
       /\ fits 8 (Circuit.birth_day example_circuit_inputs)
            (Circuit.current_day example_circuit_inputs + 1) = true
       /\ fits 8 (Circuit.min_age example_circuit_inputs)
            (Simple.calculateAge (Circuit.birth_year example_circuit_inputs)
               (Circuit.birth_month example_circuit_inputs)
               (Circuit.birth_day example_circuit_inputs)
               (Circuit.current_year example_circuit_inputs)
               (Circuit.current_month example_circuit_inputs)
               (Circuit.current_day example_circuit_inputs) + 1) = true
       /\ ((date_le (Circuit.birth_year example_circuit_inputs
                     + Circuit.min_age example_circuit_inputs)
              (Circuit.birth_month example_circuit_inputs)
              (Circuit.birth_day example_circuit_inputs)
              (Circuit.current_year example_circuit_inputs)
              (Circuit.current_month example_circuit_inputs)
              (Circuit.current_day example_circuit_inputs)
            /\ Circuit.is_eligible example_circuit_outputs = 1)
           \/ (~ date_le (Circuit.birth_year example_circuit_inputs
                          + Circuit.min_age example_circuit_inputs)
                 (Circuit.birth_month example_circuit_inputs)
                 (Circuit.birth_day example_circuit_inputs)
                 (Circuit.current_year example_circuit_inputs)
                 (Circuit.current_month example_circuit_inputs)
                 (Circuit.current_day example_circuit_inputs)
               /\ Circuit.is_eligible example_circuit_outputs = 0))
       /\ Circuit.proof_hash example_circuit_outputs
          = example_Poseidon3 (Circuit.identity_commitment example_circuit_inputs)
              (Circuit.is_eligible example_circuit_outputs)
              ((Circuit.current_year example_circuit_inputs * 10000
                + Circuit.current_month example_circuit_inputs * 100
                + Circuit.current_day example_circuit_inputs) mod Circuit.p)).
Proof.
  apply (AgeVerification_relation example_Poseidon4 example_Poseidon3 example_circuit_inputs
           example_circuit_outputs); vm_compute; split; reflexivity.
Defined.

(** The EntityProof template on integers that do not wrap around. *)
Lemma EntityProof_cases (Poseidon4 : Z -> Z -> Z -> Z -> Z) (Poseidon2 : Z -> Z -> Z)
    (i : EntityCircuit.Inputs) :
  no_wrap (EntityCircuit.balance i) -> no_wrap (EntityCircuit.min_balance_threshold i) ->
  no_wrap (EntityCircuit.timestamp i) -> no_wrap (EntityCircuit.max_timestamp i) ->
  let v := if (EntityCircuit.min_balance_threshold i <=? EntityCircuit.balance i)%Z
              && (EntityCircuit.timestamp i <=? EntityCircuit.max_timestamp i)%Z
           then 1 else 0 in
  EntityCircuit.EntityProof Poseidon4 Poseidon2 i
  = if ((EntityCircuit.commitment i
         - Poseidon4 (EntityCircuit.entity_id i) (EntityCircuit.secret_key i)
             (EntityCircuit.balance i) (EntityCircuit.timestamp i)) mod Circuit.p =? 0)%Z
       && fits 64 (EntityCircuit.min_balance_threshold i) (EntityCircuit.balance i + 1)
       && fits 64 (EntityCircuit.timestamp i) (EntityCircuit.max_timestamp i + 1)
    then Some {| EntityCircuit.valid_entity := v;
                 EntityCircuit.proof_hash := Poseidon2 (EntityCircuit.commitment i) v |}
    else None.
Proof.
  intros Hb Hm Ht Hx v. unfold EntityCircuit.EntityProof. cbv zeta.
  destruct (_ =? 0)%Z; cbn [negb andb]; [|reflexivity].
  unfold Circuit.GreaterEqThan, Circuit.LessEqThan. comparator_cases LessThan_cases no_wrap_bounds.
  destruct (fits 64 (EntityCircuit.min_balance_threshold i) (EntityCircuit.balance i + 1));
    cbn [andb mbind option_bind]; [|reflexivity].
  destruct (fits 64 (EntityCircuit.timestamp i) (EntityCircuit.max_timestamp i + 1));
    cbn [andb mbind option_bind]; [|reflexivity].
  subst v.
  destruct (Z.ltb_spec (EntityCircuit.min_balance_threshold i) (EntityCircuit.balance i + 1)),
    (Z.leb_spec (EntityCircuit.min_balance_threshold i) (EntityCircuit.balance i)); try lia;
    destruct (Z.ltb_spec (EntityCircuit.timestamp i) (EntityCircuit.max_timestamp i + 1)),
      (Z.leb_spec (EntityCircuit.timestamp i) (EntityCircuit.max_timestamp i)); try lia;
    reflexivity.
Qed.

(** The relation the EntityProof circuit enforces, on signals that stand for
    integers without wrapping around the field. A witness exists exactly when
    the commitment is the hash of the private inputs and the two comparisons
    fit their 64 bits: the balance is within 2^64 of the threshold, and the
    timestamp within 2^64 of the maximum (as it is when all four are below
    2^64). The validity output is then 1 when the balance reaches the
    threshold and the timestamp is not past the maximum, and 0 otherwise. *)
Theorem EntityProof_relation (Poseidon4 : Z -> Z -> Z -> Z -> Z) (Poseidon2 : Z -> Z -> Z)
    (i : EntityCircuit.Inputs) (o : EntityCircuit.Outputs) :
  no_wrap (EntityCircuit.balance i) -> no_wrap (EntityCircuit.min_balance_threshold i) ->
  no_wrap (EntityCircuit.timestamp i) -> no_wrap (EntityCircuit.max_timestamp i) ->
  EntityCircuit.EntityProof Poseidon4 Poseidon2 i = Some o
  <-> ((EntityCircuit.commitment i
        - Poseidon4 (EntityCircuit.entity_id i) (EntityCircuit.secret_key i)
            (EntityCircuit.balance i) (EntityCircuit.timestamp i)) mod Circuit.p = 0
       /\ fits 64 (EntityCircuit.min_balance_threshold i) (EntityCircuit.balance i + 1) = true
       /\ fits 64 (EntityCircuit.timestamp i) (EntityCircuit.max_timestamp i + 1) = true
       /\ ((EntityCircuit.min_balance_threshold i <= EntityCircuit.balance i
            /\ EntityCircuit.timestamp i <= EntityCircuit.max_timestamp i
            /\ EntityCircuit.valid_entity o = 1)
           \/ (~ (EntityCircuit.min_balance_threshold i <= EntityCircuit.balance i
                  /\ EntityCircuit.timestamp i <= EntityCircuit.max_timestamp i)
               /\ EntityCircuit.valid_entity o = 0))
       /\ EntityCircuit.proof_hash o
          = Poseidon2 (EntityCircuit.commitment i) (EntityCircuit.valid_entity o)).
Proof.
  intros Hb Hm Ht Hx.
  rewrite (EntityProof_cases Poseidon4 Poseidon2 i) by assumption. cbv zeta.
  destruct (Z.eqb_spec
              ((EntityCircuit.commitment i
                - Poseidon4 (EntityCircuit.entity_id i) (EntityCircuit.secret_key i)
                    (EntityCircuit.balance i) (EntityCircuit.timestamp i)) mod Circuit.p) 0)
    as [Hc|Hc]; cbn [andb]; [|split; [discriminate | tauto]].
  destruct (fits 64 (EntityCircuit.min_balance_threshold i) (EntityCircuit.balance i + 1));
    cbn [andb]; [|split; [discriminate | intros H; decompose [and] H; discriminate]].
  destruct (fits 64 (EntityCircuit.timestamp i) (EntityCircuit.max_timestamp i + 1));
    cbn [andb]; [|split; [discriminate | intros H; decompose [and] H; discriminate]].
  destruct (Z.leb_spec (EntityCircuit.min_balance_threshold i) (EntityCircuit.balance i)),
    (Z.leb_spec (EntityCircuit.timestamp i) (EntityCircuit.max_timestamp i));
    cbn [andb]; (split;
      [ intros [= <-]; cbn; split; [assumption|]; do 2 (split; [reflexivity|]);
        split; [|reflexivity];
        first [left; split; [assumption|]; split; [assumption | reflexivity]
              | right; split; [lia | reflexivity]]
      | intros [_ [_ [_ [[[Hb' [Ht' He]]|[Hn He]] Hh]]]]; try lia;
        destruct o as [v h]; cbn in *; subst; reflexivity ]).
Qed.

Lemma EntityProof_relation_witness :
  EntityCircuit.EntityProof example_Poseidon4 example_Poseidon2 example_entity_inputs
  = Some example_entity_outputs
  <-> ((EntityCircuit.commitment example_entity_inputs
        - example_Poseidon4 (EntityCircuit.entity_id example_entity_inputs)
            (EntityCircuit.secret_key example_entity_inputs)
            (EntityCircuit.balance example_entity_inputs)
            (EntityCircuit.timestamp example_entity_inputs)) mod Circuit.p = 0
       /\ fits 64 (EntityCircuit.min_balance_threshold example_entity_inputs)
            (EntityCircuit.balance example_entity_inputs + 1) = true
       /\ fits 64 (EntityCircuit.timestamp example_entity_inputs)
            (EntityCircuit.max_timestamp example_entity_inputs + 1) = true
       /\ ((EntityCircuit.min_balance_threshold example_entity_inputs
            <= EntityCircuit.balance example_entity_inputs
            /\ EntityCircuit.timestamp example_entity_inputs
               <= EntityCircuit.max_timestamp example_entity_inputs
            /\ EntityCircuit.valid_entity example_entity_outputs = 1)
           \/ (~ (EntityCircuit.min_balance_threshold example_entity_inputs
                  <= EntityCircuit.balance example_entity_inputs
                  /\ EntityCircuit.timestamp example_entity_inputs
                     <= EntityCircuit.max_timestamp example_entity_inputs)
               /\ EntityCircuit.valid_entity example_entity_outputs = 0))
       /\ EntityCircuit.proof_hash example_entity_outputs
          = example_Poseidon2 (EntityCircuit.commitment example_entity_inputs)
              (EntityCircuit.valid_entity example_entity_outputs)).
Proof.
  apply (EntityProof_relation example_Poseidon4 example_Poseidon2 example_entity_inputs
           example_entity_outputs); vm_compute; split; reflexivity.
Defined.

(** ** The server against the circuit it simulates *)

Lemma safe_integer_no_wrap (z : Z) : safe_integer z -> no_wrap z.
Proof.
  unfold safe_integer, no_wrap. intros H.
  assert (2 ^ 53 <= 2 ^ 250) by (apply Z.pow_le_mono_r; lia). lia.
Qed.

(** simple-gap-server.js decides eligibility as the AgeVerification circuit
    does, for a proof request whose birth fields are integers that a double
    holds exactly: whenever the circuit has a witness for that birth date, the
    local date of the clock read and the minimum age 18 (whatever the secret,
    the commitment and the hash functions), the [isEligible] flag of the
    answer is true exactly when the circuit's [is_eligible] output is 1. *)
Theorem simple_server_agrees_with_the_circuit (sha256_hex : string -> string)
    (clock : nat -> DateObj) (w : World Simple.CachedProof) (y m d : Z)
    (secret commitment id label h : string) (e : bool)
    (Poseidon4 : Z -> Z -> Z -> Z -> Z) (Poseidon3 : Z -> Z -> Z -> Z)
    (secret_signal commitment_signal : Z) (o : Circuit.Outputs) :
  safe_integer y -> safe_integer m -> safe_integer d ->
  calendar_fields (clock (clockReads w)) ->
  y <> 0 -> m <> 0 -> d <> 0 -> secret <> EmptyString -> commitment <> EmptyString ->
  Simple.body
    (fst (Simple.handleGenerateProof sha256_hex clock
            (Some {| Simple.attributes :=
                       {| Simple.birthYear := Some y; Simple.birthMonth := Some m;
                          Simple.birthDay := Some d;
                          Simple.identitySecret := Some secret |};
                     Simple.identityCommitment := Some commitment |}) w))
  = Simple.ProofGenerated id e label h ->
  Circuit.AgeVerification Poseidon4 Poseidon3
    {| Circuit.birth_year := y; Circuit.birth_month := m; Circuit.birth_day := d;
       Circuit.identity_secret := secret_signal;
       Circuit.current_year := getFullYear (clock (clockReads w));
       Circuit.current_month := getMonth (clock (clockReads w)) + 1;
       Circuit.current_day := getDate (clock (clockReads w));
       Circuit.identity_commitment := commitment_signal;
       Circuit.min_age := 18 |}
  = Some o ->
  (e = true <-> Circuit.is_eligible o = 1).
Proof.
  intros Sy Sm Sd [Hcy [Hcm Hcd]] Hy Hm Hd Hs Hc.
  rewrite (handleGenerateProof_run sha256_hex clock w y m d secret commitment Hy Hm Hd Hs Hc).
  cbn [fst Simple.body]. intros [= _ <- _ _].
  rewrite AgeVerification_cases;
    cbn [Circuit.birth_year Circuit.birth_month Circuit.birth_day Circuit.current_year
         Circuit.current_month Circuit.current_day Circuit.min_age
         Circuit.identity_commitment Circuit.identity_secret];
    try (apply safe_integer_no_wrap; assumption);
    try (unfold no_wrap; assert (2 ^ 20 <= 2 ^ 250) by (apply Z.pow_le_mono_r; lia);
         change (2 ^ 20) with 1048576 in *; lia).
  cbv zeta.
  match goal with |- (if ?c then _ else _) = _ -> _ => destruct c end; [|discriminate].
  intros [= <-]. cbn [Circuit.is_eligible].
  destruct (18 <=? Simple.calculateAge y m d (getFullYear (clock (clockReads w)))
                     (getMonth (clock (clockReads w)) + 1)
                     (getDate (clock (clockReads w))))%Z;
    split; intros; try reflexivity; discriminate.
Qed.

Lemma simple_server_agrees_with_the_circuit_witness :
  true = true <-> Circuit.is_eligible example_circuit_outputs = 1.
Proof.
  apply (simple_server_agrees_with_the_circuit SHA256.hex Scenario.clock_2024 Scenario.fresh
           1990 5 15 "s3cret" "eb3eb8dfffe6b022" Scenario.issued_id "18+" "7fc1d9e271f8406e"
           true example_Poseidon4 example_Poseidon3 7 2017 example_circuit_outputs);
    try discriminate; vm_compute; try reflexivity; repeat split; discriminate.
Defined.

(** ** The strings that are hashed *)

Lemma pretty_N_char_digit (x : N) : is_digit (pretty_N_char x) = true.
Proof.
  unfold pretty_N_char.
  repeat match goal with
         | |- context [match ?x with _ => _ end] => destruct x
         end; reflexivity.
Qed.

Lemma all_digits_app (a b : string) : all_digits (a +:+ b) = all_digits a && all_digits b.
Proof.
  induction a as [|c a IH]; [reflexivity|].
  change (String c a +:+ b) with (String c (a +:+ b)). cbn [all_digits].
  rewrite IH, andb_assoc. reflexivity.
Qed.

Lemma append_empty_r (s : string) : s +:+ "" = s.
Proof.
  induction s as [|c s IH]; [reflexivity|].
  change (String c s +:+ "") with (String c (s +:+ "")). rewrite IH. reflexivity.
Qed.

Lemma pretty_N_go_digits (x : N) (s : string) :
  exists d, pretty_N_go x s = d +:+ s /\ all_digits d = true
            /\ ((0 < x)%N -> d <> EmptyString).
Proof.
  revert s. induction (N.lt_wf_0 x) as [x _ IH]; intros s.
  assert (x = 0 \/ 0 < x)%N as [->|Hx] by lia.
  - exists EmptyString. split; [reflexivity|]. split; [reflexivity | lia].
  - rewrite pretty_N_go_step by exact Hx.
    destruct (IH (x `div` 10)%N (N.div_lt x 10 Hx eq_refl)
                (String (pretty_N_char (x `mod` 10)) s)) as [d [Hd [Ha _]]].
    exists (d +:+ String (pretty_N_char (x `mod` 10)) EmptyString).
    split; [|split].
    + rewrite Hd, append_assoc. reflexivity.
    + rewrite all_digits_app, Ha. cbn [all_digits andb].
      rewrite pretty_N_char_digit. reflexivity.
    + intros _. destruct d; discriminate.
Qed.

(** The shape of a printed integer: an optional minus sign, then digits. *)
Lemma pretty_Z_shape (z : Z) :
  exists d, pretty z = (if (z <? 0)%Z then "-" else "") +:+ d
            /\ all_digits d = true /\ d <> EmptyString.
Proof.
  destruct z as [|p|p].
  - exists "0". repeat split; discriminate.
  - destruct (pretty_N_go_digits (N.pos p) "") as [d [Hd [Ha Hne]]].
    exists d. split; [|split; [exact Ha | apply Hne; lia]].
    change (pretty (Z.pos p)) with (pretty_N_go (N.pos p) "").
    rewrite Hd, append_empty_r. reflexivity.
  - destruct (pretty_N_go_digits (N.pos p) "") as [d [Hd [Ha Hne]]].
    exists d. split; [|split; [exact Ha | apply Hne; lia]].
    change (pretty (Z.neg p)) with ("-" +:+ pretty_N_go (N.pos p) "").
    rewrite Hd, append_empty_r. reflexivity.
Qed.

(** Digits, then a dash: the dash ends the digits. *)
Lemma digits_dash_inj (d1 d2 r1 r2 : string) :
  all_digits d1 = true -> all_digits d2 = true ->
  d1 +:+ "-" +:+ r1 = d2 +:+ "-" +:+ r2 -> d1 = d2 /\ r1 = r2.
Proof.
  revert d2. induction d1 as [|c1 d1 IH]; intros [|c2 d2] H1 H2 H.
  - change (String "-" r1 = String "-" r2) in H. injection H as ->. split; reflexivity.
  - change (String "-" r1 = String c2 (d2 +:+ "-" +:+ r2)) in H. injection H as <- _.
    cbn in H2. discriminate.
  - change (String c1 (d1 +:+ "-" +:+ r1) = String "-" r2) in H. injection H as -> _.
    cbn in H1. discriminate.
  - change (String c1 (d1 +:+ "-" +:+ r1) = String c2 (d2 +:+ "-" +:+ r2)) in H.
    injection H as <- H. cbn [all_digits] in H1, H2.
    apply andb_prop in H1, H2. destruct H1 as [_ H1], H2 as [_ H2].
    destruct (IH d2 H1 H2 H) as [-> ->]. split; reflexivity.
Qed.

(** A printed integer followed by a dash is read back unambiguously. *)
Lemma pretty_Z_dash_inj (x y : Z) (r1 r2 : string) :
  pretty x +:+ "-" +:+ r1 = pretty y +:+ "-" +:+ r2 -> x = y /\ r1 = r2.
Proof.
  destruct (pretty_Z_shape x) as [dx [Hx [Hax Hnx]]].
  destruct (pretty_Z_shape y) as [dy [Hy [Hay Hny]]].
  rewrite Hx, Hy. intros H.
  assert (dx = dy /\ r1 = r2 /\ (x <? 0)%Z = (y <? 0)%Z) as [Hd [Hr Hs]].
  { destruct (x <? 0)%Z, (y <? 0)%Z.
    - rewrite !append_assoc in H. apply (inj (String.app _)) in H.
      destruct (digits_dash_inj _ _ _ _ Hax Hay H) as [-> ->]. auto.
    - exfalso. destruct dy as [|c dy]; [contradiction|].
      change (String "-" (dx +:+ "-" +:+ r1) = String c (dy +:+ "-" +:+ r2)) in H.
      injection H as <- _. cbn in Hay. discriminate.
    - exfalso. destruct dx as [|c dx]; [contradiction|].
      change (String c (dx +:+ "-" +:+ r1) = String "-" (dy +:+ "-" +:+ r2)) in H.
      injection H as -> _. cbn in Hax. discriminate.
    - change ("" +:+ dx) with dx in H. change ("" +:+ dy) with dy in H.
      destruct (digits_dash_inj _ _ _ _ Hax Hay H) as [-> ->]. auto. }
  split; [|exact Hr]. apply (inj pretty). rewrite Hx, Hy, Hd, Hs. reflexivity.
Qed.

(** The string hashed into a commitment determines the four attributes. *)
Lemma commitment_preimage_inj (y1 m1 d1 y2 m2 d2 : Z) (s1 s2 : string) :
  pretty y1 +:+ "-" +:+ pretty m1 +:+ "-" +:+ pretty d1 +:+ "-" +:+ s1
  = pretty y2 +:+ "-" +:+ pretty m2 +:+ "-" +:+ pretty d2 +:+ "-" +:+ s2 ->
  y1 = y2 /\ m1 = m2 /\ d1 = d2 /\ s1 = s2.
Proof.
  intros H. apply pretty_Z_dash_inj in H. destruct H as [-> H].
  apply pretty_Z_dash_inj in H. destruct H as [-> H].
  apply pretty_Z_dash_inj in H. destruct H as [-> ->]. auto.
Qed.

(** The string hashed for a commitment is read back unambiguously. For
    attribute sets whose year, month and day are integers that a double
    holds exactly, and whose secret is a string: two different sets are
    hashed as two different strings, so that their commitments are equal
    exactly when the 64-bit fingerprint collides on two different strings.
    (A year given as the string "1990-5", say, is not covered: it can yield
    the string of another set.) *)
Theorem commitment_binds_the_attributes (sha256_hex : string -> string)
    (y1 m1 d1 y2 m2 d2 : Z) (s1 s2 : string) (w1 w2 : World Simple.CachedProof) :
  safe_integer y1 -> safe_integer m1 -> safe_integer d1 ->
  safe_integer y2 -> safe_integer m2 -> safe_integer d2 ->
  (y1, m1, d1, s1) <> (y2, m2, d2, s2) ->
  exists input1 input2,
    hashed (snd (Simple.generateIdentityCommitment sha256_hex y1 m1 d1 s1 w1))
    = (hashed w1 ++ [input1])%list
    /\ hashed (snd (Simple.generateIdentityCommitment sha256_hex y2 m2 d2 s2 w2))
       = (hashed w2 ++ [input2])%list
    /\ input1 <> input2
    /\ (fst (Simple.generateIdentityCommitment sha256_hex y1 m1 d1 s1 w1)
        = fst (Simple.generateIdentityCommitment sha256_hex y2 m2 d2 s2 w2)
        <-> fingerprint sha256_hex input1 = fingerprint sha256_hex input2).
Proof.
  intros _ _ _ _ _ _ Hne.
  exists (pretty y1 +:+ "-" +:+ pretty m1 +:+ "-" +:+ pretty d1 +:+ "-" +:+ s1),
         (pretty y2 +:+ "-" +:+ pretty m2 +:+ "-" +:+ pretty d2 +:+ "-" +:+ s2).
  unfold Simple.generateIdentityCommitment. run_handler.
  split; [reflexivity|]. split; [reflexivity|]. split; [|reflexivity].
  intros H. apply commitment_preimage_inj in H.
  destruct H as [-> [-> [-> ->]]]. apply Hne. reflexivity.
Qed.

Lemma commitment_binds_the_attributes_witness :
  exists input1 input2,
    hashed (snd (Simple.generateIdentityCommitment SHA256.hex 1990 5 15 "3-x"
                   Scenario.fresh))
    = (hashed Scenario.fresh ++ [input1])%list
    /\ hashed (snd (Simple.generateIdentityCommitment SHA256.hex 1990 51 5 "3-x"
                      Scenario.fresh_later))
       = (hashed Scenario.fresh_later ++ [input2])%list
    /\ input1 <> input2
    /\ (fst (Simple.generateIdentityCommitment SHA256.hex 1990 5 15 "3-x" Scenario.fresh)
        = fst (Simple.generateIdentityCommitment SHA256.hex 1990 51 5 "3-x"
                 Scenario.fresh_later)
        <-> fingerprint SHA256.hex input1 = fingerprint SHA256.hex input2).
Proof.
  apply (commitment_binds_the_attributes SHA256.hex 1990 5 15 1990 51 5 "3-x" "3-x"
           Scenario.fresh Scenario.fresh_later).
  1-6: split; reflexivity.
  discriminate.
Defined.

(** The proof hash of src/gap-server.js runs the fields of the date
    together. Two inputs with the same commitment and the same eligibility
    whose years, months and days print to the same string when concatenated
    without separators (11 January and 1 November of a year, say) get the same
    proof and the same credential id. *)
Theorem express_proof_runs_the_date_together (sha256_hex : string -> string)
    (i j : Express.CircuitInput) (w1 w2 : World Express.CachedProof) :
  Express.identity_commitment i = Express.identity_commitment j ->
  pretty (Express.current_year i) +:+ pretty (Express.current_month i)
    +:+ pretty (Express.current_day i)
  = pretty (Express.current_year j) +:+ pretty (Express.current_month j)
      +:+ pretty (Express.current_day j) ->
  (Express.min_age i <=? Express.approximate_age i)%Z
  = (Express.min_age j <=? Express.approximate_age j)%Z ->
  fst (Express.generateZKProof sha256_hex i w1) = fst (Express.generateZKProof sha256_hex j w2)
  /\ fst (Express.generateProofId sha256_hex (fst (Express.generateZKProof sha256_hex i w1)) w1)
     = fst (Express.generateProofId sha256_hex
              (fst (Express.generateZKProof sha256_hex j w2)) w2).
Proof.
  intros Hc Hd He.
  assert (fst (Express.generateZKProof sha256_hex i w1)
          = fst (Express.generateZKProof sha256_hex j w2)) as Hp.
  { unfold Express.generateZKProof, Express.generateProofHash. run_handler.
    rewrite Hc, He, Hd. reflexivity. }
  split; [exact Hp|]. rewrite Hp. unfold Express.generateProofId. run_handler. reflexivity.
Qed.

Lemma express_proof_runs_the_date_together_witness :
  fst (Express.generateZKProof SHA256.hex january_eleventh Scenario.fresh_express)
  = fst (Express.generateZKProof SHA256.hex november_first Scenario.fresh_express)
  /\ fst (Express.generateProofId SHA256.hex
            (fst (Express.generateZKProof SHA256.hex january_eleventh Scenario.fresh_express))
            Scenario.fresh_express)
     = fst (Express.generateProofId SHA256.hex
              (fst (Express.generateZKProof SHA256.hex november_first Scenario.fresh_express))
              Scenario.fresh_express).
Proof.
  apply (express_proof_runs_the_date_together SHA256.hex january_eleventh november_first
           Scenario.fresh_express Scenario.fresh_express); reflexivity.
Defined.

(** ** src/compact-integration.js *)

Section CompactFacts.
Import CompactAgeVerification.
Variable R : Runtime.
Variable BigInt : string -> option Z.
Variable JSON_stringify_proof : Proof R -> Exn R + option string.
Variable sha256_hex : string -> string.
Variable clock : nat -> DateObj.

Lemma require_initialized_run (s : State R) :
  require_initialized R s
  = if initialized R s then (Returns tt, s)
    else (Throws (JsError "Compact not initialized"), s).
Proof.
  unfold require_initialized, bind, get, throw, ret. destruct (initialized R s); reflexivity.
Qed.

Lemma invoke_uninitialized (m : Method R) (s : State R) :
  guarded R m = true -> initialized R s = false ->
  invoke R BigInt JSON_stringify_proof sha256_hex clock m s
  = (Some (JsError "Compact not initialized"), s).
Proof.
  intros Hg Hi.
  destruct m; try discriminate Hg; cbn [invoke];
    unfold createIdentityCommitment, generateAgeProof, verifyAgeProof,
      submitVerificationToNetwork, queryVerificationStatus, createBettingCertificate;
    unfold bind at 1; rewrite require_initialized_run, Hi; reflexivity.
Qed.

(** Before [initialize] has succeeded (and after [disconnect]), each of the
    six guarded methods throws 'Compact not initialized' and leaves the object
    as it was: the runtime is not called and the clock is not read, whatever
    the arguments. *)
Theorem guarded_methods_throw_before_initialisation (s : State R)
    (birthYear birthMonth birthDay : Z) (identitySecret : string)
    (identityData : IdentityData (Commitment R)) (currentDate : CurrentDate)
    (proof : Proof R) (publicInputs : PublicInputs R) (proofData : AgeProof (Proof R))
    (walletAddress proofHash jurisdiction : string) (maxBetAmount : float) :
  initialized R s = false ->
  createIdentityCommitment R BigInt birthYear birthMonth birthDay identitySecret s
  = (Throws (JsError "Compact not initialized"), s)
  /\ generateAgeProof R BigInt JSON_stringify_proof sha256_hex clock identityData
       currentDate s
     = (Throws (JsError "Compact not initialized"), s)
  /\ verifyAgeProof R proof publicInputs s = (Throws (JsError "Compact not initialized"), s)
  /\ submitVerificationToNetwork R proofData walletAddress s
     = (Throws (JsError "Compact not initialized"), s)
  /\ queryVerificationStatus R proofHash s = (Throws (JsError "Compact not initialized"), s)
  /\ createBettingCertificate R sha256_hex clock proofData jurisdiction maxBetAmount s
     = (Throws (JsError "Compact not initialized"), s).
Proof.
  intros Hi.
  unfold createIdentityCommitment, generateAgeProof, verifyAgeProof,
    submitVerificationToNetwork, queryVerificationStatus, createBettingCertificate.
  repeat split; unfold bind at 1; rewrite require_initialized_run, Hi; reflexivity.
Qed.

Lemma initialize_never_throws (s : State R) :
  exists b, fst (initialize R s) = Returns b.
Proof.
  run_method. oracle_cases; eexists; reflexivity.
Qed.

(** [initialize] never throws. When it returns true the object is
    initialised, its provider and its runtime are set, and exactly the three
    calls were made; when it returns false, [initialized] is what it was
    before: a failed attempt on an initialised object leaves it marked
    initialised. *)
Theorem initialize_outcome (s : State R) :
  match initialize R s with
  | (Returns true, s') =>
      initialized R s' = true /\ is_Some (compact R s') /\ is_Some (provider R s')
      /\ calls R s' = (calls R s ++ [GetProvider; NewCompact; CompactInitialize])%list
  | (Returns false, s') => initialized R s' = initialized R s
  | (Throws _, _) => False
  end.
Proof.
  run_method.
  destruct (MidnightProviders_getProvider R (calls R s) (networkId R s)) as [e|p];
    [reflexivity|].
  cbn [fst snd networkId provider compact initialized calls reads].
  destruct (new_Compact R (calls R s ++ [GetProvider]) p (networkId R s)) as [e|h];
    [reflexivity|].
  cbn [fst snd networkId provider compact initialized calls reads].
  destruct (compact_initialize R ((calls R s ++ [GetProvider]) ++ [NewCompact]) h) as [e|[]];
    [reflexivity|].
  cbn [fst snd networkId provider compact initialized calls reads].
  split; [reflexivity|]. split; [eexists; reflexivity|]. split; [eexists; reflexivity|].
  rewrite <- !app_assoc. reflexivity.
Qed.

(** A guarded method leaves the three fields as they are. *)
Lemma guarded_keeps_fields (m : Method R) (s : State R) :
  guarded R m = true ->
  let s' := snd (invoke R BigInt JSON_stringify_proof sha256_hex clock m s) in
  provider R s' = provider R s /\ compact R s' = compact R s
  /\ initialized R s' = initialized R s.
Proof.
  intros Hg. cbv zeta.
  destruct (initialized R s) eqn:Hi.
  2:{ rewrite (invoke_uninitialized m s Hg Hi). cbn. auto. }
  destruct s as [nid p c i l r]. cbn in Hi. subst i.
  destruct m; try discriminate Hg; cbn [invoke]; run_method; cbn [negb];
    try (match goal with
         | |- context [BigInt ?x] => destruct (BigInt x); cbn; [|auto]
         end);
    (destruct c; cbn; [|auto]); oracle_cases; auto.
Qed.
Lemma invoke_well_initialized (m : Method R) (s : State R) :
  well_initialized R s ->
  well_initialized R (snd (invoke R BigInt JSON_stringify_proof sha256_hex clock m s)).
Proof.
  intros Hinv. destruct (guarded R m) eqn:Hg.
  { destruct (guarded_keeps_fields m s Hg) as [Hp [Hc Hi]]. unfold well_initialized.
    rewrite Hp, Hc, Hi. exact Hinv. }
  unfold well_initialized in *. destruct s as [nid p c i l r].
  cbn [initialized compact provider] in Hinv.
  destruct m; try discriminate Hg; cbn [invoke]; run_method.
  - destruct (MidnightProviders_getProvider R l nid) as [e|p'];
      cbn [negb fst snd networkId provider compact initialized calls reads thrown];
      [exact Hinv|].
    destruct (new_Compact R (l ++ [GetProvider]) p' nid) as [e|h];
      cbn [negb fst snd networkId provider compact initialized calls reads thrown].
    { intros Hi. destruct (Hinv Hi) as [Hc _]. split; [exact Hc | eexists; reflexivity]. }
    destruct (compact_initialize R ((l ++ [GetProvider]) ++ [NewCompact]) h) as [e|[]];
      cbn [negb fst snd networkId provider compact initialized calls reads thrown];
      intros _; split; eexists; reflexivity.
  - exact Hinv.
  - destruct c as [h|]; cbn [negb fst snd networkId provider compact initialized calls reads thrown];
      [|intros Hi; discriminate Hi].
    destruct (compact_disconnect R l h) as [e|[]];
      cbn [negb fst snd networkId provider compact initialized calls reads thrown];
      [exact Hinv | intros Hi; discriminate Hi].
Qed.

Lemma run_well_initialized (ms : list (Method R)) (s : State R) :
  well_initialized R s ->
  well_initialized R (run R BigInt JSON_stringify_proof sha256_hex clock ms s).
Proof.
  revert s. induction ms as [|m ms IH]; intros s Hinv; [exact Hinv|].
  cbn [run fold_left]. apply IH, invoke_well_initialized, Hinv.
Qed.

Lemma invoke_no_NullCompact (m : Method R) (s : State R) (c0 : Call) :
  well_initialized R s ->
  fst (invoke R BigInt JSON_stringify_proof sha256_hex clock m s)
  <> Some (TypeError (NullCompact c0)).
Proof.
  intros Hinv. destruct (initialized R s) eqn:Hi.
  2:{ destruct (guarded R m) eqn:Hg.
      - rewrite (invoke_uninitialized m s Hg Hi). discriminate.
      - destruct s as [nid p c i l r]. cbn in Hi. subst i.
        destruct m; try discriminate Hg; cbn [invoke].
        + destruct (initialize_never_throws
                      {| networkId := nid; provider := p; compact := c;
                         initialized := false; calls := l; reads := r |}) as [b Hb].
          destruct (initialize R _) as [o s']. cbn in Hb. subst o. cbn. discriminate.
        + run_method. discriminate.
        + run_method. destruct c as [h|]; cbn; [|discriminate].
          destruct (compact_disconnect R l h) as [e|[]]; cbn; discriminate. }
  destruct (Hinv Hi) as [[h Hc] _].
  destruct s as [nid p c i l r]. cbn in Hi, Hc. subst i c.
  destruct m; cbn [invoke].
  - destruct (initialize_never_throws
                {| networkId := nid; provider := p; compact := Some h;
                   initialized := true; calls := l; reads := r |}) as [b Hb].
    destruct (initialize R _) as [o s']. cbn in Hb. subst o. cbn. discriminate.
  - run_method; cbn [negb]. destruct (BigInt identitySecret0); cbn; [|discriminate].
    oracle_cases; discriminate.
  - run_method; cbn [negb]. destruct (BigInt (identitySecret identityData)); cbn;
      [|discriminate].
    oracle_cases; discriminate.
  - run_method; cbn [negb]. oracle_cases; discriminate.
  - run_method; cbn [negb]. oracle_cases; discriminate.
  - run_method; cbn [negb]. oracle_cases; discriminate.
  - run_method; cbn [negb]. oracle_cases; discriminate.
  - run_method. discriminate.
  - run_method. oracle_cases; discriminate.
Qed.

(** From the constructor on, whatever methods are used and whatever the
    runtime answers, [this.compact] and [this.provider] are set whenever
    [this.initialized] is true, and no method ever throws for calling a
    method of [this.compact] when it is [null]: the guard lets a method
    through only when [this.compact] is set. (A TypeError can still come from
    [commitment.toString()], on a commitment that is [null] say, and from the
    hashing of a proof that cannot be serialised.) *)
Theorem no_method_call_on_null (networkId : string) (ms : list (Method R)) (m : Method R)
    (c : Call) :
  well_initialized R
    (run R BigInt JSON_stringify_proof sha256_hex clock ms (constructor R networkId))
  /\ fst (invoke R BigInt JSON_stringify_proof sha256_hex clock m
            (run R BigInt JSON_stringify_proof sha256_hex clock ms (constructor R networkId)))
     <> Some (TypeError (NullCompact c)).
Proof.
  assert (well_initialized R
            (run R BigInt JSON_stringify_proof sha256_hex clock ms (constructor R networkId)))
    as Hinv.
  { apply run_well_initialized. intros Hi. discriminate Hi. }
  split; [exact Hinv|]. apply invoke_no_NullCompact, Hinv.
Qed.


(** The two checks fail closed. Once the object is initialised,
    [verifyAgeProof] and [queryVerificationStatus] never throw;
    [verifyAgeProof] returns true only when the verifier of the runtime
    returned true, and the status reports an eligible credential only when
    the runtime returned a record that says so. *)
Theorem verification_fails_closed (proof : Proof R) (publicInputs : PublicInputs R)
    (proofHash : string) (s : State R) :
  initialized R s = true ->
  (exists b,
     fst (verifyAgeProof R proof publicInputs s) = Returns b
     /\ (b = true ->
         exists h, compact R s = Some h
                   /\ compact_verifyProof R (calls R s) h "age_verification" proof
                        publicInputs = inr true))
  /\ (exists st,
        fst (queryVerificationStatus R proofHash s) = Returns st
        /\ (status_isEligible st = Some true ->
            exists h t, compact R s = Some h
                        /\ compact_queryState R (calls R s) h proofHash
                           = inr (StateRecord true t))).
Proof.
  intros Hi. destruct s as [nid p c i l r]. cbn in Hi. subst i. split.
  - run_method. destruct c as [h|]; simpl_state;
      [|eexists; split; [reflexivity|discriminate]].
    destruct (compact_verifyProof R l h "age_verification" proof publicInputs) as [e|b] eqn:Hv;
      simpl_state; eexists; (split; [reflexivity|]); [discriminate|].
    intros ->. exists h. split; [reflexivity | exact Hv].
  - run_method. destruct c as [h|]; simpl_state;
      [|eexists; split; [reflexivity|discriminate]].
    destruct (compact_queryState R l h proofHash) as [e|[| |el t]] eqn:Hq;
      simpl_state; eexists; (split; [reflexivity|]); cbn [status_isEligible];
      try discriminate.
    intros [= ->]. exists h, t. split; [reflexivity | exact Hq].
Qed.

Lemma calculateAge_same (birthYear birthMonth birthDay currentYear currentMonth currentDay : Z) :
  calculateAge birthYear birthMonth birthDay currentYear currentMonth currentDay
  = Simple.calculateAge birthYear birthMonth birthDay currentYear currentMonth currentDay.
Proof. reflexivity. Qed.

(** [generateAgeProof] decides eligibility itself. For identity data and a
    current date whose six date fields are numbers, integers that a double
    holds exactly: whenever the method returns, the [isEligible] flag is true
    exactly on or after the eighteenth birthday, by the dates it was given,
    whatever proof the runtime returned; the age label follows the flag, the
    hash is that of the string [JSON.stringify] made of the returned proof,
    the runtime was called once, and the identity secret was a string
    [BigInt] accepts. *)
Theorem generateAgeProof_decides_locally (identityData : IdentityData (Commitment R))
    (currentDate : CurrentDate) (s s' : State R) (r : AgeProof (Proof R)) :
  safe_integer (birthYear identityData) -> safe_integer (birthMonth identityData) ->
  safe_integer (birthDay identityData) -> safe_integer (year currentDate) ->
  safe_integer (month currentDate) -> safe_integer (day currentDate) ->
  generateAgeProof R BigInt JSON_stringify_proof sha256_hex clock identityData currentDate s
  = (Returns r, s') ->
  (isEligible r = true
   <-> date_le (birthYear identityData + 18) (birthMonth identityData)
         (birthDay identityData) (year currentDate) (month currentDate) (day currentDate))
  /\ age r = (if isEligible r then "18+" else "under_18")
  /\ (exists proofString,
        JSON_stringify_proof (proof r) = inr (Some proofString)
        /\ proofHash r = substring16 (sha256_hex proofString))
  /\ timestamp r = getTime (clock (reads R s))
  /\ is_Some (BigInt (identitySecret identityData))
  /\ calls R s' = (calls R s ++ [GenerateProof])%list.
Proof.
  intros _ _ _ _ _ _.
  destruct s as [nid p c i l r0]. run_method.
  destruct i; simpl_state; [|discriminate].
  destruct (BigInt (identitySecret identityData)) as [secret|]; simpl_state; [|discriminate].
  destruct c as [h|]; simpl_state; [|discriminate].
  match goal with
  | |- context [match ?x with inl _ => _ | inr _ => _ end] => destruct x as [e|pr]
  end; simpl_state; [discriminate|].
  destruct (JSON_stringify_proof pr) as [e|[proofString|]] eqn:Hjson; simpl_state;
    try discriminate.
  intros [= <- <-]. cbn [isEligible age proofHash timestamp proof calls].
  split; [|repeat split; eauto].
  rewrite Z.leb_le, calculateAge_same. apply calculateAge_at_least.
Qed.

(** A secret that is not an integer literal is refused before the runtime is
    asked anything: [generateAgeProof] and [createIdentityCommitment] throw
    the SyntaxError of [BigInt] and leave the object as it was. *)
Theorem non_numeric_secret_is_rejected (identityData : IdentityData (Commitment R))
    (currentDate : CurrentDate) (s : State R) :
  initialized R s = true -> BigInt (identitySecret identityData) = None ->
  generateAgeProof R BigInt JSON_stringify_proof sha256_hex clock identityData currentDate s
  = (Throws SyntaxError, s)
  /\ createIdentityCommitment R BigInt (birthYear identityData) (birthMonth identityData)
       (birthDay identityData) (identitySecret identityData) s
     = (Throws SyntaxError, s).
Proof.
  intros Hi Hb. destruct s as [nid p c i l r0]. cbn in Hi. subst i.
  split; run_method; rewrite Hb; reflexivity.
Qed.

(** [disconnect] clears [initialized] only when the runtime's own disconnect
    returns: if that throws, the exception goes to the caller and the object
    stays as initialised as it was. After a disconnect that returned, the
    provider and the runtime object are still set, so that [getNetworkInfo]
    reports the provider as before, next to [initialized: false]. *)
Theorem disconnect_outcome (s : State R) :
  match disconnect R s with
  | (Returns _, s') =>
      initialized R s' = false
      /\ fst (getNetworkInfo R s')
         = Returns {| info_networkId := networkId R s;
                      info_initialized := false;
                      info_provider := match provider R s with
                                       | Some _ => "connected"
                                       | None => "disconnected"
                                       end |}
  | (Throws e, s') =>
      initialized R s' = initialized R s /\ exists x, e = Raised x
  end.
Proof.
  destruct s as [nid p c i l r0]. run_method.
  destruct c as [h|]; cbn [negb fst snd networkId provider compact initialized calls reads];
    [|split; reflexivity].
  destruct (compact_disconnect R l h) as [e|[]];
    cbn [negb fst snd networkId provider compact initialized calls reads].
  - split; [reflexivity | eexists; reflexivity].
  - split; reflexivity.
Qed.
(** [submitVerificationToNetwork] returns only after the runtime has created
    a transaction from the wallet address and the given proof data, and then
    accepted that same transaction: the hash returned is the one the runtime
    gave for it, and the two calls were made in this order. *)
Theorem submission_creates_then_submits (proofData : AgeProof (Proof R))
    (walletAddress : string) (s s' : State R) (r : Submission (TxHash R)) :
  submitVerificationToNetwork R proofData walletAddress s = (Returns r, s') ->
  success _ r = true
  /\ submitted_networkId _ r = networkId R s
  /\ calls R s' = (calls R s ++ [CreateTransaction; SubmitTransaction])%list
  /\ exists h tx,
       compact R s = Some h
       /\ compact_createTransaction R (calls R s) h
            {| from := walletAddress;
               data_proof_hash := proofHash proofData;
               data_is_eligible := isEligible proofData;
               data_timestamp := timestamp proofData;
               tx_proof := proof proofData |}
          = inr tx
       /\ compact_submitTransaction R (calls R s ++ [CreateTransaction])%list h tx
          = inr (transactionHash _ r).
Proof.
  destruct s as [nid p c i l r0]. run_method.
  destruct i; simpl_state; [|discriminate].
  destruct c as [h|]; simpl_state; [|discriminate].
  destruct (compact_createTransaction R l h _) as [e|tx] eqn:Hc; simpl_state; [discriminate|].
  destruct (compact_submitTransaction R (l ++ [CreateTransaction]) h tx) as [e|hash] eqn:Hs;
    simpl_state; [discriminate|].
  intros [= <- <-]. cbn [success submitted_networkId transactionHash calls].
  split; [reflexivity|]. split; [reflexivity|]. split; [rewrite <- app_assoc; reflexivity|].
  exists h, tx. split; [reflexivity|]. split; [exact Hc | exact Hs].
Qed.

(** [createBettingCertificate] signs what it is given. Whenever it returns,
    the runtime has signed a certificate that carries the proof hash and the
    eligibility flag of the proof data as they were passed, true or not;
    [issued_at] is the first clock read, [expires_at] the second plus 24
    hours, and the certificate id hashes the third. *)
Theorem certificate_is_signed_as_given (proofData : AgeProof (Proof R))
    (jurisdiction : string) (maxBetAmount : float) (s s' : State R) (signed : Signed R) :
  createBettingCertificate R sha256_hex clock proofData jurisdiction maxBetAmount s
  = (Returns signed, s') ->
  exists h certificate,
    compact R s = Some h
    /\ compact_signData R (calls R s) h certificate = inr signed
    /\ proof_hash certificate = proofHash proofData
    /\ is_eligible certificate = isEligible proofData
    /\ CompactAgeVerification.jurisdiction certificate = jurisdiction
    /\ max_bet_amount certificate = maxBetAmount
    /\ issued_at certificate = getTime (clock (reads R s))
    /\ expires_at certificate = getTime (clock (S (reads R s))) + msPerDay
    /\ certificate_id certificate
       = String.substring 0 12
           (sha256_hex (proofHash proofData +:+ "-" +:+ jurisdiction +:+ "-"
                        +:+ pretty (getTime (clock (S (S (reads R s)))))))
    /\ reads R s' = (3 + reads R s)%nat.
Proof.
  destruct s as [nid p c i l r0]. run_method.
  destruct i; simpl_state; [|discriminate].
  destruct c as [h|]; simpl_state; [|discriminate].
  match goal with
  | |- context [compact_signData R l h ?cert] =>
      destruct (compact_signData R l h cert) as [e|sg] eqn:Hs; simpl_state;
      [discriminate|]; intros [= <- <-]; exists h, cert
  end.
  cbn [proof_hash is_eligible CompactAgeVerification.jurisdiction max_bet_amount issued_at
       expires_at certificate_id reads].
  repeat split; try reflexivity. exact Hs.
Qed.
End CompactFacts.

Lemma guarded_methods_throw_before_initialisation_witness :
  CompactAgeVerification.createIdentityCommitment example_runtime example_BigInt 1990 5 15
    "12345" (CompactAgeVerification.constructor example_runtime "testnet")
  = (CompactAgeVerification.Throws (CompactAgeVerification.JsError "Compact not initialized"),
     CompactAgeVerification.constructor example_runtime "testnet")
  /\ CompactAgeVerification.generateAgeProof example_runtime example_BigInt example_JSON_stringify
       SHA256.hex Scenario.clock_2024 example_identity example_date
       (CompactAgeVerification.constructor example_runtime "testnet")
     = (CompactAgeVerification.Throws
          (CompactAgeVerification.JsError "Compact not initialized"),
        CompactAgeVerification.constructor example_runtime "testnet")
  /\ CompactAgeVerification.verifyAgeProof example_runtime "proof" tt
       (CompactAgeVerification.constructor example_runtime "testnet")
     = (CompactAgeVerification.Throws
          (CompactAgeVerification.JsError "Compact not initialized"),
        CompactAgeVerification.constructor example_runtime "testnet")
  /\ CompactAgeVerification.submitVerificationToNetwork example_runtime example_age_proof
       "wallet" (CompactAgeVerification.constructor example_runtime "testnet")
     = (CompactAgeVerification.Throws
          (CompactAgeVerification.JsError "Compact not initialized"),
        CompactAgeVerification.constructor example_runtime "testnet")
  /\ CompactAgeVerification.queryVerificationStatus example_runtime "b5a666eb4586fa40"
       (CompactAgeVerification.constructor example_runtime "testnet")
     = (CompactAgeVerification.Throws
          (CompactAgeVerification.JsError "Compact not initialized"),
        CompactAgeVerification.constructor example_runtime "testnet")
  /\ CompactAgeVerification.createBettingCertificate example_runtime SHA256.hex
       Scenario.clock_2024 example_age_proof "UK" 100%float
       (CompactAgeVerification.constructor example_runtime "testnet")
     = (CompactAgeVerification.Throws
          (CompactAgeVerification.JsError "Compact not initialized"),
        CompactAgeVerification.constructor example_runtime "testnet").
Proof.
  apply (guarded_methods_throw_before_initialisation example_runtime example_BigInt
           example_JSON_stringify SHA256.hex Scenario.clock_2024
           (CompactAgeVerification.constructor example_runtime "testnet")
           1990 5 15 "12345" example_identity example_date "proof" tt example_age_proof
           "wallet" "b5a666eb4586fa40" "UK" 100%float).
  reflexivity.
Defined.

Lemma verification_fails_closed_witness :
  (exists b,
     fst (CompactAgeVerification.verifyAgeProof example_runtime "proof" tt
            example_initialized) = CompactAgeVerification.Returns b
     /\ (b = true ->
         exists h, CompactAgeVerification.compact example_runtime example_initialized = Some h
                   /\ CompactAgeVerification.compact_verifyProof example_runtime
                        (CompactAgeVerification.calls example_runtime example_initialized) h
                        "age_verification" "proof" tt = inr true))
  /\ (exists st,
        fst (CompactAgeVerification.queryVerificationStatus example_runtime
               "b5a666eb4586fa40" example_initialized) = CompactAgeVerification.Returns st
        /\ (CompactAgeVerification.status_isEligible st = Some true ->
            exists h t,
              CompactAgeVerification.compact example_runtime example_initialized = Some h
              /\ CompactAgeVerification.compact_queryState example_runtime
                   (CompactAgeVerification.calls example_runtime example_initialized) h
                   "b5a666eb4586fa40"
                 = inr (CompactAgeVerification.StateRecord true t))).
Proof.
  apply (verification_fails_closed example_runtime "proof" tt "b5a666eb4586fa40"
           example_initialized).
  reflexivity.
Defined.

Lemma generateAgeProof_decides_locally_witness :
  (CompactAgeVerification.isEligible example_age_proof = true
   <-> date_le (CompactAgeVerification.birthYear example_identity + 18)
         (CompactAgeVerification.birthMonth example_identity)
         (CompactAgeVerification.birthDay example_identity)
         (CompactAgeVerification.year example_date)
         (CompactAgeVerification.month example_date)
         (CompactAgeVerification.day example_date))
  /\ CompactAgeVerification.age example_age_proof
     = (if CompactAgeVerification.isEligible example_age_proof then "18+" else "under_18")
  /\ (exists proofString,
        example_JSON_stringify (CompactAgeVerification.proof example_age_proof)
        = inr (Some proofString)
        /\ CompactAgeVerification.proofHash example_age_proof
           = substring16 (SHA256.hex proofString))
  /\ CompactAgeVerification.timestamp example_age_proof
     = getTime (Scenario.clock_2024
                  (CompactAgeVerification.reads example_runtime example_initialized))
  /\ is_Some (example_BigInt (CompactAgeVerification.identitySecret example_identity))
  /\ CompactAgeVerification.calls example_runtime
       (snd (CompactAgeVerification.generateAgeProof example_runtime example_BigInt
               example_JSON_stringify SHA256.hex Scenario.clock_2024 example_identity
               example_date example_initialized))
     = (CompactAgeVerification.calls example_runtime example_initialized
        ++ [CompactAgeVerification.GenerateProof])%list.
Proof.
  apply (generateAgeProof_decides_locally example_runtime example_BigInt
           example_JSON_stringify SHA256.hex Scenario.clock_2024 example_identity
           example_date example_initialized
           (snd (CompactAgeVerification.generateAgeProof example_runtime example_BigInt
                   example_JSON_stringify SHA256.hex Scenario.clock_2024 example_identity
                   example_date example_initialized))
           example_age_proof).
  1-6: split; reflexivity.
  vm_compute. reflexivity.
Defined.

Lemma non_numeric_secret_is_rejected_witness :
  CompactAgeVerification.generateAgeProof example_runtime example_BigInt example_JSON_stringify
    SHA256.hex Scenario.clock_2024
    {| CompactAgeVerification.birthYear := 1990; CompactAgeVerification.birthMonth := 5;
       CompactAgeVerification.birthDay := 15;
       CompactAgeVerification.identitySecret := "s3cret";
       CompactAgeVerification.identityCommitment := 0 |}
    example_date example_initialized
  = (CompactAgeVerification.Throws CompactAgeVerification.SyntaxError, example_initialized)
  /\ CompactAgeVerification.createIdentityCommitment example_runtime example_BigInt
       1990 5 15 "s3cret" example_initialized
     = (CompactAgeVerification.Throws CompactAgeVerification.SyntaxError, example_initialized).
Proof.
  apply (non_numeric_secret_is_rejected example_runtime example_BigInt example_JSON_stringify SHA256.hex
           Scenario.clock_2024
           {| CompactAgeVerification.birthYear := 1990; CompactAgeVerification.birthMonth := 5;
              CompactAgeVerification.birthDay := 15;
              CompactAgeVerification.identitySecret := "s3cret";
              CompactAgeVerification.identityCommitment := 0 |}
           example_date example_initialized); reflexivity.
Defined.

Lemma submission_creates_then_submits_witness :
  CompactAgeVerification.success _
    {| CompactAgeVerification.success := true;
       CompactAgeVerification.transactionHash := "tx";
       CompactAgeVerification.submitted_networkId := "testnet" |} = true
  /\ CompactAgeVerification.submitted_networkId _
       {| CompactAgeVerification.success := true;
          CompactAgeVerification.transactionHash := "tx";
          CompactAgeVerification.submitted_networkId := "testnet" |}
     = CompactAgeVerification.networkId example_runtime example_initialized
  /\ CompactAgeVerification.calls example_runtime
       (snd (CompactAgeVerification.submitVerificationToNetwork example_runtime
               example_age_proof "wallet" example_initialized))
     = (CompactAgeVerification.calls example_runtime example_initialized
        ++ [CompactAgeVerification.CreateTransaction;
            CompactAgeVerification.SubmitTransaction])%list
  /\ exists h tx,
       CompactAgeVerification.compact example_runtime example_initialized = Some h
       /\ CompactAgeVerification.compact_createTransaction example_runtime
            (CompactAgeVerification.calls example_runtime example_initialized) h
            {| CompactAgeVerification.from := "wallet";
               CompactAgeVerification.data_proof_hash :=
                 CompactAgeVerification.proofHash example_age_proof;
               CompactAgeVerification.data_is_eligible :=
                 CompactAgeVerification.isEligible example_age_proof;
               CompactAgeVerification.data_timestamp :=
                 CompactAgeVerification.timestamp example_age_proof;
               CompactAgeVerification.tx_proof :=
                 CompactAgeVerification.proof example_age_proof |}
          = inr tx
       /\ CompactAgeVerification.compact_submitTransaction example_runtime
            (CompactAgeVerification.calls example_runtime example_initialized
             ++ [CompactAgeVerification.CreateTransaction])%list h tx
          = inr "tx".
Proof.
  apply (submission_creates_then_submits example_runtime example_age_proof "wallet"
           example_initialized
           (snd (CompactAgeVerification.submitVerificationToNetwork example_runtime
                   example_age_proof "wallet" example_initialized))
           {| CompactAgeVerification.success := true;
              CompactAgeVerification.transactionHash := "tx";
              CompactAgeVerification.submitted_networkId := "testnet" |}).
  reflexivity.
Defined.

Lemma certificate_is_signed_as_given_witness :
  exists h certificate,
    CompactAgeVerification.compact example_runtime example_initialized = Some h
    /\ CompactAgeVerification.compact_signData example_runtime
         (CompactAgeVerification.calls example_runtime example_initialized) h certificate
       = inr example_certificate
    /\ CompactAgeVerification.proof_hash certificate
       = CompactAgeVerification.proofHash example_age_proof
    /\ CompactAgeVerification.is_eligible certificate
       = CompactAgeVerification.isEligible example_age_proof
    /\ CompactAgeVerification.jurisdiction certificate = "UK"
    /\ CompactAgeVerification.max_bet_amount certificate = 100%float
    /\ CompactAgeVerification.issued_at certificate
       = getTime (Scenario.clock_2024
                    (CompactAgeVerification.reads example_runtime example_initialized))
    /\ CompactAgeVerification.expires_at certificate
       = getTime (Scenario.clock_2024
                    (S (CompactAgeVerification.reads example_runtime example_initialized)))
         + msPerDay
    /\ CompactAgeVerification.certificate_id certificate
       = String.substring 0 12
           (SHA256.hex
              (CompactAgeVerification.proofHash example_age_proof +:+ "-" +:+ "UK" +:+ "-"
               +:+ pretty (getTime
                             (Scenario.clock_2024
                                (S (S (CompactAgeVerification.reads example_runtime
                                         example_initialized)))))))
    /\ CompactAgeVerification.reads example_runtime
         (snd (CompactAgeVerification.createBettingCertificate example_runtime SHA256.hex
                 Scenario.clock_2024 example_age_proof "UK" 100%float example_initialized))
       = (3 + CompactAgeVerification.reads example_runtime example_initialized)%nat.
Proof.
  apply (certificate_is_signed_as_given example_runtime SHA256.hex Scenario.clock_2024
           example_age_proof "UK" 100%float example_initialized
           (snd (CompactAgeVerification.createBettingCertificate example_runtime SHA256.hex
                   Scenario.clock_2024 example_age_proof "UK" 100%float
                   example_initialized))
           example_certificate).
  vm_compute. reflexivity.
Defined.
